(** * Metrics service: ingestion, live registry and aggregate queries

    A shallow embedding of the request handlers and model statics of the
    metrics service (routes/aiTracking.js, routes/analytics.js,
    routes/metrics.js, models/AIRequest.js, models/SalesAnalytics.js,
    models/UserEngagement.js, models/PerformanceMetrics.js,
    utils/prometheus.js), followed by the
    properties of the specification that were checked against them.

    Conventions.
    - A JavaScript Number is a rational [Q]; token counts and millisecond
      instants and durations, which the service only adds and subtracts, are
      integers [Z]. The numeric fields of a request body are JSON numbers.
    - Request ids and transaction ids are strings. A user id is stored as
      an ObjectId, written as its hex string (the samples write a name in
      its place). The id of a condition is that ObjectId where Mongoose
      casts the condition ([find], [findOne], [countDocuments]) or the
      pipeline casts it itself, and the string of the request where an
      aggregation pipeline hands it to the store as it is; a string never
      equals a stored ObjectId ([JS.id]).
    - A collection is the list of its documents in insertion order; [findOne]
      returns the first match and [save] of a loaded document writes it back
      at the position it was read from.
    - A handler is a function from the call context, the request and the
      state of the process (collections and live registry) to a reply and
      the next state. A store operation that throws is an input of the call
      ([readFails], [writeFails]); the [catch] branch of the handler turns
      it into a 500 reply.
    - A handler runs up to its next [await] and other calls may run before
      it resumes: the duplicate check and the save of POST /track are two
      steps ([aiTracking.post_track_interleaved]).
    - The operations of the live registry update their aggregate and
      return, but a counter refuses a negative increment: [inc] with a
      value throws then, and the [catch] branch of the handler replies 500
      with the document saved and the registry as the earlier calls left
      it. Sums are exact, where the library adds doubles. *)

From Stdlib Require Import ZArith QArith Lia.
From stdpp Require Import base option list gmap strings.

Local Open Scope Z_scope.

(** ** JavaScript values *)

Module JS.

(** The values that occur in the result objects of the aggregations. *)
Inductive value : Type :=
| Null
| Num (q : Q)
| Str (s : string).

(** [typeof v === 'number'] *)
Definition is_number (v : value) : bool :=
  match v with Num _ => true | _ => false end.

(** Truthiness of a string: only the empty string is falsy. *)
Definition truthy_str (s : string) : bool := negb (String.eqb s "").

(** Truthiness of an optional string ([undefined] is falsy). *)
Definition truthy (o : option string) : bool :=
  match o with Some s => truthy_str s | None => false end.

(** Truthiness of a number: zero is falsy. *)
Definition truthy_num (q : Q) : bool := negb (Qeq_bool q 0).

(** [x || 0] on an optional integer. *)
Definition or_zero (o : option Z) : Z :=
  match o with Some z => z | None => 0 end.

(** [xs.includes(x)] on string literals, as the [isIn] validator uses it. *)
Definition includes (xs : list string) (x : string) : bool :=
  existsb (String.eqb x) xs.

(** Truthiness of a value. *)
Definition truthy_value (v : value) : bool :=
  match v with
  | Null => false
  | Num q => truthy_num q
  | Str s => truthy_str s
  end.

(** [a === b] *)
Definition strict_eq (a b : value) : bool :=
  match a, b with
  | Null, Null => true
  | Num p, Num q => Qeq_bool p q
  | Str s, Str t => String.eqb s t
  | _, _ => false
  end.

(** One property of [{ ...a, ...b }]: the later object wins where it has
    the property. *)
Definition later {A : Type} (a b : option A) : option A :=
  match b with Some _ => b | None => a end.

(** The id of a condition on an ObjectId path: the ObjectId that Mongoose
    casts the conditions of [find], [findOne] and [countDocuments] to, or
    that a pipeline builds with [mongoose.Types.ObjectId], or the string of
    the request, which the [$match] stage of an aggregation reaches as it
    is. *)
Inductive id : Type :=
| ObjectId (hex : string)
| IdString (s : string).

(** The store's comparison of a stored ObjectId, written as its hex
    string, with the id of a condition: a string is not an ObjectId. *)
Definition id_eq (stored : string) (i : id) : bool :=
  match i with
  | ObjectId hex => String.eqb stored hex
  | IdString _ => false
  end.

(** [s.includes(pattern)] on strings: the pattern starts at some
    position. *)
Fixpoint str_includes (pattern s : string) : bool :=
  String.prefix pattern s
  || match s with
     | EmptyString => false
     | String _ s' => str_includes pattern s'
     end.

(** An ASCII letter in lower case; any other code unit is left alone. *)
Definition lower_ascii (a : Ascii.ascii) : Ascii.ascii :=
  let n := Ascii.nat_of_ascii a in
  if (65 <=? n)%nat && (n <=? 90)%nat then Ascii.ascii_of_nat (n + 32)
  else a.

(** An ASCII letter in upper case. *)
Definition upper_ascii (a : Ascii.ascii) : Ascii.ascii :=
  let n := Ascii.nat_of_ascii a in
  if (97 <=? n)%nat && (n <=? 122)%nat then Ascii.ascii_of_nat (n - 32)
  else a.

Fixpoint lower (s : string) : string :=
  match s with
  | EmptyString => EmptyString
  | String a s' => String (lower_ascii a) (lower s')
  end.

(** [s.toUpperCase()] on a string of ASCII code units. *)
Fixpoint toUpperCase (s : string) : string :=
  match s with
  | EmptyString => EmptyString
  | String a s' => String (upper_ascii a) (toUpperCase s')
  end.

(** [/word/i.test(s)] for a word of ASCII letters: the word occurs in [s]
    when the case of ASCII letters is ignored. *)
Definition test_ignore_case (word s : string) : bool :=
  str_includes (lower word) (lower s).

(** The order of a [$sort] stage on the values of a field: null comes
    before the numbers and the numbers before the strings; numbers are
    compared by value and strings code unit by code unit. *)
Definition sort_le (a b : value) : bool :=
  match a, b with
  | Null, _ => true
  | Num _, Null => false
  | Num x, Num y => Qle_bool x y
  | Num _, Str _ => true
  | Str s, Str t => String.leb s t
  | Str _, _ => false
  end.

(** [{ field: { $gte: threshold } }] with a numeric threshold: only a number
    can match. *)
Definition gte_num (v : value) (threshold : Q) : bool :=
  match v with
  | Num x => Qle_bool threshold x
  | _ => false
  end.

End JS.

(** ** The live registry (utils/prometheus.js) *)

Module Prometheus.

(** A label set is the list of label values in the order of [labelNames];
    a value the caller left [undefined] is [None]. *)
Abbreviation labels := (list (option string)).

(** A counter maps each label set to its running total. *)
Abbreviation counter := (gmap labels Q).

(** A histogram is kept as the observations recorded for each label set,
    from which bucket counts, sum and count are derived. *)
Abbreviation histogram := (gmap labels (list Q)).

Record registry : Type := {
  aiRequestCounter : counter;        (* ai_requests_total *)
  aiRequestDuration : histogram;     (* ai_request_duration_seconds *)
  aiRequestTokens : counter;         (* ai_request_tokens_total *)
  aiRequestCost : counter;           (* ai_request_cost_total *)
  salesTransactionCounter : counter; (* sales_transactions_total *)
  salesRevenue : counter             (* sales_revenue_total *)
}.

Definition empty : registry :=
  {| aiRequestCounter := ∅; aiRequestDuration := ∅; aiRequestTokens := ∅;
     aiRequestCost := ∅; salesTransactionCounter := ∅; salesRevenue := ∅ |}.

(** [counter.inc(labels)] adds 1. *)
Definition inc_one (l : labels) (c : counter) : counter :=
  <[ l := (default 0%Q (c !! l) + 1)%Q ]> c.

(** [counter.inc(labels, value)]: the counter adds a value that is not
    negative and throws on a negative one ([None]), which leaves it as it
    was. *)
Definition inc (l : labels) (v : Q) (c : counter) : option counter :=
  if Qle_bool 0 v then Some (<[ l := (default 0%Q (c !! l) + v)%Q ]> c)
  else None.

(** [histogram.observe(labels, value)] *)
Definition observe (l : labels) (v : Q) (h : histogram) : histogram :=
  <[ l := default [] (h !! l) ++ [v] ]> h.

(** The value a counter shows for a label set. *)
Definition read (l : labels) (c : counter) : Q := default 0%Q (c !! l).

(** The observations a histogram holds for a label set. *)
Definition observed (l : labels) (h : histogram) : list Q :=
  default [] (h !! l).

Module updateAIMetrics.

Definition incrementRequest (model status feature userPlan : string)
    (r : registry) : registry :=
  {| aiRequestCounter :=
       inc_one [Some model; Some status; Some feature; Some userPlan]
               (aiRequestCounter r);
     aiRequestDuration := aiRequestDuration r;
     aiRequestTokens := aiRequestTokens r;
     aiRequestCost := aiRequestCost r;
     salesTransactionCounter := salesTransactionCounter r;
     salesRevenue := salesRevenue r |}.

Definition recordDuration (model feature userPlan : string) (duration : Q)
    (r : registry) : registry :=
  {| aiRequestCounter := aiRequestCounter r;
     aiRequestDuration :=
       observe [Some model; Some feature; Some userPlan]
               (duration / 1000)%Q (aiRequestDuration r);
     aiRequestTokens := aiRequestTokens r;
     aiRequestCost := aiRequestCost r;
     salesTransactionCounter := salesTransactionCounter r;
     salesRevenue := salesRevenue r |}.

Definition incrementTokens (model type userPlan : string) (count : Q)
    (r : registry) : option registry :=
  tokens ← inc [Some model; Some type; Some userPlan] count
             (aiRequestTokens r);
  Some {| aiRequestCounter := aiRequestCounter r;
          aiRequestDuration := aiRequestDuration r;
          aiRequestTokens := tokens;
          aiRequestCost := aiRequestCost r;
          salesTransactionCounter := salesTransactionCounter r;
          salesRevenue := salesRevenue r |}.

Definition incrementCost (model userPlan : string) (cost : Q)
    (r : registry) : option registry :=
  costs ← inc [Some model; Some userPlan] cost (aiRequestCost r);
  Some {| aiRequestCounter := aiRequestCounter r;
          aiRequestDuration := aiRequestDuration r;
          aiRequestTokens := aiRequestTokens r;
          aiRequestCost := costs;
          salesTransactionCounter := salesTransactionCounter r;
          salesRevenue := salesRevenue r |}.

End updateAIMetrics.

Module updateSalesMetrics.

Definition incrementTransaction (type status plan : string)
    (paymentMethod : option string) (r : registry) : registry :=
  {| aiRequestCounter := aiRequestCounter r;
     aiRequestDuration := aiRequestDuration r;
     aiRequestTokens := aiRequestTokens r;
     aiRequestCost := aiRequestCost r;
     salesTransactionCounter :=
       inc_one [Some type; Some status; Some plan; paymentMethod]
               (salesTransactionCounter r);
     salesRevenue := salesRevenue r |}.

Definition incrementRevenue (type plan currency : string) (amount : Q)
    (r : registry) : option registry :=
  revenue ← inc [Some type; Some plan; Some currency] amount (salesRevenue r);
  Some {| aiRequestCounter := aiRequestCounter r;
          aiRequestDuration := aiRequestDuration r;
          aiRequestTokens := aiRequestTokens r;
          aiRequestCost := aiRequestCost r;
          salesTransactionCounter := salesTransactionCounter r;
          salesRevenue := revenue |}.

End updateSalesMetrics.

(** A registry call returns with the registry updated, or throws and
    leaves it as it was. *)
Abbreviation call := (registry -> option registry).

(** A call that cannot throw. *)
Definition returns (f : registry -> registry) : call := fun r => Some (f r).

(** No call: the branch of a conditional that is not taken. *)
Definition skip : call := fun r => Some r.

(** How the registry calls of a handler end: all of them returned, or one
    threw and the later ones did not run. Both carry the registry as the
    calls that ran left it. *)
Inductive outcome : Type :=
| Returned (r : registry)
| Threw (r : registry).

(** [f; rest] *)
Definition seq (f : call) (rest : registry -> outcome) (r : registry)
    : outcome :=
  match f r with
  | Some r' => rest r'
  | None => Threw r
  end.

(** The registry an outcome leaves. *)
Definition left_by (o : outcome) : registry :=
  match o with Returned r | Threw r => r end.

End Prometheus.

(** ** Callers and call contexts *)

Module User.

(** The identity the authentication middleware attaches to the request
    ([req.user], the body of the auth service's answer). *)
Record t : Type := {
  id : string;
  role : string;
  plan : option string
}.

(** [req.user.role === 'admin'] *)
Definition isAdmin (u : t) : bool := String.eqb (role u) "admin".

End User.

(** What a handler reads besides the request body or query: the caller, the
    clock (the instant each [new Date()] of the call yields), the request
    headers and address, and whether the store throws on a read or on a
    write during this call. *)
Record Ctx : Type := {
  user : User.t;
  now : Z;
  headers : gmap string string;
  ip : option string;
  readFails : bool;
  writeFails : bool
}.

(** The replies of the handlers, by HTTP status. *)
Inductive Reply (A : Type) : Type :=
| Ok (body : A)                 (* 200 *)
| Created (key : string)        (* 201 *)
| ValidationError               (* 400 *)
| AccessDenied                  (* 403 *)
| NotFound                      (* 404 *)
| Conflict                      (* 409 *)
| InternalServerError.          (* 500 *)

Arguments Ok {A} body.
Arguments Created {A} key.
Arguments ValidationError {A}.
Arguments AccessDenied {A}.
Arguments NotFound {A}.
Arguments Conflict {A}.
Arguments InternalServerError {A}.

Definition http_status {A : Type} (r : Reply A) : Z :=
  match r with
  | Ok _ => 200
  | Created _ => 201
  | ValidationError => 400
  | AccessDenied => 403
  | NotFound => 404
  | Conflict => 409
  | InternalServerError => 500
  end.

(** A reply is an error when its status is 4xx or 5xx. *)
Definition is_error {A : Type} (r : Reply A) : bool := 400 <=? http_status r.

(** ** Collections and aggregation stages *)

Module Collection.

Section Ops.
Context {A : Type}.

(** [Model.findOne(query)]: the first document that satisfies the query,
    with its position. *)
Fixpoint findOne_from (i : nat) (p : A -> bool) (c : list A)
    : option (nat * A) :=
  match c with
  | [] => None
  | d :: c' => if p d then Some (i, d) else findOne_from (S i) p c'
  end.

Definition findOne (p : A -> bool) (c : list A) : option (nat * A) :=
  findOne_from 0 p c.

(** [Model.find(query)] and the [$match] stage. *)
Definition find (p : A -> bool) (c : list A) : list A := List.filter p c.

(** [Model.countDocuments(query)] *)
Definition countDocuments (p : A -> bool) (c : list A) : Z :=
  Z.of_nat (length (find p c)).

(** Insertion of [x] into a list sorted by [before]: [x] is put in front of
    the first element it may precede, so that sorting is stable. *)
Fixpoint insert_sorted (before : A -> A -> bool) (x : A) (l : list A)
    : list A :=
  match l with
  | [] => [x]
  | y :: l' =>
      if before x y then x :: y :: l' else y :: insert_sorted before x l'
  end.

(** [.sort(...)] and the [$sort] stage, as a stable insertion sort. *)
Definition sort (before : A -> A -> bool) (l : list A) : list A :=
  foldr (insert_sorted before) [] l.

(** [.skip(n)] and [.limit(n)] *)
Definition skip (n : Z) (l : list A) : list A := drop (Z.to_nat n) l.
Definition limit (n : Z) (l : list A) : list A := take (Z.to_nat n) l.

(** [{ $sum: '$field' }] over the documents that have the field. *)
Definition sum (field : A -> option Q) (l : list A) : Q :=
  foldr (fun d acc =>
           match field d with Some q => (q + acc)%Q | None => acc end)
        0%Q l.

(** [{ $sum: { $cond: [p, 1, 0] } }] and [{ $sum: 1 }] *)
Definition count (p : A -> bool) (l : list A) : Q :=
  inject_Z (Z.of_nat (length (List.filter p l))).

(** [{ $avg: '$field' }]: the mean over the documents that have the field,
    [null] when none has it. *)
Definition avg (field : A -> option Q) (l : list A) : JS.value :=
  let present := List.filter (fun d => bool_decide (is_Some (field d))) l in
  match present with
  | [] => JS.Null
  | _ => JS.Num (sum field l / inject_Z (Z.of_nat (length present)))%Q
  end.

(** [{ $min: '$field' }] and [{ $max: '$field' }], [null] when no document
    has the field. *)
Definition minimum (field : A -> option Q) (l : list A) : JS.value :=
  foldr (fun d acc =>
           match field d, acc with
           | Some q, JS.Num a => JS.Num (if Qle_bool q a then q else a)
           | Some q, _ => JS.Num q
           | None, _ => acc
           end) JS.Null l.
Definition maximum (field : A -> option Q) (l : list A) : JS.value :=
  foldr (fun d acc =>
           match field d, acc with
           | Some q, JS.Num a => JS.Num (if Qle_bool a q then q else a)
           | Some q, _ => JS.Num q
           | None, _ => acc
           end) JS.Null l.

(** The keys of a [$group] stage, each once, in order of first appearance. *)
Fixpoint distinct (l : list string) : list string :=
  match l with
  | [] => []
  | k :: l' => k :: List.filter (fun k' => negb (String.eqb k' k)) (distinct l')
  end.

(** [{ $group: { _id: '$key', ... } }]: one group per key, with its
    documents in collection order. *)
Definition group_by (key : A -> string) (l : list A)
    : list (string * list A) :=
  map (fun k => (k, List.filter (fun d => String.eqb (key d) k) l))
      (distinct (map key l)).

(** [{ $group: { _id: null, ... } }]: one group holding every document, and
    no group at all when no document reaches the stage. *)
Definition group_null {B : Type} (acc : list A -> B) (l : list A) : list B :=
  match l with
  | [] => []
  | _ => [acc l]
  end.

End Ops.

(** [timestamp: { $gte: from, $lte: to }], each bound optional. *)
Definition in_range (range : option (option Z * option Z)) (t : Z) : bool :=
  match range with
  | None => true
  | Some (from, to) =>
      match from with Some a => a <=? t | None => true end
      && match to with Some b => t <=? b | None => true end
  end.

(** A string constraint of a match stage, absent when the filter did not
    set it. *)
Definition eq_str (c : option string) (v : string) : bool :=
  match c with Some s => String.eqb v s | None => true end.

(** A constraint of a match stage on an ObjectId path. *)
Definition eq_id (c : option JS.id) (v : string) : bool :=
  match c with Some i => JS.id_eq v i | None => true end.

Section Keys.
Context {A K : Type} `{EqDecision K}.

(** The ids of a [$group] stage whose [_id] is a document, each once, in
    order of first appearance. *)
Fixpoint distinct_keys (l : list K) : list K :=
  match l with
  | [] => []
  | k :: l' =>
      k :: List.filter (fun k' => negb (bool_decide (k' = k))) (distinct_keys l')
  end.

(** [{ $group: { _id: { a: '$a', b: '$b' }, ... } }]: one group per id,
    with its documents in collection order. *)
Definition group_by_key (key : A -> K) (l : list A) : list (K * list A) :=
  map (fun k => (k, List.filter (fun d => bool_decide (key d = k)) l))
      (distinct_keys (map key l)).

End Keys.

End Collection.

(** ** models/AIRequest.js *)

Module AIRequest.

Module Tokens.
Record t : Type := {
  input : option Z;
  output : option Z;
  total : option Z
}.
(** The schema defaults. *)
Definition defaults : t :=
  {| input := Some 0; output := Some 0; total := Some 0 |}.
End Tokens.

Module ErrorInfo.
Record t : Type := {
  code : option string;
  message : option string
}.
End ErrorInfo.

Module Metadata.
Record t : Type := {
  userAgent : option string;
  ipAddress : option string;
  sessionId : option string;
  feature : string;
  complexity : string;
  language : string
}.
End Metadata.

Module Performance.
(** [startTime] is set by the only place that constructs a document
    (POST /track) and is never assigned again, so it is always present;
    [endTime] and [duration] are unset until an update assigns them. *)
Record t : Type := {
  startTime : Z;
  endTime : option Z;
  duration : option Z
}.
End Performance.

(** A document of the collection. *)
Record doc : Type := {
  userId : string;
  requestId : string;
  model : string;
  prompt : string;
  response : option string;
  tokens : Tokens.t;
  cost : Q;
  status : string;
  error : option ErrorInfo.t;
  metadata : Metadata.t;
  performance : Performance.t;
  userPlan : string;
  createdAt : Z;
  updatedAt : Z
}.

Definition models : list string :=
  ["gpt-4"; "gpt-3.5-turbo"; "claude-3"; "gemini-pro"; "custom"].
Definition statuses : list string :=
  ["pending"; "processing"; "completed"; "failed"; "cancelled"].
Definition features : list string :=
  ["artwork-analysis"; "style-recommendation"; "market-analysis";
   "portfolio-review"; "other"].
Definition complexities : list string := ["simple"; "medium"; "complex"].
Definition userPlans : list string := ["free"; "basic"; "premium"].

(** The schema's validators, run by [save]: required strings are not
    empty, enumerated paths hold one of their values, and [prompt] and
    [response] respect [maxlength]. *)
Definition schema_valid (d : doc) : bool :=
  JS.truthy_str (userId d)
  && JS.truthy_str (requestId d)
  && JS.includes models (model d)
  && JS.truthy_str (prompt d)
  && (Z.of_nat (String.length (prompt d)) <=? 10000)
  && match response d with
     | Some r => Z.of_nat (String.length r) <=? 50000
     | None => true
     end
  && JS.includes statuses (status d)
  && JS.includes features (Metadata.feature (metadata d))
  && JS.includes complexities (Metadata.complexity (metadata d))
  && JS.includes userPlans (userPlan d).

(** [aiRequestSchema.pre('save')]: the total is recomputed from the two
    counts and the modification time is refreshed. *)
Definition pre_save (now : Z) (d : doc) : doc :=
  {| userId := userId d;
     requestId := requestId d;
     model := model d;
     prompt := prompt d;
     response := response d;
     tokens :=
       {| Tokens.input := Tokens.input (tokens d);
          Tokens.output := Tokens.output (tokens d);
          Tokens.total :=
            Some (JS.or_zero (Tokens.input (tokens d))
                  + JS.or_zero (Tokens.output (tokens d))) |};
     cost := cost d;
     status := status d;
     error := error d;
     metadata := metadata d;
     performance := performance d;
     userPlan := userPlan d;
     createdAt := createdAt d;
     updatedAt := now |}.

(** [doc.save()] of a new document: validation, the pre-save hook, then the
    insert, which the unique index on [requestId] refuses for a key that is
    already stored. [None] is a rejected promise. *)
Definition save_new (writeFails : bool) (now : Z) (d : doc) (c : list doc)
    : option (list doc) :=
  if writeFails then None
  else if negb (schema_valid d) then None
  else if existsb (fun x => String.eqb (requestId x) (requestId d)) c then None
  else Some (c ++ [pre_save now d]).

(** [doc.save()] of the document loaded from position [i]. *)
Definition save_at (writeFails : bool) (now : Z) (i : nat) (d : doc)
    (c : list doc) : option (list doc) :=
  if writeFails then None
  else if negb (schema_valid d) then None
  else Some (<[ i := pre_save now d ]> c).

Module Filters.
(** The fields of a filter object that [getStats] reads; a date is the
    instant its ISO-8601 string denotes. *)
Record t : Type := {
  userId : option string;
  status : option string;
  model : option string;
  userPlan : option string;
  feature : option string;
  startDate : option Z;
  endDate : option Z
}.

Definition empty : t :=
  {| userId := None; status := None; model := None; userPlan := None;
     feature := None; startDate := None; endDate := None |}.

(** [{ ...a, ...b }]: a field of [b] that is present replaces that of [a]. *)
Definition spread (a b : t) : t :=
  {| userId := JS.later (userId a) (userId b);
     status := JS.later (status a) (status b);
     model := JS.later (model a) (model b);
     userPlan := JS.later (userPlan a) (userPlan b);
     feature := JS.later (feature a) (feature b);
     startDate := JS.later (startDate a) (startDate b);
     endDate := JS.later (endDate a) (endDate b) |}.
End Filters.

Module MatchStage.
Record t : Type := {
  userId : option JS.id;
  status : option string;
  model : option string;
  userPlan : option string;
  metadata_feature : option string;
  createdAt : option (option Z * option Z)
}.
End MatchStage.

(** [if (filters.x) matchStage.x = filters.x] *)
Definition if_truthy (o : option string) : option string :=
  if JS.truthy o then o else None.

(** The match stage [getStats] builds from its filters. The user id of
    the filters is the string of the request, and the [aggregate] that
    takes the stage does not cast it. *)
Definition matchStage (filters : Filters.t) : MatchStage.t :=
  {| MatchStage.userId := JS.IdString <$> if_truthy (Filters.userId filters);
     MatchStage.status := if_truthy (Filters.status filters);
     MatchStage.model := if_truthy (Filters.model filters);
     MatchStage.userPlan := if_truthy (Filters.userPlan filters);
     MatchStage.metadata_feature := if_truthy (Filters.feature filters);
     MatchStage.createdAt :=
       match Filters.startDate filters, Filters.endDate filters with
       | None, None => None
       | from, to => Some (from, to)
       end |}.

(** [{ $match: matchStage }] *)
Definition satisfies (m : MatchStage.t) (d : doc) : bool :=
  Collection.eq_id (MatchStage.userId m) (userId d)
  && Collection.eq_str (MatchStage.status m) (status d)
  && Collection.eq_str (MatchStage.model m) (model d)
  && Collection.eq_str (MatchStage.userPlan m) (userPlan d)
  && Collection.eq_str (MatchStage.metadata_feature m)
       (Metadata.feature (metadata d))
  && Collection.in_range (MatchStage.createdAt m) (createdAt d).

(** The accumulators of the [$group] stage of [getStats]. *)
Definition stats_group (ds : list doc) : gmap string JS.value :=
  list_to_map
    [("_id", JS.Null);
     ("totalRequests", JS.Num (Collection.count (fun _ => true) ds));
     ("totalTokens",
      JS.Num (Collection.sum
                (fun d => inject_Z <$> Tokens.total (tokens d)) ds));
     ("totalCost", JS.Num (Collection.sum (fun d => Some (cost d)) ds));
     ("avgDuration",
      Collection.avg
        (fun d => inject_Z <$> Performance.duration (performance d)) ds);
     ("successCount",
      JS.Num (Collection.count (fun d => String.eqb (status d) "completed") ds));
     ("failureCount",
      JS.Num (Collection.count (fun d => String.eqb (status d) "failed") ds))].

(** The object returned when the pipeline yields no group. *)
Definition stats_zero : gmap string JS.value :=
  list_to_map
    [("totalRequests", JS.Num 0); ("totalTokens", JS.Num 0);
     ("totalCost", JS.Num 0); ("avgDuration", JS.Num 0);
     ("successCount", JS.Num 0); ("failureCount", JS.Num 0)].

(** [AIRequest.getStats(filters)] *)
Definition getStats (filters : Filters.t) (c : list doc)
    : gmap string JS.value :=
  let stats :=
    Collection.group_null stats_group
      (Collection.find (satisfies (matchStage filters)) c) in
  match stats with
  | s :: _ => s
  | [] => stats_zero
  end.

(** A document as [.select('-prompt -response').lean()] returns it. *)
Record lean : Type := {
  l_userId : string;
  l_requestId : string;
  l_model : string;
  l_tokens : Tokens.t;
  l_cost : Q;
  l_status : string;
  l_error : option ErrorInfo.t;
  l_metadata : Metadata.t;
  l_performance : Performance.t;
  l_userPlan : string;
  l_createdAt : Z;
  l_updatedAt : Z
}.

Definition select_without_prompt_response (d : doc) : lean :=
  {| l_userId := userId d;
     l_requestId := requestId d;
     l_model := model d;
     l_tokens := tokens d;
     l_cost := cost d;
     l_status := status d;
     l_error := error d;
     l_metadata := metadata d;
     l_performance := performance d;
     l_userPlan := userPlan d;
     l_createdAt := createdAt d;
     l_updatedAt := updatedAt d |}.

(** Two documents that agree on every path but [prompt] and [response]. *)
Definition same_but_text (d1 d2 : doc) : Prop :=
  select_without_prompt_response d1 = select_without_prompt_response d2.

End AIRequest.

(** ** models/SalesAnalytics.js *)

Module SalesAnalytics.

Module Metadata.
Record t : Type := {
  source : string;
  campaign : option string;
  utmSource : option string;
  utmMedium : option string;
  utmCampaign : option string;
  referrer : option string;
  userAgent : option string;
  ipAddress : option string
}.
End Metadata.

Module Subscription.
Record t : Type := {
  startDate : option Z;
  endDate : option Z;
  interval : option string;
  autoRenew : option bool;
  trialEnd : option Z
}.
Definition absent : t :=
  {| startDate := None; endDate := None; interval := None;
     autoRenew := None; trialEnd := None |}.
(** The schema defaults, for the paths the constructor was not given. *)
Definition with_defaults (s : t) : t :=
  {| startDate := startDate s;
     endDate := endDate s;
     interval := JS.later (Some "monthly") (interval s);
     autoRenew := JS.later (Some true) (autoRenew s);
     trialEnd := trialEnd s |}.
End Subscription.

Module Refund.
Record t : Type := {
  amount : option Q;
  reason : option string;
  processedAt : option Z
}.
Definition absent : t :=
  {| amount := None; reason := None; processedAt := None |}.
End Refund.

(** A document of the collection. *)
Record doc : Type := {
  userId : string;
  transactionId : string;
  type : string;
  plan : string;
  amount : Q;
  currency : string;
  status : string;
  paymentMethod : option string;
  metadata : Metadata.t;
  subscription : Subscription.t;
  refund : Refund.t;
  createdAt : Z;
  updatedAt : Z
}.

Definition types : list string :=
  ["subscription"; "one_time"; "refund"; "credit"; "debit"].
Definition plans : list string := ["free"; "basic"; "premium"].
Definition statuses : list string :=
  ["pending"; "completed"; "failed"; "cancelled"; "refunded"].
Definition paymentMethods : list string :=
  ["stripe"; "paypal"; "apple_pay"; "google_pay"; "bank_transfer"; "crypto"].
Definition sources : list string := ["web"; "mobile"; "api"; "admin"].
Definition intervals : list string := ["monthly"; "yearly"; "weekly"; "daily"].

(** The schema's validators, run by [save]. *)
Definition schema_valid (d : doc) : bool :=
  JS.truthy_str (userId d)
  && JS.truthy_str (transactionId d)
  && JS.includes types (type d)
  && JS.includes plans (plan d)
  && JS.includes statuses (status d)
  && match paymentMethod d with
     | Some m => JS.includes paymentMethods m
     | None => true
     end
  && JS.includes sources (Metadata.source (metadata d))
  && match Subscription.interval (subscription d) with
     | Some i => JS.includes intervals i
     | None => true
     end.

(** [salesAnalyticsSchema.pre('save')] *)
Definition pre_save (now : Z) (d : doc) : doc :=
  {| userId := userId d;
     transactionId := transactionId d;
     type := type d;
     plan := plan d;
     amount := amount d;
     currency := currency d;
     status := status d;
     paymentMethod := paymentMethod d;
     metadata := metadata d;
     subscription := subscription d;
     refund := refund d;
     createdAt := createdAt d;
     updatedAt := now |}.

(** [doc.save()] of a new document; the unique index is on
    [transactionId]. *)
Definition save_new (writeFails : bool) (now : Z) (d : doc) (c : list doc)
    : option (list doc) :=
  if writeFails then None
  else if negb (schema_valid d) then None
  else if existsb (fun x => String.eqb (transactionId x) (transactionId d)) c
       then None
  else Some (c ++ [pre_save now d]).

Module Filters.
(** The fields of a filter object that the statics read. *)
Record t : Type := {
  userId : option string;
  status : option string;
  type : option string;
  plan : option string;
  paymentMethod : option string;
  currency : option string;
  startDate : option Z;
  endDate : option Z
}.

Definition empty : t :=
  {| userId := None; status := None; type := None; plan := None;
     paymentMethod := None; currency := None; startDate := None;
     endDate := None |}.

(** [{ ...a, ...b }] *)
Definition spread (a b : t) : t :=
  {| userId := JS.later (userId a) (userId b);
     status := JS.later (status a) (status b);
     type := JS.later (type a) (type b);
     plan := JS.later (plan a) (plan b);
     paymentMethod := JS.later (paymentMethod a) (paymentMethod b);
     currency := JS.later (currency a) (currency b);
     startDate := JS.later (startDate a) (startDate b);
     endDate := JS.later (endDate a) (endDate b) |}.
End Filters.

Module MatchStage.
Record t : Type := {
  userId : option JS.id;
  status : option string;
  type : option string;
  plan : option string;
  paymentMethod : option string;
  currency : option string;
  createdAt : option (option Z * option Z)
}.
End MatchStage.

(** [if (filters.x) matchStage.x = filters.x] *)
Definition if_truthy (o : option string) : option string :=
  if JS.truthy o then o else None.

(** [if (filters.startDate || filters.endDate) { matchStage.createdAt = ... }] *)
Definition date_range (from to : option Z) : option (option Z * option Z) :=
  match from, to with
  | None, None => None
  | _, _ => Some (from, to)
  end.

(** [{ $match: matchStage }] *)
Definition satisfies (m : MatchStage.t) (d : doc) : bool :=
  Collection.eq_id (MatchStage.userId m) (userId d)
  && Collection.eq_str (MatchStage.status m) (status d)
  && Collection.eq_str (MatchStage.type m) (type d)
  && Collection.eq_str (MatchStage.plan m) (plan d)
  && match MatchStage.paymentMethod m with
     | Some p => bool_decide (paymentMethod d = Some p)
     | None => true
     end
  && Collection.eq_str (MatchStage.currency m) (currency d)
  && Collection.in_range (MatchStage.createdAt m) (createdAt d).

(** The match stage [getSalesStats] builds from its filters. The user id
    of the filters is the string of the request, and the [aggregate] that
    takes the stage does not cast it. *)
Definition salesStats_matchStage (filters : Filters.t) : MatchStage.t :=
  {| MatchStage.userId := JS.IdString <$> if_truthy (Filters.userId filters);
     MatchStage.status := if_truthy (Filters.status filters);
     MatchStage.type := if_truthy (Filters.type filters);
     MatchStage.plan := if_truthy (Filters.plan filters);
     MatchStage.paymentMethod := if_truthy (Filters.paymentMethod filters);
     MatchStage.currency := if_truthy (Filters.currency filters);
     MatchStage.createdAt :=
       date_range (Filters.startDate filters) (Filters.endDate filters) |}.

(** The accumulators of the [$group] stage of [getSalesStats]. *)
Definition salesStats_group (ds : list doc) : gmap string JS.value :=
  list_to_map
    [("_id", JS.Null);
     ("totalTransactions", JS.Num (Collection.count (fun _ => true) ds));
     ("totalRevenue", JS.Num (Collection.sum (fun d => Some (amount d)) ds));
     ("avgTransactionValue", Collection.avg (fun d => Some (amount d)) ds);
     ("successfulTransactions",
      JS.Num (Collection.count (fun d => String.eqb (status d) "completed") ds));
     ("failedTransactions",
      JS.Num (Collection.count (fun d => String.eqb (status d) "failed") ds));
     ("refundedTransactions",
      JS.Num (Collection.count (fun d => String.eqb (status d) "refunded") ds));
     ("totalRefunds",
      JS.Num (Collection.sum (fun d => Refund.amount (refund d)) ds))].

Definition salesStats_zero : gmap string JS.value :=
  list_to_map
    [("totalTransactions", JS.Num 0); ("totalRevenue", JS.Num 0);
     ("avgTransactionValue", JS.Num 0); ("successfulTransactions", JS.Num 0);
     ("failedTransactions", JS.Num 0); ("refundedTransactions", JS.Num 0);
     ("totalRefunds", JS.Num 0)].

(** [SalesAnalytics.getSalesStats(filters)] *)
Definition getSalesStats (filters : Filters.t) (c : list doc)
    : gmap string JS.value :=
  let stats :=
    Collection.group_null salesStats_group
      (Collection.find (satisfies (salesStats_matchStage filters)) c) in
  match stats with
  | s :: _ => s
  | [] => salesStats_zero
  end.

(** A row of [getRevenueByPlan]; [_id] is the plan. *)
Record PlanRevenue : Type := {
  _id : string;
  totalRevenue : Q;
  transactionCount : Q;
  avgTransactionValue : JS.value
}.

(** The match stage of [getRevenueByPlan]: the status is fixed and of the
    filters only the dates are read. *)
Definition revenueByPlan_matchStage (filters : Filters.t) : MatchStage.t :=
  {| MatchStage.userId := None;
     MatchStage.status := Some "completed";
     MatchStage.type := None;
     MatchStage.plan := None;
     MatchStage.paymentMethod := None;
     MatchStage.currency := None;
     MatchStage.createdAt :=
       date_range (Filters.startDate filters) (Filters.endDate filters) |}.

(** [{ $sort: { totalRevenue: -1 } }]: a row may precede one whose revenue
    is not larger. *)
Definition by_totalRevenue_desc (x y : PlanRevenue) : bool :=
  Qle_bool (totalRevenue y) (totalRevenue x).

(** [SalesAnalytics.getRevenueByPlan(filters)] *)
Definition getRevenueByPlan (filters : Filters.t) (c : list doc)
    : list PlanRevenue :=
  Collection.sort by_totalRevenue_desc
    (map (fun g : string * list doc =>
            {| _id := fst g;
               totalRevenue := Collection.sum (fun d => Some (amount d)) (snd g);
               transactionCount := Collection.count (fun _ => true) (snd g);
               avgTransactionValue :=
                 Collection.avg (fun d => Some (amount d)) (snd g) |})
         (Collection.group_by plan
            (Collection.find (satisfies (revenueByPlan_matchStage filters)) c))).

Section Calendar.

(** [new Date(date.getFullYear(), date.getMonth(), 1)] and
    [new Date(date.getFullYear(), date.getMonth() + 1, 0)], which depend on
    the calendar and time zone of the process. *)
Variable startOfMonth endOfMonth : Z -> Z.

Definition MRR_matchStage (date : Z) : MatchStage.t :=
  {| MatchStage.userId := None;
     MatchStage.status := Some "completed";
     MatchStage.type := Some "subscription";
     MatchStage.plan := None;
     MatchStage.paymentMethod := None;
     MatchStage.currency := None;
     MatchStage.createdAt :=
       Some (Some (startOfMonth date), Some (endOfMonth date)) |}.

(** [SalesAnalytics.getMRR(date)]: the pair of [mrr] and
    [subscriptionCount]. *)
Definition getMRR (date : Z) (c : list doc) : Q * Q :=
  let mrr :=
    Collection.group_null
      (fun ds => (Collection.sum (fun d => Some (amount d)) ds,
                  Collection.count (fun _ => true) ds))
      (Collection.find (satisfies (MRR_matchStage date)) c) in
  match mrr with
  | r :: _ => r
  | [] => (0%Q, 0%Q)
  end.

End Calendar.

(** The result of [getCustomerLifetimeValue]. *)
Record CLV : Type := {
  totalSpent : Q;
  clv_transactionCount : Q;
  avgOrderValue : JS.value;
  firstPurchase : option Z;
  lastPurchase : option Z
}.

Definition CLV_matchStage (userId : string) : MatchStage.t :=
  {| MatchStage.userId := Some (JS.ObjectId userId);
     MatchStage.status := Some "completed";
     MatchStage.type := None;
     MatchStage.plan := None;
     MatchStage.paymentMethod := None;
     MatchStage.currency := None;
     MatchStage.createdAt := None |}.

(** [{ $min: '$createdAt' }] and [{ $max: '$createdAt' }] *)
Definition min_createdAt (ds : list doc) : option Z :=
  foldr (fun d acc => Some (match acc with
                            | Some a => Z.min (createdAt d) a
                            | None => createdAt d
                            end)) None ds.
Definition max_createdAt (ds : list doc) : option Z :=
  foldr (fun d acc => Some (match acc with
                            | Some a => Z.max (createdAt d) a
                            | None => createdAt d
                            end)) None ds.

(** [SalesAnalytics.getCustomerLifetimeValue(userId)]. The pipeline casts
    the id itself, with [mongoose.Types.ObjectId(userId)]; this is the
    static where that call returns the ObjectId, as it does up to
    Mongoose 6. It groups by
    [userId] after matching on it, so the documents that reach the group
    stage form one group. *)
Definition getCustomerLifetimeValue (userId : string) (c : list doc) : CLV :=
  let clv :=
    Collection.group_null
      (fun ds =>
         {| totalSpent := Collection.sum (fun d => Some (amount d)) ds;
            clv_transactionCount := Collection.count (fun _ => true) ds;
            avgOrderValue := Collection.avg (fun d => Some (amount d)) ds;
            firstPurchase := min_createdAt ds;
            lastPurchase := max_createdAt ds |})
      (Collection.find (satisfies (CLV_matchStage userId)) c) in
  match clv with
  | r :: _ => r
  | [] =>
      {| totalSpent := 0; clv_transactionCount := 0;
         avgOrderValue := JS.Num 0; firstPurchase := None;
         lastPurchase := None |}
  end.

End SalesAnalytics.

(** ** models/UserEngagement.js *)

Module UserEngagement.

(** A document of the collection, with the paths the statistics read. *)
Record doc : Type := {
  userId : string;
  sessionId : string;
  event : string;
  feature : option string;
  timeOnPage : option Q;   (* metadata.timeOnPage *)
  scrollDepth : option Q;  (* metadata.scrollDepth *)
  userPlan : string;
  value : Q;
  timestamp : Z
}.

Module Filters.
(** The fields of a filter object that [getEngagementStats] reads. *)
Record t : Type := {
  userId : option string;
  event : option string;
  feature : option string;
  userPlan : option string;
  startDate : option Z;
  endDate : option Z
}.

Definition empty : t :=
  {| userId := None; event := None; feature := None; userPlan := None;
     startDate := None; endDate := None |}.
End Filters.

Module MatchStage.
Record t : Type := {
  userId : option JS.id;
  event : option string;
  feature : option string;
  userPlan : option string;
  timestamp : option (option Z * option Z)
}.
End MatchStage.

Definition if_truthy (o : option string) : option string :=
  if JS.truthy o then o else None.

(** The match stage [getEngagementStats] builds from its filters. The
    user id of the filters is the string of the request, and the
    [aggregate] that takes the stage does not cast it. *)
Definition matchStage (filters : Filters.t) : MatchStage.t :=
  {| MatchStage.userId := JS.IdString <$> if_truthy (Filters.userId filters);
     MatchStage.event := if_truthy (Filters.event filters);
     MatchStage.feature := if_truthy (Filters.feature filters);
     MatchStage.userPlan := if_truthy (Filters.userPlan filters);
     MatchStage.timestamp :=
       match Filters.startDate filters, Filters.endDate filters with
       | None, None => None
       | from, to => Some (from, to)
       end |}.

(** [{ $match: matchStage }] *)
Definition satisfies (m : MatchStage.t) (d : doc) : bool :=
  Collection.eq_id (MatchStage.userId m) (userId d)
  && Collection.eq_str (MatchStage.event m) (event d)
  && match MatchStage.feature m with
     | Some f => bool_decide (feature d = Some f)
     | None => true
     end
  && Collection.eq_str (MatchStage.userPlan m) (userPlan d)
  && Collection.in_range (MatchStage.timestamp m) (timestamp d).

(** [{ $size: '$set' }] of a set collected with [$addToSet]. *)
Definition size_of_set (values : list string) : Q :=
  inject_Z (Z.of_nat (length (Collection.distinct values))).

(** The [$group] stage of [getEngagementStats] followed by its
    [$project] stage, which replaces the two sets by their sizes. *)
Definition stats_group (ds : list doc) : gmap string JS.value :=
  list_to_map
    [("_id", JS.Null);
     ("totalEvents", JS.Num (Collection.count (fun _ => true) ds));
     ("uniqueUsers", JS.Num (size_of_set (map userId ds)));
     ("uniqueSessions", JS.Num (size_of_set (map sessionId ds)));
     ("totalValue", JS.Num (Collection.sum (fun d => Some (value d)) ds));
     ("avgTimeOnPage", Collection.avg timeOnPage ds);
     ("avgScrollDepth", Collection.avg scrollDepth ds)].

Definition stats_zero : gmap string JS.value :=
  list_to_map
    [("totalEvents", JS.Num 0); ("uniqueUsers", JS.Num 0);
     ("uniqueSessions", JS.Num 0); ("totalValue", JS.Num 0);
     ("avgTimeOnPage", JS.Num 0); ("avgScrollDepth", JS.Num 0)].

(** [UserEngagement.getEngagementStats(filters)] *)
Definition getEngagementStats (filters : Filters.t) (c : list doc)
    : gmap string JS.value :=
  let stats :=
    Collection.group_null stats_group
      (Collection.find (satisfies (matchStage filters)) c) in
  match stats with
  | s :: _ => s
  | [] => stats_zero
  end.

Module EventCount.
(** A row of [getEventDistribution] after its [$project] stage. *)
Record t : Type := {
  _id : string;
  event : string;
  count : Q;
  uniqueUsers : Q
}.
End EventCount.

(** The match stage of [getEventDistribution]: of the filters it reads the
    user, the plan and the dates. *)
Definition distribution_matchStage (filters : Filters.t) : MatchStage.t :=
  {| MatchStage.userId := JS.IdString <$> if_truthy (Filters.userId filters);
     MatchStage.event := None;
     MatchStage.feature := None;
     MatchStage.userPlan := if_truthy (Filters.userPlan filters);
     MatchStage.timestamp :=
       match Filters.startDate filters, Filters.endDate filters with
       | None, None => None
       | from, to => Some (from, to)
       end |}.

(** The [$group] and [$project] stages of [getEventDistribution] on one
    group. *)
Definition eventCount (g : string * list doc) : EventCount.t :=
  {| EventCount._id := fst g;
     EventCount.event := fst g;
     EventCount.count := Collection.count (fun _ => true) (snd g);
     EventCount.uniqueUsers := size_of_set (map userId (snd g)) |}.

(** [{ $sort: { count: -1 } }] *)
Definition by_count_desc (x y : EventCount.t) : bool :=
  Qle_bool (EventCount.count y) (EventCount.count x).

(** [UserEngagement.getEventDistribution(filters)] *)
Definition getEventDistribution (filters : Filters.t) (c : list doc)
    : list EventCount.t :=
  Collection.sort by_count_desc
    (map eventCount
       (Collection.group_by event
          (Collection.find (satisfies (distribution_matchStage filters)) c))).

End UserEngagement.

(** ** models/PerformanceMetrics.js *)

Module PerformanceMetrics.

Module System.
(** [system.cpu.usage], [system.memory.percentage] and
    [system.disk.percentage], each optional. *)
Record t : Type := {
  cpu_usage : option Q;
  memory_percentage : option Q;
  disk_percentage : option Q
}.
End System.

(** A document of the collection, with the paths the statistics read. *)
Record doc : Type := {
  service : string;
  endpoint : string;
  method : string;
  userId : option string;
  requestId : string;
  statusCode : Z;
  responseTime : Q;
  requestSize : Q;
  responseSize : Q;
  system : System.t;
  timestamp : Z
}.

Module Filters.
(** The fields of a filter object that [getPerformanceStats] reads. The
    status code arrives as the query string gave it. *)
Record t : Type := {
  service : option string;
  endpoint : option string;
  method : option string;
  statusCode : option JS.value;
  userId : option string;
  startDate : option Z;
  endDate : option Z
}.

Definition empty : t :=
  {| service := None; endpoint := None; method := None; statusCode := None;
     userId := None; startDate := None; endDate := None |}.
End Filters.

Module MatchStage.
Record t : Type := {
  service : option string;
  endpoint : option string;
  method : option string;
  statusCode : option JS.value;
  userId : option JS.id;
  timestamp : option (option Z * option Z)
}.
End MatchStage.

Definition if_truthy (o : option string) : option string :=
  if JS.truthy o then o else None.

(** The match stage [getPerformanceStats] builds from its filters. *)
Definition matchStage (filters : Filters.t) : MatchStage.t :=
  {| MatchStage.service := if_truthy (Filters.service filters);
     MatchStage.endpoint := if_truthy (Filters.endpoint filters);
     MatchStage.method := if_truthy (Filters.method filters);
     MatchStage.statusCode :=
       match Filters.statusCode filters with
       | Some v => if JS.truthy_value v then Some v else None
       | None => None
       end;
     MatchStage.userId := JS.IdString <$> if_truthy (Filters.userId filters);
     MatchStage.timestamp :=
       match Filters.startDate filters, Filters.endDate filters with
       | None, None => None
       | from, to => Some (from, to)
       end |}.

(** [{ $match: matchStage }]; a value matches a stored number only when it
    is that number. *)
Definition satisfies (m : MatchStage.t) (d : doc) : bool :=
  Collection.eq_str (MatchStage.service m) (service d)
  && Collection.eq_str (MatchStage.endpoint m) (endpoint d)
  && Collection.eq_str (MatchStage.method m) (method d)
  && match MatchStage.statusCode m with
     | Some v => JS.strict_eq (JS.Num (inject_Z (statusCode d))) v
     | None => true
     end
  && match MatchStage.userId m, userId d with
     | Some i, Some u => JS.id_eq u i
     | Some _, None => false
     | None, _ => true
     end
  && Collection.in_range (MatchStage.timestamp m) (timestamp d).

Section Store.

(** [{ $percentile: { input: '$responseTime', p: p } }]: the accumulator is
    evaluated by the store; the service passes it the percentage and the
    values of the group. *)
Variable percentile : Q -> list Q -> JS.value.

(** The accumulators of the [$group] stage of [getPerformanceStats]. *)
Definition stats_group (ds : list doc) : gmap string JS.value :=
  list_to_map
    [("_id", JS.Null);
     ("totalRequests", JS.Num (Collection.count (fun _ => true) ds));
     ("avgResponseTime", Collection.avg (fun d => Some (responseTime d)) ds);
     ("minResponseTime", Collection.minimum (fun d => Some (responseTime d)) ds);
     ("maxResponseTime", Collection.maximum (fun d => Some (responseTime d)) ds);
     ("p95ResponseTime", percentile 95 (map responseTime ds));
     ("p99ResponseTime", percentile 99 (map responseTime ds));
     ("successCount",
      JS.Num (Collection.count (fun d => statusCode d <? 400) ds));
     ("errorCount",
      JS.Num (Collection.count (fun d => 400 <=? statusCode d) ds));
     ("totalRequestSize",
      JS.Num (Collection.sum (fun d => Some (requestSize d)) ds));
     ("totalResponseSize",
      JS.Num (Collection.sum (fun d => Some (responseSize d)) ds));
     ("avgCpuUsage", Collection.avg (fun d => System.cpu_usage (system d)) ds);
     ("avgMemoryUsage",
      Collection.avg (fun d => System.memory_percentage (system d)) ds);
     ("avgDiskUsage",
      Collection.avg (fun d => System.disk_percentage (system d)) ds)].

Definition stats_zero : gmap string JS.value :=
  list_to_map
    [("totalRequests", JS.Num 0); ("avgResponseTime", JS.Num 0);
     ("minResponseTime", JS.Num 0); ("maxResponseTime", JS.Num 0);
     ("p95ResponseTime", JS.Num 0); ("p99ResponseTime", JS.Num 0);
     ("successCount", JS.Num 0); ("errorCount", JS.Num 0);
     ("totalRequestSize", JS.Num 0); ("totalResponseSize", JS.Num 0);
     ("avgCpuUsage", JS.Num 0); ("avgMemoryUsage", JS.Num 0);
     ("avgDiskUsage", JS.Num 0)].

(** [PerformanceMetrics.getPerformanceStats(filters)] *)
Definition getPerformanceStats (filters : Filters.t) (c : list doc)
    : gmap string JS.value :=
  let stats :=
    Collection.group_null stats_group
      (Collection.find (satisfies (matchStage filters)) c) in
  match stats with
  | s :: _ => s
  | [] => stats_zero
  end.

End Store.

Module EndpointId.
(** The [_id] of a group of requests to one endpoint. *)
Record t : Type := {
  service : string;
  endpoint : string;
  method : string
}.

#[global] Instance eq_dec : EqDecision t.
Proof. solve_decision. Defined.
End EndpointId.

(** [{ service: '$service', endpoint: '$endpoint', method: '$method' }] *)
Definition endpoint_of (d : doc) : EndpointId.t :=
  {| EndpointId.service := service d;
     EndpointId.endpoint := endpoint d;
     EndpointId.method := method d |}.

(** The match stage of [getSlowestEndpoints], [getErrorRates] and
    [getSystemResources]: of the filters they read the service and the
    dates. *)
Definition service_matchStage (filters : Filters.t) : MatchStage.t :=
  {| MatchStage.service := if_truthy (Filters.service filters);
     MatchStage.endpoint := None;
     MatchStage.method := None;
     MatchStage.statusCode := None;
     MatchStage.userId := None;
     MatchStage.timestamp :=
       match Filters.startDate filters, Filters.endDate filters with
       | None, None => None
       | from, to => Some (from, to)
       end |}.

Module SlowEndpoint.
(** A row of [getSlowestEndpoints] after its [$project] stage. *)
Record t : Type := {
  _id : EndpointId.t;
  service : string;
  endpoint : string;
  method : string;
  avgResponseTime : JS.value;
  requestCount : Q;
  errorCount : Q;
  errorRate : Q
}.
End SlowEndpoint.

(** The [$group] and [$project] stages of [getSlowestEndpoints] on one
    group. *)
Definition slowEndpoint (g : EndpointId.t * list doc) : SlowEndpoint.t :=
  let requestCount := Collection.count (fun _ => true) (snd g) in
  let errorCount := Collection.count (fun d => 400 <=? statusCode d) (snd g) in
  {| SlowEndpoint._id := fst g;
     SlowEndpoint.service := EndpointId.service (fst g);
     SlowEndpoint.endpoint := EndpointId.endpoint (fst g);
     SlowEndpoint.method := EndpointId.method (fst g);
     SlowEndpoint.avgResponseTime :=
       Collection.avg (fun d => Some (responseTime d)) (snd g);
     SlowEndpoint.requestCount := requestCount;
     SlowEndpoint.errorCount := errorCount;
     SlowEndpoint.errorRate := (errorCount / requestCount) * 100 |}.

(** [{ $sort: { avgResponseTime: -1 } }] *)
Definition by_avgResponseTime_desc (x y : SlowEndpoint.t) : bool :=
  JS.sort_le (SlowEndpoint.avgResponseTime y) (SlowEndpoint.avgResponseTime x).

(** [PerformanceMetrics.getSlowestEndpoints(filters, limit)] *)
Definition getSlowestEndpoints (filters : Filters.t) (limit : Z) (c : list doc)
    : list SlowEndpoint.t :=
  Collection.limit limit
    (Collection.sort by_avgResponseTime_desc
       (map slowEndpoint
          (Collection.group_by_key endpoint_of
             (Collection.find (satisfies (service_matchStage filters)) c)))).

Module StatusId.
(** The [_id] of the first [$group] stage of [getErrorRates]. *)
Record t : Type := {
  service : string;
  endpoint : string;
  method : string;
  statusCode : Z
}.

#[global] Instance eq_dec : EqDecision t.
Proof. solve_decision. Defined.
End StatusId.

(** [{ service: '$service', endpoint: '$endpoint', method: '$method',
       statusCode: '$statusCode' }] *)
Definition status_of (d : doc) : StatusId.t :=
  {| StatusId.service := service d;
     StatusId.endpoint := endpoint d;
     StatusId.method := method d;
     StatusId.statusCode := statusCode d |}.

Module StatusCount.
(** A row of the first [$group] stage of [getErrorRates]. *)
Record t : Type := {
  _id : StatusId.t;
  count : Q
}.
End StatusCount.

(** [{ service: '$_id.service', endpoint: '$_id.endpoint',
       method: '$_id.method' }] on a row of the first stage. *)
Definition endpoint_of_count (s : StatusCount.t) : EndpointId.t :=
  {| EndpointId.service := StatusId.service (StatusCount._id s);
     EndpointId.endpoint := StatusId.endpoint (StatusCount._id s);
     EndpointId.method := StatusId.method (StatusCount._id s) |}.

Module ErrorCount.
(** An element of [errors]: [{ statusCode: '$_id.statusCode',
    count: '$count' }]. *)
Record t : Type := {
  statusCode : Z;
  count : Q
}.
End ErrorCount.

Module ErrorRate.
(** A row of [getErrorRates] after its [$project] stage. *)
Record t : Type := {
  _id : EndpointId.t;
  service : string;
  endpoint : string;
  method : string;
  totalRequests : Q;
  errors : list ErrorCount.t;
  errorRate : Q
}.
End ErrorRate.

(** The first [$group] stage of [getErrorRates] on one group. *)
Definition statusCount (g : StatusId.t * list doc) : StatusCount.t :=
  {| StatusCount._id := fst g;
     StatusCount.count := Collection.count (fun _ => true) (snd g) |}.

(** The second [$group] stage of [getErrorRates] and its [$project] stage
    on one group. *)
Definition errorRate (g : EndpointId.t * list StatusCount.t) : ErrorRate.t :=
  let totalRequests :=
    Collection.sum (fun s => Some (StatusCount.count s)) (snd g) in
  let errors :=
    map (fun s =>
           {| ErrorCount.statusCode := StatusId.statusCode (StatusCount._id s);
              ErrorCount.count := StatusCount.count s |}) (snd g) in
  {| ErrorRate._id := fst g;
     ErrorRate.service := EndpointId.service (fst g);
     ErrorRate.endpoint := EndpointId.endpoint (fst g);
     ErrorRate.method := EndpointId.method (fst g);
     ErrorRate.totalRequests := totalRequests;
     ErrorRate.errors := errors;
     ErrorRate.errorRate :=
       (Collection.sum (fun e => Some (ErrorCount.count e))
          (List.filter (fun e => 400 <=? ErrorCount.statusCode e) errors)
        / totalRequests) * 100 |}.

(** [{ $sort: { errorRate: -1 } }] *)
Definition by_errorRate_desc (x y : ErrorRate.t) : bool :=
  Qle_bool (ErrorRate.errorRate y) (ErrorRate.errorRate x).

(** [PerformanceMetrics.getErrorRates(filters)] *)
Definition getErrorRates (filters : Filters.t) (c : list doc)
    : list ErrorRate.t :=
  Collection.sort by_errorRate_desc
    (map errorRate
       (Collection.group_by_key endpoint_of_count
          (map statusCount
             (Collection.group_by_key status_of
                (Collection.find (satisfies (service_matchStage filters)) c))))).

End PerformanceMetrics.

(** ** The state of the process *)

(** The durable collections the modelled routes write, and the live
    registry. *)
Record State : Type := {
  aiRequests : list AIRequest.doc;
  salesAnalytics : list SalesAnalytics.doc;
  registry : Prometheus.registry
}.

Definition set_aiRequests (c : list AIRequest.doc) (s : State) : State :=
  {| aiRequests := c; salesAnalytics := salesAnalytics s;
     registry := registry s |}.

Definition set_salesAnalytics (c : list SalesAnalytics.doc) (s : State)
    : State :=
  {| aiRequests := aiRequests s; salesAnalytics := c; registry := registry s |}.

Definition update_registry (f : Prometheus.registry -> Prometheus.registry)
    (s : State) : State :=
  {| aiRequests := aiRequests s; salesAnalytics := salesAnalytics s;
     registry := f (registry s) |}.

Definition set_registry (r : Prometheus.registry) (s : State) : State :=
  {| aiRequests := aiRequests s; salesAnalytics := salesAnalytics s;
     registry := r |}.

(** ** The validation chains of express-validator *)

Module validator.

(** An [optional().isIn(values)] chain. *)
Definition optional_isIn (values : list string) (o : option string) : bool :=
  match o with Some v => JS.includes values v | None => true end.

(** An [isIn(values)] chain on a required field. *)
Definition required_isIn (values : list string) (o : option string) : bool :=
  match o with Some v => JS.includes values v | None => false end.

(** An [isString().notEmpty()] chain on a required field. *)
Definition isString_notEmpty (o : option string) : bool := JS.truthy o.

End validator.

(** ** routes/aiTracking.js *)

Module aiTracking.

Module TrackBody.
(** The body of POST /track. *)
Record t : Type := {
  requestId : option string;
  model : option string;
  prompt : option string;
  feature : option string;
  complexity : option string;
  language : option string;
  userPlan : option string
}.
End TrackBody.

(** The validation chains of POST /track. *)
Definition track_valid (body : TrackBody.t) : bool :=
  validator.isString_notEmpty (TrackBody.requestId body)
  && validator.required_isIn AIRequest.models (TrackBody.model body)
  && validator.isString_notEmpty (TrackBody.prompt body)
  && validator.optional_isIn AIRequest.features (TrackBody.feature body)
  && validator.optional_isIn AIRequest.complexities (TrackBody.complexity body)
  && validator.optional_isIn AIRequest.userPlans (TrackBody.userPlan body).

(** [new AIRequest({ ... })] in POST /track. *)
Definition new_AIRequest (ctx : Ctx)
    (requestId model prompt feature complexity language userPlan : string)
    : AIRequest.doc :=
  {| AIRequest.userId := User.id (user ctx);
     AIRequest.requestId := requestId;
     AIRequest.model := model;
     AIRequest.prompt := prompt;
     AIRequest.response := None;
     AIRequest.tokens := AIRequest.Tokens.defaults;
     AIRequest.cost := 0;
     AIRequest.status := "pending";
     AIRequest.error := None;
     AIRequest.metadata :=
       {| AIRequest.Metadata.userAgent := headers ctx !! "user-agent";
          AIRequest.Metadata.ipAddress := ip ctx;
          AIRequest.Metadata.sessionId := headers ctx !! "x-session-id";
          AIRequest.Metadata.feature := feature;
          AIRequest.Metadata.complexity := complexity;
          AIRequest.Metadata.language := language |};
     AIRequest.performance :=
       {| AIRequest.Performance.startTime := now ctx;
          AIRequest.Performance.endTime := None;
          AIRequest.Performance.duration := None |};
     AIRequest.userPlan := userPlan;
     AIRequest.createdAt := now ctx;
     AIRequest.updatedAt := now ctx |}.

(** The query [{ requestId }] of the duplicate check. *)
Definition by_requestId (requestId : string) (d : AIRequest.doc) : bool :=
  String.eqb (AIRequest.requestId d) requestId.

(** POST /track, where [seen] is the collection at the time of the
    handler's lookup ([await AIRequest.findOne]) and [s] the state in which
    it resumes and saves: other calls may have run in between. *)
Definition post_track_interleaved (ctx : Ctx) (body : TrackBody.t)
    (seen : list AIRequest.doc) (s : State) : Reply unit * State :=
  if negb (track_valid body) then (ValidationError, s)
  else
    match TrackBody.requestId body, TrackBody.model body,
          TrackBody.prompt body with
    | Some requestId, Some model, Some prompt =>
        let feature := default "other" (TrackBody.feature body) in
        let complexity := default "medium" (TrackBody.complexity body) in
        let language := default "en" (TrackBody.language body) in
        let userPlan := default "free" (TrackBody.userPlan body) in
        if readFails ctx then (InternalServerError, s)
        else
          match Collection.findOne (by_requestId requestId) seen with
          | Some _ => (Conflict, s)
          | None =>
              let aiRequest :=
                new_AIRequest ctx requestId model prompt feature complexity
                              language userPlan in
              match AIRequest.save_new (writeFails ctx) (now ctx) aiRequest
                      (aiRequests s) with
              | None => (InternalServerError, s)
              | Some c =>
                  (Created requestId,
                   update_registry
                     (Prometheus.updateAIMetrics.incrementRequest model
                        "pending" feature userPlan)
                     (set_aiRequests c s))
              end
          end
    | _, _, _ => (ValidationError, s)
    end.

(** POST /track with no other call between its lookup and its save. *)
Definition post_track (ctx : Ctx) (body : TrackBody.t) (s : State)
    : Reply unit * State :=
  post_track_interleaved ctx body (aiRequests s) s.

Module UpdateBody.
(** The body of PUT /update/:requestId. *)
Record t : Type := {
  status : option string;
  response : option string;
  tokens : option AIRequest.Tokens.t;
  cost : option Q;
  error : option AIRequest.ErrorInfo.t
}.
End UpdateBody.

(** The validation chain of PUT /update/:requestId. *)
Definition update_valid (body : UpdateBody.t) : bool :=
  validator.required_isIn ["processing"; "completed"; "failed"; "cancelled"]
    (UpdateBody.status body).

(** The assignments of the handler to the loaded document: the status, the
    supplied fields, and the performance figures. *)
Definition apply_update (now : Z) (status : string) (body : UpdateBody.t)
    (d : AIRequest.doc) : AIRequest.doc :=
  {| AIRequest.userId := AIRequest.userId d;
     AIRequest.requestId := AIRequest.requestId d;
     AIRequest.model := AIRequest.model d;
     AIRequest.prompt := AIRequest.prompt d;
     AIRequest.response :=
       if JS.truthy (UpdateBody.response body) then UpdateBody.response body
       else AIRequest.response d;
     AIRequest.tokens :=
       match UpdateBody.tokens body with
       | Some t => t
       | None => AIRequest.tokens d
       end;
     AIRequest.cost :=
       match UpdateBody.cost body with
       | Some c => if JS.truthy_num c then c else AIRequest.cost d
       | None => AIRequest.cost d
       end;
     AIRequest.status := status;
     AIRequest.error :=
       match UpdateBody.error body with
       | Some e => Some e
       | None => AIRequest.error d
       end;
     AIRequest.metadata := AIRequest.metadata d;
     AIRequest.performance :=
       if String.eqb status "completed" || String.eqb status "failed" then
         {| AIRequest.Performance.startTime :=
              AIRequest.Performance.startTime (AIRequest.performance d);
            AIRequest.Performance.endTime := Some now;
            AIRequest.Performance.duration :=
              Some (now - AIRequest.Performance.startTime
                            (AIRequest.performance d)) |}
       else AIRequest.performance d;
     AIRequest.userPlan := AIRequest.userPlan d;
     AIRequest.createdAt := AIRequest.createdAt d;
     AIRequest.updatedAt := AIRequest.updatedAt d |}.

(** The registry calls that follow the save of an update. *)
Definition update_metrics (status : string) (d : AIRequest.doc)
    : Prometheus.registry -> Prometheus.outcome :=
  let model := AIRequest.model d in
  let feature := AIRequest.Metadata.feature (AIRequest.metadata d) in
  let userPlan := AIRequest.userPlan d in
  Prometheus.seq
    (Prometheus.returns
       (Prometheus.updateAIMetrics.incrementRequest model status feature
          userPlan))
    (if String.eqb status "completed" then
       Prometheus.seq
         match AIRequest.Performance.duration (AIRequest.performance d) with
         | Some ms =>
             Prometheus.returns
               (Prometheus.updateAIMetrics.recordDuration model feature
                  userPlan (inject_Z ms))
         | None =>
             (* not reached: a completed update has just set it *)
             Prometheus.skip
         end
         (Prometheus.seq
            match AIRequest.Tokens.input (AIRequest.tokens d) with
            | Some n =>
                if n =? 0 then Prometheus.skip
                else Prometheus.updateAIMetrics.incrementTokens model "input"
                       userPlan (inject_Z n)
            | None => Prometheus.skip
            end
            (Prometheus.seq
               match AIRequest.Tokens.output (AIRequest.tokens d) with
               | Some n =>
                   if n =? 0 then Prometheus.skip
                   else Prometheus.updateAIMetrics.incrementTokens model
                          "output" userPlan (inject_Z n)
               | None => Prometheus.skip
               end
               (Prometheus.seq
                  (if JS.truthy_num (AIRequest.cost d) then
                     Prometheus.updateAIMetrics.incrementCost model userPlan
                       (AIRequest.cost d)
                   else Prometheus.skip)
                  Prometheus.Returned)))
     else Prometheus.Returned).

(** The query [{ requestId, userId: req.user.id }] of the update, which
    [findOne] casts to the schema. *)
Definition own_request (ctx : Ctx) (requestId : string) (d : AIRequest.doc)
    : bool :=
  String.eqb (AIRequest.requestId d) requestId
  && String.eqb (AIRequest.userId d) (User.id (user ctx)).

(** PUT /update/:requestId; the body of a 200 reply is the pair of the
    request id and the status. A registry call that throws is caught by
    the handler's [catch], which replies 500: the document is saved by
    then and the earlier registry calls have run. *)
Definition put_update (ctx : Ctx) (requestId : string) (body : UpdateBody.t)
    (s : State) : Reply (string * string) * State :=
  if negb (update_valid body) then (ValidationError, s)
  else
    match UpdateBody.status body with
    | None => (ValidationError, s)
    | Some status =>
        if readFails ctx then (InternalServerError, s)
        else
          match Collection.findOne (own_request ctx requestId) (aiRequests s)
          with
          | None => (NotFound, s)
          | Some (i, found) =>
              let aiRequest := apply_update (now ctx) status body found in
              match AIRequest.save_at (writeFails ctx) (now ctx) i aiRequest
                      (aiRequests s) with
              | None => (InternalServerError, s)
              | Some c =>
                  let saved := AIRequest.pre_save (now ctx) aiRequest in
                  match update_metrics status saved (registry s) with
                  | Prometheus.Returned r =>
                      (Ok (AIRequest.requestId saved, AIRequest.status saved),
                       set_registry r (set_aiRequests c s))
                  | Prometheus.Threw r =>
                      (* the [catch] branch, after the save *)
                      (InternalServerError,
                       set_registry r (set_aiRequests c s))
                  end
              end
          end
    end.

(** The scope object that GET /stats spreads the query over:
    [{ userId: req.user.id }]. *)
Definition own_scope (ctx : Ctx) : AIRequest.Filters.t :=
  {| AIRequest.Filters.userId := Some (User.id (user ctx));
     AIRequest.Filters.status := None;
     AIRequest.Filters.model := None;
     AIRequest.Filters.userPlan := None;
     AIRequest.Filters.feature := None;
     AIRequest.Filters.startDate := None;
     AIRequest.Filters.endDate := None |}.

(** The filters of GET /stats: [{ userId: req.user.id, ...req.query }]. *)
Definition stats_filters (ctx : Ctx) (query : AIRequest.Filters.t)
    : AIRequest.Filters.t :=
  AIRequest.Filters.spread (own_scope ctx) query.

(** GET /stats; the query holds the fields [getStats] reads, its dates
    already checked to be ISO-8601. The body of a 200 reply is the stats
    object. *)
Definition get_stats (ctx : Ctx) (query : AIRequest.Filters.t) (s : State)
    : Reply (gmap string JS.value) :=
  if readFails ctx then InternalServerError
  else Ok (AIRequest.getStats (stats_filters ctx query) (aiRequests s)).

Module HistoryQuery.
(** The query of GET /history; [page] and [limit] are the integers the
    strings denote. *)
Record t : Type := {
  page : option Z;
  limit : option Z;
  status : option string;
  model : option string;
  feature : option string
}.
End HistoryQuery.

(** The validation chains of GET /history. *)
Definition history_valid (query : HistoryQuery.t) : bool :=
  match HistoryQuery.page query with Some p => 1 <=? p | None => true end
  && match HistoryQuery.limit query with
     | Some l => (1 <=? l) && (l <=? 100)
     | None => true
     end.

(** The query object of GET /history, as [find] and [countDocuments] cast
    it to the schema: the caller's id becomes an ObjectId. *)
Definition history_query (ctx : Ctx) (query : HistoryQuery.t)
    : AIRequest.MatchStage.t :=
  {| AIRequest.MatchStage.userId := Some (JS.ObjectId (User.id (user ctx)));
     AIRequest.MatchStage.status :=
       AIRequest.if_truthy (HistoryQuery.status query);
     AIRequest.MatchStage.model :=
       AIRequest.if_truthy (HistoryQuery.model query);
     AIRequest.MatchStage.userPlan := None;
     AIRequest.MatchStage.metadata_feature :=
       AIRequest.if_truthy (HistoryQuery.feature query);
     AIRequest.MatchStage.createdAt := None |}.

(** [.sort({ createdAt: -1 })]: a document may precede one that is not
    newer. *)
Definition by_createdAt_desc (x y : AIRequest.doc) : bool :=
  AIRequest.createdAt y <=? AIRequest.createdAt x.

(** [parseInt(x) || fallback] on a validated optional integer. *)
Definition parseInt_or (o : option Z) (fallback : Z) : Z :=
  match o with
  | Some n => if n =? 0 then fallback else n
  | None => fallback
  end.

(** The body of a 200 reply of GET /history. *)
Record History : Type := {
  requests : list AIRequest.lean;
  page : Z;
  limit : Z;
  total : Z;
  pages : Z
}.

(** GET /history *)
Definition get_history (ctx : Ctx) (query : HistoryQuery.t) (s : State)
    : Reply History :=
  if negb (history_valid query) then ValidationError
  else
    let page := parseInt_or (HistoryQuery.page query) 1 in
    let limit := parseInt_or (HistoryQuery.limit query) 20 in
    let skip := (page - 1) * limit in
    let q := history_query ctx query in
    if readFails ctx then InternalServerError
    else
      let requests :=
        map AIRequest.select_without_prompt_response
          (Collection.limit limit
             (Collection.skip skip
                (Collection.sort by_createdAt_desc
                   (Collection.find (AIRequest.satisfies q) (aiRequests s)))))
      in
      let total :=
        Collection.countDocuments (AIRequest.satisfies q) (aiRequests s) in
      Ok {| requests := requests;
            page := page;
            limit := limit;
            total := total;
            pages := (total + limit - 1) / limit |}.

End aiTracking.

(** ** routes/analytics.js *)

Module analytics.

Module SalesBody.
(** The body of POST /sales/track, with the [utm_*] parameters of its
    query string. *)
Record t : Type := {
  transactionId : option string;
  type : option string;
  amount : option Q;
  currency : option string;
  status : option string;
  paymentMethod : option string;
  plan : option string;
  subscription : option SalesAnalytics.Subscription.t;
  refund : option SalesAnalytics.Refund.t;
  utm_source : option string;
  utm_medium : option string;
  utm_campaign : option string
}.
End SalesBody.

(** The validation chains of POST /sales/track. *)
Definition sales_track_valid (body : SalesBody.t) : bool :=
  validator.isString_notEmpty (SalesBody.transactionId body)
  && validator.required_isIn SalesAnalytics.types (SalesBody.type body)
  && bool_decide (is_Some (SalesBody.amount body))
  && validator.required_isIn SalesAnalytics.statuses (SalesBody.status body)
  && validator.optional_isIn SalesAnalytics.paymentMethods
       (SalesBody.paymentMethod body)
  && validator.optional_isIn SalesAnalytics.plans (SalesBody.plan body).

(** [new SalesAnalytics({ ... })] in POST /sales/track. *)
Definition new_SalesAnalytics (ctx : Ctx) (body : SalesBody.t)
    (transactionId type : string) (amount : Q) (currency status plan : string)
    : SalesAnalytics.doc :=
  {| SalesAnalytics.userId := User.id (user ctx);
     SalesAnalytics.transactionId := transactionId;
     SalesAnalytics.type := type;
     SalesAnalytics.plan := plan;
     SalesAnalytics.amount := amount;
     SalesAnalytics.currency := currency;
     SalesAnalytics.status := status;
     SalesAnalytics.paymentMethod := SalesBody.paymentMethod body;
     SalesAnalytics.metadata :=
       {| SalesAnalytics.Metadata.source :=
            if JS.truthy (headers ctx !! "x-source")
            then default "web" (headers ctx !! "x-source")
            else "web";
          SalesAnalytics.Metadata.campaign := headers ctx !! "x-campaign";
          SalesAnalytics.Metadata.utmSource := SalesBody.utm_source body;
          SalesAnalytics.Metadata.utmMedium := SalesBody.utm_medium body;
          SalesAnalytics.Metadata.utmCampaign := SalesBody.utm_campaign body;
          SalesAnalytics.Metadata.referrer := headers ctx !! "referrer";
          SalesAnalytics.Metadata.userAgent := headers ctx !! "user-agent";
          SalesAnalytics.Metadata.ipAddress := ip ctx |};
     SalesAnalytics.subscription :=
       SalesAnalytics.Subscription.with_defaults
         (default SalesAnalytics.Subscription.absent
            (SalesBody.subscription body));
     SalesAnalytics.refund :=
       default SalesAnalytics.Refund.absent (SalesBody.refund body);
     SalesAnalytics.createdAt := now ctx;
     SalesAnalytics.updatedAt := now ctx |}.

(** The registry calls that follow the save of a transaction. *)
Definition sales_metrics (type status plan : string)
    (paymentMethod : option string) (currency : string) (amount : Q)
    : Prometheus.registry -> Prometheus.outcome :=
  Prometheus.seq
    (Prometheus.returns
       (Prometheus.updateSalesMetrics.incrementTransaction type status plan
          paymentMethod))
    (if String.eqb status "completed" then
       Prometheus.seq
         (Prometheus.updateSalesMetrics.incrementRevenue type plan currency
            amount)
         Prometheus.Returned
     else Prometheus.Returned).

(** The query [{ transactionId }] of the duplicate check. *)
Definition by_transactionId (transactionId : string) (d : SalesAnalytics.doc)
    : bool :=
  String.eqb (SalesAnalytics.transactionId d) transactionId.

(** POST /sales/track. A registry call that throws is caught by the
    handler's [catch], which replies 500 with the transaction saved. *)
Definition post_sales_track (ctx : Ctx) (body : SalesBody.t) (s : State)
    : Reply unit * State :=
  if negb (sales_track_valid body) then (ValidationError, s)
  else
    match SalesBody.transactionId body, SalesBody.type body,
          SalesBody.amount body, SalesBody.status body with
    | Some transactionId, Some type, Some amount, Some status =>
        let currency := default "USD" (SalesBody.currency body) in
        let plan := default "free" (SalesBody.plan body) in
        if readFails ctx then (InternalServerError, s)
        else
          match Collection.findOne (by_transactionId transactionId)
                  (salesAnalytics s) with
          | Some _ => (Conflict, s)
          | None =>
              let salesTransaction :=
                new_SalesAnalytics ctx body transactionId type amount currency
                                   status plan in
              match SalesAnalytics.save_new (writeFails ctx) (now ctx)
                      salesTransaction (salesAnalytics s) with
              | None => (InternalServerError, s)
              | Some c =>
                  match sales_metrics type status plan
                          (SalesBody.paymentMethod body) currency amount
                          (registry s) with
                  | Prometheus.Returned r =>
                      (Created transactionId,
                       set_registry r (set_salesAnalytics c s))
                  | Prometheus.Threw r =>
                      (* the [catch] branch, after the save *)
                      (InternalServerError,
                       set_registry r (set_salesAnalytics c s))
                  end
              end
          end
    | _, _, _, _ => (ValidationError, s)
    end.

(** The filters of GET /sales/stats:
    [{ userId: req.user.id, ...req.query }]. *)
Definition sales_stats_filters (ctx : Ctx) (query : SalesAnalytics.Filters.t)
    : SalesAnalytics.Filters.t :=
  SalesAnalytics.Filters.spread
    {| SalesAnalytics.Filters.userId := Some (User.id (user ctx));
       SalesAnalytics.Filters.status := None;
       SalesAnalytics.Filters.type := None;
       SalesAnalytics.Filters.plan := None;
       SalesAnalytics.Filters.paymentMethod := None;
       SalesAnalytics.Filters.currency := None;
       SalesAnalytics.Filters.startDate := None;
       SalesAnalytics.Filters.endDate := None |}
    query.

(** The body of a 200 reply of GET /sales/stats. *)
Record SalesStats : Type := {
  stats : gmap string JS.value;
  revenueByPlan : list SalesAnalytics.PlanRevenue;
  customerLifetimeValue : SalesAnalytics.CLV
}.

(** GET /sales/stats. The call [mongoose.Types.ObjectId(userId)] of
    [getCustomerLifetimeValue] returns the id up to Mongoose 6 and throws
    from Mongoose 7 on, and the repository does not fix the version:
    [callable] tells which, and a throw is a 500 reply. *)
Definition get_sales_stats (callable : bool) (ctx : Ctx)
    (query : SalesAnalytics.Filters.t) (s : State) : Reply SalesStats :=
  if readFails ctx then InternalServerError
  else if negb callable then InternalServerError
  else
    let filters := sales_stats_filters ctx query in
    Ok {| stats := SalesAnalytics.getSalesStats filters (salesAnalytics s);
          revenueByPlan :=
            SalesAnalytics.getRevenueByPlan filters (salesAnalytics s);
          customerLifetimeValue :=
            SalesAnalytics.getCustomerLifetimeValue (User.id (user ctx))
              (salesAnalytics s) |}.

(** The device type POST /engagement/track derives from the User-Agent
    header ([req.get('User-Agent') || '']). *)
Definition deviceType (userAgent : string) : string :=
  if JS.test_ignore_case "mobile" userAgent then "mobile"
  else if JS.test_ignore_case "tablet" userAgent then "tablet"
  else "desktop".

(** [extractBrowser(userAgent)] *)
Definition extractBrowser (userAgent : string) : string :=
  if JS.str_includes "Chrome" userAgent then "Chrome"
  else if JS.str_includes "Firefox" userAgent then "Firefox"
  else if JS.str_includes "Safari" userAgent then "Safari"
  else if JS.str_includes "Edge" userAgent then "Edge"
  else if JS.str_includes "Opera" userAgent then "Opera"
  else "Unknown".

(** [extractOS(userAgent)] *)
Definition extractOS (userAgent : string) : string :=
  if JS.str_includes "Windows" userAgent then "Windows"
  else if JS.str_includes "Mac OS" userAgent then "macOS"
  else if JS.str_includes "Linux" userAgent then "Linux"
  else if JS.str_includes "Android" userAgent then "Android"
  else if JS.str_includes "iOS" userAgent then "iOS"
  else "Unknown".

End analytics.

(** ** routes/metrics.js *)

Module metrics.

(** A row of [getTopRevenue]; [_id] is the user. *)
Record UserRevenue : Type := {
  _id : string;
  totalRevenue : Q;
  transactionCount : Q
}.

(** The match stage of [getTopRevenue]: [{ status: 'completed' }]. *)
Definition topRevenue_matchStage : SalesAnalytics.MatchStage.t :=
  {| SalesAnalytics.MatchStage.userId := None;
     SalesAnalytics.MatchStage.status := Some "completed";
     SalesAnalytics.MatchStage.type := None;
     SalesAnalytics.MatchStage.plan := None;
     SalesAnalytics.MatchStage.paymentMethod := None;
     SalesAnalytics.MatchStage.currency := None;
     SalesAnalytics.MatchStage.createdAt := None |}.

(** [{ $sort: { totalRevenue: -1 } }] *)
Definition by_totalRevenue_desc (x y : UserRevenue) : bool :=
  Qle_bool (totalRevenue y) (totalRevenue x).

(** [getTopRevenue(limit)] *)
Definition getTopRevenue (limit : Z) (c : list SalesAnalytics.doc)
    : list UserRevenue :=
  Collection.limit limit
    (Collection.sort by_totalRevenue_desc
       (map (fun g : string * list SalesAnalytics.doc =>
               {| _id := fst g;
                  totalRevenue :=
                    Collection.sum (fun d => Some (SalesAnalytics.amount d))
                      (snd g);
                  transactionCount :=
                    Collection.count (fun _ => true) (snd g) |})
            (Collection.group_by SalesAnalytics.userId
               (Collection.find (SalesAnalytics.satisfies topRevenue_matchStage)
                  c)))).

(** The change [calculatePercentageChange] records for a key whose current
    and previous values are both numbers. *)
Definition change (current previous : Q) : Q :=
  if Qeq_bool previous 0 then
    if negb (Qle_bool current 0) then 100 else 0
  else ((current - previous) / previous) * 100.

(** One round of the [for (const key in current)] loop. *)
Definition change_step (previous : gmap string JS.value) (key : string)
    (cur : JS.value) (changes : gmap string Q) : gmap string Q :=
  match cur, previous !! key with
  | JS.Num c, Some (JS.Num p) => <[ key := change c p ]> changes
  | _, _ => changes
  end.

(** [calculatePercentageChange(current, previous)] *)
Definition calculatePercentageChange (current previous : gmap string JS.value)
    : gmap string Q :=
  map_fold (change_step previous) ∅ current.

(** [obj.key] read as a number; anything else compares false with [> 0]
    and is replaced by the [|| 0] of the dashboard. *)
Definition number_or_zero (o : gmap string JS.value) (key : string) : Q :=
  match o !! key with
  | Some (JS.Num q) => q
  | _ => 0
  end.

(** [den > 0 ? (num / den) * 100 : 0], the guarded ratio of the dashboard's
    indicators. *)
Definition rate (o : gmap string JS.value) (num den : string) : Q :=
  if negb (Qle_bool (number_or_zero o den) 0) then
    (number_or_zero o num / number_or_zero o den) * 100
  else 0.

Module ModelUsage.
(** A row of [getTopAIModels]; [_id] is the model. *)
Record t : Type := {
  _id : string;
  count : Q;
  avgDuration : JS.value;
  totalCost : Q
}.
End ModelUsage.

(** [{ $sort: { count: -1 } }] on the rows of [getTopAIModels]. *)
Definition by_model_count_desc (x y : ModelUsage.t) : bool :=
  Qle_bool (ModelUsage.count y) (ModelUsage.count x).

(** [getTopAIModels(filters, limit)]; the filters are [{}] or
    [{ userId }], and they are the [$match] stage as they come. *)
Definition getTopAIModels (userId : option JS.id) (limit : Z)
    (c : list AIRequest.doc) : list ModelUsage.t :=
  Collection.limit limit
    (Collection.sort by_model_count_desc
       (map (fun g : string * list AIRequest.doc =>
               {| ModelUsage._id := fst g;
                  ModelUsage.count := Collection.count (fun _ => true) (snd g);
                  ModelUsage.avgDuration :=
                    Collection.avg
                      (fun d => inject_Z
                                <$> AIRequest.Performance.duration
                                      (AIRequest.performance d)) (snd g);
                  ModelUsage.totalCost :=
                    Collection.sum (fun d => Some (AIRequest.cost d)) (snd g) |})
            (Collection.group_by AIRequest.model
               (Collection.find
                  (fun d => Collection.eq_id userId (AIRequest.userId d)) c)))).

Module FeatureUsage.
(** A row of [getTopFeatures] after its [$project] stage. *)
Record t : Type := {
  _id : string;
  feature : string;
  count : Q;
  uniqueUsers : Q
}.
End FeatureUsage.

Definition by_feature_count_desc (x y : FeatureUsage.t) : bool :=
  Qle_bool (FeatureUsage.count y) (FeatureUsage.count x).

(** [getTopFeatures(filters, limit)]: the events that have a feature, of
    the user when the filters name one. *)
Definition getTopFeatures (userId : option JS.id) (limit : Z)
    (c : list UserEngagement.doc) : list FeatureUsage.t :=
  Collection.limit limit
    (Collection.sort by_feature_count_desc
       (map (fun g : string * list UserEngagement.doc =>
               {| FeatureUsage._id := fst g;
                  FeatureUsage.feature := fst g;
                  FeatureUsage.count := Collection.count (fun _ => true) (snd g);
                  FeatureUsage.uniqueUsers :=
                    UserEngagement.size_of_set
                      (map UserEngagement.userId (snd g)) |})
            (Collection.group_by
               (fun d => default "" (UserEngagement.feature d))
               (Collection.find
                  (fun d =>
                     Collection.eq_id userId (UserEngagement.userId d)
                     && bool_decide (is_Some (UserEngagement.feature d))) c)))).

Module EndpointUsage.
(** A row of [getTopEndpoints] after its [$project] stage. *)
Record t : Type := {
  _id : PerformanceMetrics.EndpointId.t;
  service : string;
  endpoint : string;
  method : string;
  count : Q;
  avgResponseTime : JS.value;
  errorCount : Q;
  errorRate : Q
}.
End EndpointUsage.

Definition by_endpoint_count_desc (x y : EndpointUsage.t) : bool :=
  Qle_bool (EndpointUsage.count y) (EndpointUsage.count x).

(** [getTopEndpoints(filters, limit)] *)
Definition getTopEndpoints (userId : option JS.id) (limit : Z)
    (c : list PerformanceMetrics.doc) : list EndpointUsage.t :=
  Collection.limit limit
    (Collection.sort by_endpoint_count_desc
       (map (fun g : PerformanceMetrics.EndpointId.t
                     * list PerformanceMetrics.doc =>
               let count := Collection.count (fun _ => true) (snd g) in
               let errorCount :=
                 Collection.count
                   (fun d => 400 <=? PerformanceMetrics.statusCode d) (snd g) in
               {| EndpointUsage._id := fst g;
                  EndpointUsage.service :=
                    PerformanceMetrics.EndpointId.service (fst g);
                  EndpointUsage.endpoint :=
                    PerformanceMetrics.EndpointId.endpoint (fst g);
                  EndpointUsage.method :=
                    PerformanceMetrics.EndpointId.method (fst g);
                  EndpointUsage.count := count;
                  EndpointUsage.avgResponseTime :=
                    Collection.avg
                      (fun d => Some (PerformanceMetrics.responseTime d))
                      (snd g);
                  EndpointUsage.errorCount := errorCount;
                  EndpointUsage.errorRate := (errorCount / count) * 100 |})
            (Collection.group_by_key PerformanceMetrics.endpoint_of
               (Collection.find
                  (fun d =>
                     match userId, PerformanceMetrics.userId d with
                     | Some i, Some u => JS.id_eq u i
                     | Some _, None => false
                     | None, _ => true
                     end) c)))).

Module UserActivity.
(** A row of [getTopUsers]; [_id] is the user. *)
Record t : Type := {
  _id : string;
  eventCount : Q;
  lastActivity : option Z
}.
End UserActivity.

Definition by_eventCount_desc (x y : UserActivity.t) : bool :=
  Qle_bool (UserActivity.eventCount y) (UserActivity.eventCount x).

(** [{ $max: '$timestamp' }] *)
Definition max_timestamp (ds : list UserEngagement.doc) : option Z :=
  foldr (fun d acc => Some (match acc with
                            | Some a => Z.max (UserEngagement.timestamp d) a
                            | None => UserEngagement.timestamp d
                            end)) None ds.

(** [getTopUsers(limit)] *)
Definition getTopUsers (limit : Z) (c : list UserEngagement.doc)
    : list UserActivity.t :=
  Collection.limit limit
    (Collection.sort by_eventCount_desc
       (map (fun g : string * list UserEngagement.doc =>
               {| UserActivity._id := fst g;
                  UserActivity.eventCount :=
                    Collection.count (fun _ => true) (snd g);
                  UserActivity.lastActivity := max_timestamp (snd g) |})
            (Collection.group_by UserEngagement.userId c))).

Module TopMetricsQuery.
(** The query of GET /top-metrics; [limit] is the integer the string
    denotes. *)
Record t : Type := {
  metric : option string;
  limit : option Z
}.
End TopMetricsQuery.

Definition top_metrics : list string :=
  ["ai-models"; "features"; "endpoints"; "users"; "revenue"].

(** The validation chains of GET /top-metrics. *)
Definition top_metrics_valid (query : TopMetricsQuery.t) : bool :=
  validator.required_isIn top_metrics (TopMetricsQuery.metric query)
  && match TopMetricsQuery.limit query with
     | Some l => (1 <=? l) && (l <=? 50)
     | None => true
     end.

(** The rows of a reply of GET /top-metrics, by metric. *)
Inductive TopMetrics : Type :=
| TopAIModels (rows : list ModelUsage.t)
| TopFeatures (rows : list FeatureUsage.t)
| TopEndpoints (rows : list EndpointUsage.t)
| TopUsers (rows : list UserActivity.t)
| TopRevenue (rows : list UserRevenue)
| NoMetrics.  (* the initial [[]] *)

(** The body of a 200 reply of GET /top-metrics. *)
Record TopMetricsReply : Type := {
  metric : string;
  topMetrics : TopMetrics;
  limit : Z
}.

(** The collections GET /top-metrics reads. *)
Record Collections : Type := {
  aiRequests : list AIRequest.doc;
  userEngagement : list UserEngagement.doc;
  performanceMetrics : list PerformanceMetrics.doc;
  salesAnalytics : list SalesAnalytics.doc
}.

(** GET /top-metrics *)
Definition get_top_metrics (ctx : Ctx) (query : TopMetricsQuery.t)
    (c : Collections) : Reply TopMetricsReply :=
  if negb (top_metrics_valid query) then ValidationError
  else
    let userId := User.id (user ctx) in
    let isAdmin := User.isAdmin (user ctx) in
    let metric := default "" (TopMetricsQuery.metric query) in
    let limit := aiTracking.parseInt_or (TopMetricsQuery.limit query) 10 in
    let filters := if isAdmin then None else Some (JS.IdString userId) in
    let reply (topMetrics : TopMetrics) : Reply TopMetricsReply :=
      if readFails ctx then InternalServerError
      else Ok {| metric := metric; topMetrics := topMetrics; limit := limit |}
    in
    if String.eqb metric "ai-models" then
      reply (TopAIModels (getTopAIModels filters limit (aiRequests c)))
    else if String.eqb metric "features" then
      reply (TopFeatures (getTopFeatures filters limit (userEngagement c)))
    else if String.eqb metric "endpoints" then
      reply (TopEndpoints (getTopEndpoints filters limit (performanceMetrics c)))
    else if String.eqb metric "users" then
      if negb isAdmin then AccessDenied
      else reply (TopUsers (getTopUsers limit (userEngagement c)))
    else if String.eqb metric "revenue" then
      if negb isAdmin then AccessDenied
      else reply (TopRevenue (getTopRevenue limit (salesAnalytics c)))
    else reply NoMetrics.

End metrics.

(** ** middleware/auth.js *)

Module auth.

(** [adminOnly], on a request the authentication middleware has let
    through: [req.user] is set, and the handler runs for an admin only. *)
Definition adminOnly {A : Type} (ctx : Ctx) (next : Reply A) : Reply A :=
  if negb (User.isAdmin (user ctx)) then AccessDenied else next.

End auth.

(** ** routes/performance.js *)

Module performance.

(** [!userAgent]: the header is absent or empty. *)
Definition no_userAgent (userAgent : option string) : bool :=
  negb (JS.truthy userAgent).

(** [extractBrowser(userAgent)] *)
Definition extractBrowser (userAgent : option string) : string :=
  if no_userAgent userAgent then "Unknown"
  else
    let ua := default "" userAgent in
    if JS.str_includes "Chrome" ua then "Chrome"
    else if JS.str_includes "Firefox" ua then "Firefox"
    else if JS.str_includes "Safari" ua then "Safari"
    else if JS.str_includes "Edge" ua then "Edge"
    else if JS.str_includes "Opera" ua then "Opera"
    else "Unknown".

(** [extractOS(userAgent)] *)
Definition extractOS (userAgent : option string) : string :=
  if no_userAgent userAgent then "Unknown"
  else
    let ua := default "" userAgent in
    if JS.str_includes "Windows" ua then "Windows"
    else if JS.str_includes "Mac OS" ua then "macOS"
    else if JS.str_includes "Linux" ua then "Linux"
    else if JS.str_includes "Android" ua then "Android"
    else if JS.str_includes "iOS" ua then "iOS"
    else "Unknown".

(** [extractDeviceType(userAgent)] *)
Definition extractDeviceType (userAgent : option string) : string :=
  if no_userAgent userAgent then "desktop"
  else
    let ua := default "" userAgent in
    if JS.test_ignore_case "mobile" ua then "mobile"
    else if JS.test_ignore_case "tablet" ua then "tablet"
    else "desktop".

Module AlertsQuery.
(** The query of GET /admin/alerts; the thresholds are the numbers the
    strings denote. *)
Record t : Type := {
  errorRateThreshold : option Q;
  responseTimeThreshold : option Q
}.
End AlertsQuery.

(** The validation chains of GET /admin/alerts. *)
Definition alerts_valid (query : AlertsQuery.t) : bool :=
  match AlertsQuery.errorRateThreshold query with
  | Some x => Qle_bool 0 x && Qle_bool x 100
  | None => true
  end
  && match AlertsQuery.responseTimeThreshold query with
     | Some x => Qle_bool 0 x
     | None => true
     end.

(** [parseFloat(x) || fallback] on a validated optional number. *)
Definition parseFloat_or (o : option Q) (fallback : Q) : Q :=
  match o with
  | Some x => if JS.truthy_num x then x else fallback
  | None => fallback
  end.

Module Alert.
(** A row of the alerts after the [$project] stage. *)
Record t : Type := {
  _id : PerformanceMetrics.EndpointId.t;
  service : string;
  endpoint : string;
  method : string;
  totalRequests : Q;
  errorCount : Q;
  errorRate : Q;
  avgResponseTime : JS.value
}.
End Alert.

(** The [$group] and [$project] stages of the alerts on one group. *)
Definition alert
    (g : PerformanceMetrics.EndpointId.t * list PerformanceMetrics.doc)
    : Alert.t :=
  let totalRequests := Collection.count (fun _ => true) (snd g) in
  let errorCount :=
    Collection.count (fun d => 400 <=? PerformanceMetrics.statusCode d) (snd g)
  in
  {| Alert._id := fst g;
     Alert.service := PerformanceMetrics.EndpointId.service (fst g);
     Alert.endpoint := PerformanceMetrics.EndpointId.endpoint (fst g);
     Alert.method := PerformanceMetrics.EndpointId.method (fst g);
     Alert.totalRequests := totalRequests;
     Alert.errorCount := errorCount;
     Alert.errorRate := (errorCount / totalRequests) * 100;
     Alert.avgResponseTime :=
       Collection.avg (fun d => Some (PerformanceMetrics.responseTime d))
         (snd g) |}.

(** [{ $or: [{ errorRate: { $gte: errorRateThreshold } },
             { avgResponseTime: { $gte: responseTimeThreshold } }] }] *)
Definition exceeds (errorRateThreshold responseTimeThreshold : Q) (a : Alert.t)
    : bool :=
  Qle_bool errorRateThreshold (Alert.errorRate a)
  || JS.gte_num (Alert.avgResponseTime a) responseTimeThreshold.

(** [{ $sort: { errorRate: -1, avgResponseTime: -1 } }] *)
Definition by_errorRate_avgResponseTime_desc (x y : Alert.t) : bool :=
  if Qeq_bool (Alert.errorRate x) (Alert.errorRate y) then
    JS.sort_le (Alert.avgResponseTime y) (Alert.avgResponseTime x)
  else Qle_bool (Alert.errorRate y) (Alert.errorRate x).

Module Thresholds.
Record t : Type := {
  errorRate : Q;
  responseTime : Q
}.
End Thresholds.

(** The body of a 200 reply of GET /admin/alerts. *)
Record Alerts : Type := {
  alerts : list Alert.t;
  thresholds : Thresholds.t
}.

(** GET /admin/alerts, on the collection of performance metrics. *)
Definition get_admin_alerts (ctx : Ctx) (query : AlertsQuery.t)
    (c : list PerformanceMetrics.doc) : Reply Alerts :=
  auth.adminOnly ctx
    (if negb (alerts_valid query) then ValidationError
     else
       let errorRateThreshold :=
         parseFloat_or (AlertsQuery.errorRateThreshold query) 5 in
       let responseTimeThreshold :=
         parseFloat_or (AlertsQuery.responseTimeThreshold query) 2000 in
       if readFails ctx then InternalServerError
       else
         let highErrorEndpoints :=
           Collection.sort by_errorRate_avgResponseTime_desc
             (Collection.find (exceeds errorRateThreshold responseTimeThreshold)
                (map alert
                   (Collection.group_by_key PerformanceMetrics.endpoint_of c)))
         in
         Ok {| alerts := highErrorEndpoints;
               thresholds :=
                 {| Thresholds.errorRate := errorRateThreshold;
                    Thresholds.responseTime := responseTimeThreshold |} |}).

End performance.

(** ** config/redis.js *)

Module redis.

(** The fields of [options] the retry strategy reads. *)
Record RetryOptions : Type := {
  error_code : option string;   (* options.error && options.error.code *)
  total_retry_time : Z;
  attempt : Z
}.

(** What the strategy answers: an error that ends the retries, [undefined],
    or the delay in milliseconds before the next attempt. *)
Inductive Retry : Type :=
| GiveUp (message : string)
| Undefined
| After (delay : Z).

(** [retry_strategy(options)] *)
Definition retry_strategy (options : RetryOptions) : Retry :=
  if bool_decide (error_code options = Some "ECONNREFUSED") then
    GiveUp "Redis server refused connection"
  else if 1000 * 60 * 60 <? total_retry_time options then
    GiveUp "Redis retry time exhausted"
  else if 10 <? attempt options then Undefined
  else After (Z.min (attempt options * 100) 3000).

End redis.

(** ** Sample callers, requests and stores

    The concrete inputs at which the properties below are evaluated. *)

Module Sample.

Definition alice : User.t :=
  {| User.id := "alice"; User.role := "user"; User.plan := Some "free" |}.
Definition bob : User.t :=
  {| User.id := "bob"; User.role := "user"; User.plan := Some "basic" |}.

(** A call by [u] at time [t], with no optional header and a store that
    answers. *)
Definition call (u : User.t) (t : Z) : Ctx :=
  {| user := u; now := t; headers := ∅; ip := None;
     readFails := false; writeFails := false |}.

(** The state of a freshly started process over empty collections. *)
Definition fresh : State :=
  {| aiRequests := []; salesAnalytics := []; registry := Prometheus.empty |}.

(** [{ requestId, model: 'gpt-4', prompt: 'describe this painting' }] *)
Definition track (requestId : string) : aiTracking.TrackBody.t :=
  {| aiTracking.TrackBody.requestId := Some requestId;
     aiTracking.TrackBody.model := Some "gpt-4";
     aiTracking.TrackBody.prompt := Some "describe this painting";
     aiTracking.TrackBody.feature := None;
     aiTracking.TrackBody.complexity := None;
     aiTracking.TrackBody.language := None;
     aiTracking.TrackBody.userPlan := None |}.

(** The same body with another prompt. *)
Definition track_prompt (requestId prompt : string) : aiTracking.TrackBody.t :=
  {| aiTracking.TrackBody.requestId := Some requestId;
     aiTracking.TrackBody.model := Some "gpt-4";
     aiTracking.TrackBody.prompt := Some prompt;
     aiTracking.TrackBody.feature := None;
     aiTracking.TrackBody.complexity := None;
     aiTracking.TrackBody.language := None;
     aiTracking.TrackBody.userPlan := None |}.

(** [{ status }] *)
Definition update (status : string) : aiTracking.UpdateBody.t :=
  {| aiTracking.UpdateBody.status := Some status;
     aiTracking.UpdateBody.response := None;
     aiTracking.UpdateBody.tokens := None;
     aiTracking.UpdateBody.cost := None;
     aiTracking.UpdateBody.error := None |}.

(** [{ status: 'completed', tokens: { input: 120, output: 80, total: 7 },
       cost: 0.25 }] *)
Definition complete : aiTracking.UpdateBody.t :=
  {| aiTracking.UpdateBody.status := Some "completed";
     aiTracking.UpdateBody.response := Some "a landscape";
     aiTracking.UpdateBody.tokens :=
       Some {| AIRequest.Tokens.input := Some 120;
               AIRequest.Tokens.output := Some 80;
               AIRequest.Tokens.total := Some 7 |};
     aiTracking.UpdateBody.cost := Some (1 # 4)%Q;
     aiTracking.UpdateBody.error := None |}.

(** [{ status: 'completed', cost }] *)
Definition complete_at_cost (cost : Q) : aiTracking.UpdateBody.t :=
  {| aiTracking.UpdateBody.status := Some "completed";
     aiTracking.UpdateBody.response := None;
     aiTracking.UpdateBody.tokens := None;
     aiTracking.UpdateBody.cost := Some cost;
     aiTracking.UpdateBody.error := None |}.

(** The same call when the store refuses the write. *)
Definition call_write_refused (u : User.t) (t : Z) : Ctx :=
  {| user := u; now := t; headers := ∅; ip := None;
     readFails := false; writeFails := true |}.

(** The state after [u] set the status of [requestId] at time [t] in state
    [s]. *)
Definition updated (u : User.t) (requestId status : string) (t : Z)
    (s : State) : State :=
  snd (aiTracking.put_update (call u t) requestId (update status) s).

(** The state after [u] tracked the request [requestId] at time [t] in
    state [s]. *)
Definition tracked (u : User.t) (requestId : string) (t : Z) (s : State)
    : State :=
  snd (aiTracking.post_track (call u t) (track requestId) s).

(** The document that call stores. *)
Definition request (u : User.t) (requestId : string) (t : Z) : AIRequest.doc :=
  AIRequest.pre_save t
    (aiTracking.new_AIRequest (call u t) requestId "gpt-4"
       "describe this painting" "other" "medium" "en" "free").

(** A query with only [userId] set. *)
Definition stats_query (userId : string) : AIRequest.Filters.t :=
  {| AIRequest.Filters.userId := Some userId;
     AIRequest.Filters.status := None;
     AIRequest.Filters.model := None;
     AIRequest.Filters.userPlan := None;
     AIRequest.Filters.feature := None;
     AIRequest.Filters.startDate := None;
     AIRequest.Filters.endDate := None |}.

(** A history query with no parameter. *)
Definition history_query : aiTracking.HistoryQuery.t :=
  {| aiTracking.HistoryQuery.page := None;
     aiTracking.HistoryQuery.limit := None;
     aiTracking.HistoryQuery.status := None;
     aiTracking.HistoryQuery.model := None;
     aiTracking.HistoryQuery.feature := None |}.

(** [{ transactionId, type: 'subscription', amount, status,
       paymentMethod: 'stripe', plan: 'basic' }] *)
Definition sale (transactionId status : string) (amount : Q)
    : analytics.SalesBody.t :=
  {| analytics.SalesBody.transactionId := Some transactionId;
     analytics.SalesBody.type := Some "subscription";
     analytics.SalesBody.amount := Some amount;
     analytics.SalesBody.currency := None;
     analytics.SalesBody.status := Some status;
     analytics.SalesBody.paymentMethod := Some "stripe";
     analytics.SalesBody.plan := Some "basic";
     analytics.SalesBody.subscription := None;
     analytics.SalesBody.refund := None;
     analytics.SalesBody.utm_source := None;
     analytics.SalesBody.utm_medium := None;
     analytics.SalesBody.utm_campaign := None |}.

(** The state after [u] tracked the transaction at time [t] in state [s]. *)
Definition sold (u : User.t) (transactionId status : string) (amount : Q)
    (t : Z) (s : State) : State :=
  snd (analytics.post_sales_track (call u t) (sale transactionId status amount)
         s).

(** A sales query with only [userId] set. *)
Definition sales_query (userId : option string) : SalesAnalytics.Filters.t :=
  {| SalesAnalytics.Filters.userId := userId;
     SalesAnalytics.Filters.status := None;
     SalesAnalytics.Filters.type := None;
     SalesAnalytics.Filters.plan := None;
     SalesAnalytics.Filters.paymentMethod := None;
     SalesAnalytics.Filters.currency := None;
     SalesAnalytics.Filters.startDate := None;
     SalesAnalytics.Filters.endDate := None |}.


Definition root : User.t :=
  {| User.id := "root"; User.role := "admin"; User.plan := None |}.

(** A request to [GET endpoint] of the payment service, answered with
    [statusCode] after [responseTime] milliseconds. *)
Definition measured (requestId endpoint : string) (statusCode : Z)
    (responseTime : Q) : PerformanceMetrics.doc :=
  {| PerformanceMetrics.service := "payment";
     PerformanceMetrics.endpoint := endpoint;
     PerformanceMetrics.method := "GET";
     PerformanceMetrics.userId := Some "alice";
     PerformanceMetrics.requestId := requestId;
     PerformanceMetrics.statusCode := statusCode;
     PerformanceMetrics.responseTime := responseTime;
     PerformanceMetrics.requestSize := 0;
     PerformanceMetrics.responseSize := 0;
     PerformanceMetrics.system :=
       {| PerformanceMetrics.System.cpu_usage := None;
          PerformanceMetrics.System.memory_percentage := None;
          PerformanceMetrics.System.disk_percentage := None |};
     PerformanceMetrics.timestamp := 1000 |}.

(** Two requests to [/pay], one of them failed, and one to [/refund]. *)
Definition measurements : list PerformanceMetrics.doc :=
  [measured "m1" "/pay" 200 120; measured "m2" "/pay" 500 480;
   measured "m3" "/refund" 200 80].

(** An event of [u] in session [s1]. *)
Definition happened (u : User.t) (event : string) (t : Z)
    : UserEngagement.doc :=
  {| UserEngagement.userId := User.id u;
     UserEngagement.sessionId := "s1";
     UserEngagement.event := event;
     UserEngagement.feature := None;
     UserEngagement.timeOnPage := None;
     UserEngagement.scrollDepth := None;
     UserEngagement.userPlan := "free";
     UserEngagement.value := 0;
     UserEngagement.timestamp := t |}.

End Sample.

(** * Properties *)

(** A result object written as a list of fields is a chain of inserts. *)
Ltac unfold_object := rewrite ?list_to_map_cons, ?list_to_map_nil.

(** Case analysis on the key of a lookup [H] in such a chain. *)
Ltac lookup_cases H :=
  repeat (rewrite lookup_insert in H; case_decide; [simplify_eq/=|]);
  try (rewrite lookup_empty in H; discriminate).

(** ** Period comparison *)

Section PercentageChange.

Local Open Scope Q_scope.

(** The three cases of the change of one numeric field. *)
Lemma change_from_zero_up (c p : Q) :
  p == 0 -> 0 < c -> metrics.change c p = 100.
Proof.
  intros Hp Hc. unfold metrics.change.
  apply Qeq_bool_iff in Hp. rewrite Hp.
  destruct (Qle_bool c 0) eqn:E; [|reflexivity].
  apply Qle_bool_iff in E. exfalso. exact (Qlt_not_le _ _ Hc E).
Qed.

Lemma change_from_zero_flat (c p : Q) :
  p == 0 -> c <= 0 -> metrics.change c p = 0.
Proof.
  intros Hp Hc. unfold metrics.change.
  apply Qeq_bool_iff in Hp. rewrite Hp.
  apply Qle_bool_iff in Hc. rewrite Hc. reflexivity.
Qed.

Lemma change_from_nonzero (c p : Q) :
  ~ p == 0 -> metrics.change c p = ((c - p) / p) * 100.
Proof.
  intros Hp. unfold metrics.change.
  destruct (Qeq_bool p 0) eqn:E; [|reflexivity].
  apply Qeq_bool_iff in E. contradiction.
Qed.

(** What the loop leaves under each key: the change when both objects hold
    a number there, nothing otherwise. *)
Lemma calculatePercentageChange_lookup (current previous : gmap string JS.value)
    (key : string) :
  metrics.calculatePercentageChange current previous !! key =
  match current !! key, previous !! key with
  | Some (JS.Num c), Some (JS.Num p) => Some (metrics.change c p)
  | _, _ => None
  end.
Proof.
  unfold metrics.calculatePercentageChange. revert key.
  apply (map_fold_weak_ind
           (fun (changes : gmap string Q) (m : gmap string JS.value) =>
              forall key,
                changes !! key =
                match m !! key, previous !! key with
                | Some (JS.Num c), Some (JS.Num p) => Some (metrics.change c p)
                | _, _ => None
                end)).
  - intros key. rewrite !lookup_empty. reflexivity.
  - intros i x m r Hfresh IH key. unfold metrics.change_step.
    destruct (decide (key = i)) as [->|Hne].
    + rewrite lookup_insert_eq.
      specialize (IH i). rewrite Hfresh in IH.
      destruct x as [|c|s]; try exact IH.
      destruct (previous !! i) as [[|p|s]|]; try exact IH.
      apply lookup_insert_eq.
    + rewrite (lookup_insert_ne m) by congruence.
      specialize (IH key).
      destruct x as [|c|s]; try exact IH.
      destruct (previous !! i) as [[|p|s]|]; try exact IH.
      rewrite lookup_insert_ne by congruence. exact IH.
Qed.

(** C7. For every numeric field present in both the current and the
    previous statistics, the comparison reports
    (current - previous) / previous * 100; when previous is 0 it reports
    100 if current > 0 and 0 otherwise. *)
Theorem C7_percentage_change (current previous : gmap string JS.value)
    (key : string) (c p : Q) :
  current !! key = Some (JS.Num c) ->
  previous !! key = Some (JS.Num p) ->
  exists v,
    metrics.calculatePercentageChange current previous !! key = Some v
    /\ (~ p == 0 -> v = ((c - p) / p) * 100)
    /\ (p == 0 -> 0 < c -> v = 100)
    /\ (p == 0 -> c <= 0 -> v = 0).
Proof.
  intros Hc Hp. exists (metrics.change c p).
  rewrite calculatePercentageChange_lookup, Hc, Hp.
  split; [reflexivity|].
  split; [apply change_from_nonzero|].
  split; [apply change_from_zero_up | apply change_from_zero_flat].
Qed.

(** The theorem at [previous = 50], [current = 25]. *)
Lemma C7_percentage_change_witness :
  exists v,
    metrics.calculatePercentageChange
      {[ "totalRequests" := JS.Num 25 ]} {[ "totalRequests" := JS.Num 50 ]}
      !! "totalRequests" = Some v
    /\ (~ 50 == 0 -> v = ((25 - 50) / 50) * 100)
    /\ (50 == 0 -> 0 < 25 -> v = 100)
    /\ (50 == 0 -> 25 <= 0 -> v = 0).
Proof.
  apply (C7_percentage_change
           {[ "totalRequests" := JS.Num 25 ]} {[ "totalRequests" := JS.Num 50 ]}
           "totalRequests" 25 50); reflexivity.
Defined.

(** The three comparisons the specification works out. *)
Lemma comparison_examples :
  metrics.change 5 0 = 100
  /\ metrics.change 0 0 = 0
  /\ metrics.change 25 50 == -50.
Proof. repeat split. Qed.

(** A field that is not a number on both sides is left out of the
    comparison, as [avgDuration] is when one window has no duration. *)
Lemma comparison_skips_null (current previous : gmap string JS.value)
    (key : string) :
  previous !! key = Some JS.Null ->
  metrics.calculatePercentageChange current previous !! key = None.
Proof.
  intros Hp. rewrite calculatePercentageChange_lookup, Hp.
  destruct (current !! key) as [[| |]|]; reflexivity.
Qed.

End PercentageChange.

(** ** Statistics over an empty matching set *)

(** [$group] with [_id: null] emits no document for an empty input, so the
    statics fall back to their literal. *)
Lemma getStats_empty (filters : AIRequest.Filters.t) (c : list AIRequest.doc) :
  Collection.find (AIRequest.satisfies (AIRequest.matchStage filters)) c = [] ->
  AIRequest.getStats filters c = AIRequest.stats_zero.
Proof. unfold AIRequest.getStats. intros ->. reflexivity. Qed.

Lemma getSalesStats_empty (filters : SalesAnalytics.Filters.t)
    (c : list SalesAnalytics.doc) :
  Collection.find
    (SalesAnalytics.satisfies (SalesAnalytics.salesStats_matchStage filters)) c
  = [] ->
  SalesAnalytics.getSalesStats filters c = SalesAnalytics.salesStats_zero.
Proof. unfold SalesAnalytics.getSalesStats. intros ->. reflexivity. Qed.

Lemma getEngagementStats_empty (filters : UserEngagement.Filters.t)
    (c : list UserEngagement.doc) :
  Collection.find
    (UserEngagement.satisfies (UserEngagement.matchStage filters)) c = [] ->
  UserEngagement.getEngagementStats filters c = UserEngagement.stats_zero.
Proof. unfold UserEngagement.getEngagementStats. intros ->. reflexivity. Qed.

Lemma getPerformanceStats_empty (percentile : Q -> list Q -> JS.value)
    (filters : PerformanceMetrics.Filters.t) (c : list PerformanceMetrics.doc) :
  Collection.find
    (PerformanceMetrics.satisfies (PerformanceMetrics.matchStage filters)) c
  = [] ->
  PerformanceMetrics.getPerformanceStats percentile filters c
  = PerformanceMetrics.stats_zero.
Proof. unfold PerformanceMetrics.getPerformanceStats. intros ->. reflexivity. Qed.

(** Every field of the fallback objects is the number 0. *)
Lemma ai_stats_zero_fields (k : string) (v : JS.value) :
  AIRequest.stats_zero !! k = Some v -> v = JS.Num 0.
Proof.
  unfold AIRequest.stats_zero. unfold_object. intros H.
  lookup_cases H; reflexivity.
Qed.

Lemma sales_stats_zero_fields (k : string) (v : JS.value) :
  SalesAnalytics.salesStats_zero !! k = Some v -> v = JS.Num 0.
Proof.
  unfold SalesAnalytics.salesStats_zero. unfold_object. intros H.
  lookup_cases H; reflexivity.
Qed.

Lemma engagement_stats_zero_fields (k : string) (v : JS.value) :
  UserEngagement.stats_zero !! k = Some v -> v = JS.Num 0.
Proof.
  unfold UserEngagement.stats_zero. unfold_object. intros H.
  lookup_cases H; reflexivity.
Qed.

Lemma performance_stats_zero_fields (k : string) (v : JS.value) :
  PerformanceMetrics.stats_zero !! k = Some v -> v = JS.Num 0.
Proof.
  unfold PerformanceMetrics.stats_zero. unfold_object. intros H.
  lookup_cases H; reflexivity.
Qed.

(** Every field a populated result carries, the group key apart, is present
    in the fallback object. *)
Lemma ai_stats_zero_complete (ds : list AIRequest.doc) (k : string) :
  k <> "_id" -> is_Some (AIRequest.stats_group ds !! k) ->
  AIRequest.stats_zero !! k = Some (JS.Num 0).
Proof.
  unfold AIRequest.stats_group. unfold_object. intros Hk [v H].
  lookup_cases H; try reflexivity; congruence.
Qed.

Lemma sales_stats_zero_complete (ds : list SalesAnalytics.doc) (k : string) :
  k <> "_id" -> is_Some (SalesAnalytics.salesStats_group ds !! k) ->
  SalesAnalytics.salesStats_zero !! k = Some (JS.Num 0).
Proof.
  unfold SalesAnalytics.salesStats_group. unfold_object. intros Hk [v H].
  lookup_cases H; try reflexivity; congruence.
Qed.

Lemma engagement_stats_zero_complete (ds : list UserEngagement.doc)
    (k : string) :
  k <> "_id" -> is_Some (UserEngagement.stats_group ds !! k) ->
  UserEngagement.stats_zero !! k = Some (JS.Num 0).
Proof.
  unfold UserEngagement.stats_group. unfold_object. intros Hk [v H].
  lookup_cases H; try reflexivity; congruence.
Qed.

Lemma performance_stats_zero_complete (percentile : Q -> list Q -> JS.value)
    (ds : list PerformanceMetrics.doc) (k : string) :
  k <> "_id" ->
  is_Some (PerformanceMetrics.stats_group percentile ds !! k) ->
  PerformanceMetrics.stats_zero !! k = Some (JS.Num 0).
Proof.
  unfold PerformanceMetrics.stats_group. unfold_object. intros Hk [v H].
  lookup_cases H; try reflexivity; congruence.
Qed.

(** The guarded ratios of the dashboard are 0 on the fallback objects. *)
Lemma rate_zero_denominator (o : gmap string JS.value) (num den : string) :
  o !! den = Some (JS.Num 0) -> metrics.rate o num den = 0%Q.
Proof.
  intros H. unfold metrics.rate, metrics.number_or_zero. rewrite H.
  reflexivity.
Qed.

(** C8. A statistics query whose filters match no record returns the
    fallback object of its static: every field of it is the number 0, every
    field a populated result would carry is present in it, and the guarded
    ratio the dashboard derives from it is 0. This holds for the
    statistics of AI requests, of sales, of engagement events (which have
    no ratio) and of performance samples. *)
Theorem C8_empty_stats_are_zero (percentile : Q -> list Q -> JS.value) :
  (forall (filters : AIRequest.Filters.t) (c : list AIRequest.doc),
     Collection.find (AIRequest.satisfies (AIRequest.matchStage filters)) c
     = [] ->
     (forall k v, AIRequest.getStats filters c !! k = Some v -> v = JS.Num 0)
     /\ (forall ds k, k <> "_id" ->
           is_Some (AIRequest.stats_group ds !! k) ->
           AIRequest.getStats filters c !! k = Some (JS.Num 0))
     /\ metrics.rate (AIRequest.getStats filters c)
          "successCount" "totalRequests" = 0%Q)
  /\ (forall (filters : SalesAnalytics.Filters.t) (c : list SalesAnalytics.doc),
        Collection.find
          (SalesAnalytics.satisfies
             (SalesAnalytics.salesStats_matchStage filters)) c = [] ->
        (forall k v,
           SalesAnalytics.getSalesStats filters c !! k = Some v -> v = JS.Num 0)
        /\ (forall ds k, k <> "_id" ->
              is_Some (SalesAnalytics.salesStats_group ds !! k) ->
              SalesAnalytics.getSalesStats filters c !! k = Some (JS.Num 0))
        /\ metrics.rate (SalesAnalytics.getSalesStats filters c)
             "successfulTransactions" "totalTransactions" = 0%Q)
  /\ (forall (filters : UserEngagement.Filters.t)
             (c : list UserEngagement.doc),
        Collection.find
          (UserEngagement.satisfies (UserEngagement.matchStage filters)) c
        = [] ->
        (forall k v,
           UserEngagement.getEngagementStats filters c !! k = Some v ->
           v = JS.Num 0)
        /\ (forall ds k, k <> "_id" ->
              is_Some (UserEngagement.stats_group ds !! k) ->
              UserEngagement.getEngagementStats filters c !! k
              = Some (JS.Num 0)))
  /\ (forall (filters : PerformanceMetrics.Filters.t)
             (c : list PerformanceMetrics.doc),
        Collection.find
          (PerformanceMetrics.satisfies
             (PerformanceMetrics.matchStage filters)) c = [] ->
        (forall k v,
           PerformanceMetrics.getPerformanceStats percentile filters c !! k
           = Some v -> v = JS.Num 0)
        /\ (forall ds k, k <> "_id" ->
              is_Some (PerformanceMetrics.stats_group percentile ds !! k) ->
              PerformanceMetrics.getPerformanceStats percentile filters c !! k
              = Some (JS.Num 0))
        /\ metrics.rate
             (PerformanceMetrics.getPerformanceStats percentile filters c)
             "errorCount" "totalRequests" = 0%Q).
Proof.
  split; [|split; [|split]].
  - intros filters c Hempty. rewrite (getStats_empty _ _ Hempty).
    split; [apply ai_stats_zero_fields|].
    split; [apply ai_stats_zero_complete|].
    apply rate_zero_denominator. reflexivity.
  - intros filters c Hempty. rewrite (getSalesStats_empty _ _ Hempty).
    split; [apply sales_stats_zero_fields|].
    split; [apply sales_stats_zero_complete|].
    apply rate_zero_denominator. reflexivity.
  - intros filters c Hempty. rewrite (getEngagementStats_empty _ _ Hempty).
    split; [apply engagement_stats_zero_fields|].
    apply engagement_stats_zero_complete.
  - intros filters c Hempty.
    rewrite (getPerformanceStats_empty _ _ _ Hempty).
    split; [apply performance_stats_zero_fields|].
    split; [apply performance_stats_zero_complete|].
    apply rate_zero_denominator. reflexivity.
Qed.

(** The theorem for a user who has no record in collections that hold
    records of others, and for an empty collection of samples in a store
    whose percentile accumulator answers [null]. *)
Lemma C8_empty_stats_are_zero_witness :
  AIRequest.getStats (Sample.stats_query "carol")
    (aiRequests (Sample.tracked Sample.alice "r1" 1000 Sample.fresh))
  !! "avgDuration" = Some (JS.Num 0)
  /\ SalesAnalytics.getSalesStats (Sample.sales_query (Some "carol"))
       (salesAnalytics
          (Sample.sold Sample.bob "t2" "completed" 50 1500 Sample.fresh))
     !! "totalRevenue" = Some (JS.Num 0)
  /\ PerformanceMetrics.getPerformanceStats (fun _ _ => JS.Null)
       PerformanceMetrics.Filters.empty [] !! "p95ResponseTime"
     = Some (JS.Num 0).
Proof.
  destruct (C8_empty_stats_are_zero (fun _ _ => JS.Null))
    as (Hai & Hsales & _ & Hperf).
  split; [|split].
  - assert (Hnone :
              Collection.find
                (AIRequest.satisfies
                   (AIRequest.matchStage (Sample.stats_query "carol")))
                (aiRequests (Sample.tracked Sample.alice "r1" 1000 Sample.fresh))
              = []) by (vm_compute; reflexivity).
    destruct (Hai _ _ Hnone) as (_ & Hpresent & _).
    apply (Hpresent []); [discriminate | eexists; reflexivity].
  - assert (Hnone :
              Collection.find
                (SalesAnalytics.satisfies
                   (SalesAnalytics.salesStats_matchStage
                      (Sample.sales_query (Some "carol"))))
                (salesAnalytics
                   (Sample.sold Sample.bob "t2" "completed" 50 1500
                      Sample.fresh))
              = []) by (vm_compute; reflexivity).
    destruct (Hsales _ _ Hnone) as (_ & Hpresent & _).
    apply (Hpresent []); [discriminate | eexists; reflexivity].
  - destruct (Hperf PerformanceMetrics.Filters.empty [] eq_refl)
      as (_ & Hpresent & _).
    apply (Hpresent []); [discriminate | eexists; reflexivity].
Defined.

(** ** Reading and writing a collection *)

Section FindOne.
Context {A : Type}.
Implicit Types (p : A -> bool) (c : list A).

Lemma findOne_from_Some p c i j d :
  Collection.findOne_from i p c = Some (j, d) ->
  exists k, j = (i + k)%nat /\ c !! k = Some d /\ p d = true
            /\ forall k' d', (k' < k)%nat -> c !! k' = Some d' -> p d' = false.
Proof.
  revert i. induction c as [|x c IH]; intros i H; simpl in H; [discriminate|].
  destruct (p x) eqn:Hx.
  - injection H as <- <-. exists 0%nat. repeat split; [lia|done|intros; lia].
  - destruct (IH _ H) as (k & -> & Hk & Hd & Hmin).
    exists (S k). repeat split; [lia|done|done|].
    intros [|k'] d' Hlt Hl; simpl in Hl; [congruence|].
    apply (Hmin k'); [lia|done].
Qed.

Lemma findOne_Some p c j d :
  Collection.findOne p c = Some (j, d) ->
  c !! j = Some d /\ p d = true
  /\ forall k' d', (k' < j)%nat -> c !! k' = Some d' -> p d' = false.
Proof.
  intros H. destruct (findOne_from_Some _ _ _ _ _ H) as (k & -> & ?).
  assumption.
Qed.

Lemma findOne_from_None p c i :
  Collection.findOne_from i p c = None <-> forall d, d ∈ c -> p d = false.
Proof.
  revert i. induction c as [|x c IH]; intros i; simpl.
  - split; [intros _ d Hd; inversion Hd | done].
  - destruct (p x) eqn:Hx.
    + split; [discriminate|]. intros H. rewrite (H x) in Hx; [discriminate|left].
    + rewrite IH. split.
      * intros H d Hd. inversion Hd; subst; auto.
      * intros H d Hd. apply H. by right.
Qed.

Lemma findOne_None p c :
  Collection.findOne p c = None <-> forall d, d ∈ c -> p d = false.
Proof. apply findOne_from_None. Qed.

Lemma findOne_from_intro p c i k d :
  c !! k = Some d -> p d = true ->
  (forall k' d', (k' < k)%nat -> c !! k' = Some d' -> p d' = false) ->
  Collection.findOne_from i p c = Some ((i + k)%nat, d).
Proof.
  revert i k. induction c as [|x c IH]; intros i k Hk Hd Hmin; [done|].
  simpl. destruct k as [|k]; simpl in Hk.
  - injection Hk as ->. rewrite Hd. f_equal. f_equal. lia.
  - rewrite (Hmin 0%nat x) by (done || lia).
    rewrite (IH (S i) k); [f_equal; f_equal; lia|done|done|].
    intros k' d' Hlt Hl. apply (Hmin (S k')); [lia|done].
Qed.

Lemma findOne_intro p c k d :
  c !! k = Some d -> p d = true ->
  (forall k' d', (k' < k)%nat -> c !! k' = Some d' -> p d' = false) ->
  Collection.findOne p c = Some (k, d).
Proof. intros. by apply (findOne_from_intro p c 0%nat k d). Qed.

Lemma findOne_is_Some p c d :
  d ∈ c -> p d = true -> is_Some (Collection.findOne p c).
Proof.
  intros Hin Hp. destruct (Collection.findOne p c) eqn:E; [eauto|].
  rewrite (proj1 (findOne_None p c) E d Hin) in Hp. discriminate.
Qed.

End FindOne.

(** ** Ingestion and update *)

(** What POST /track did, read off its reply. *)
Lemma post_track_spec (ctx : Ctx) (body : aiTracking.TrackBody.t) (s : State) :
  match aiTracking.post_track ctx body s with
  | (Created key, s') =>
      aiTracking.track_valid body = true
      /\ aiTracking.TrackBody.requestId body = Some key
      /\ readFails ctx = false /\ writeFails ctx = false
      /\ Collection.findOne (aiTracking.by_requestId key) (aiRequests s) = None
      /\ exists d,
           aiRequests s' = aiRequests s ++ [d]
           /\ AIRequest.requestId d = key
           /\ AIRequest.userId d = User.id (user ctx)
           /\ AIRequest.status d = "pending"
           /\ salesAnalytics s' = salesAnalytics s
           /\ registry s' =
              Prometheus.updateAIMetrics.incrementRequest (AIRequest.model d)
                "pending" (AIRequest.Metadata.feature (AIRequest.metadata d))
                (AIRequest.userPlan d) (registry s)
  | (ValidationError, s') => s' = s /\ aiTracking.track_valid body = false
  | (Conflict, s') =>
      s' = s /\ aiTracking.track_valid body = true /\ readFails ctx = false
      /\ exists key,
           aiTracking.TrackBody.requestId body = Some key
           /\ is_Some (Collection.findOne (aiTracking.by_requestId key)
                         (aiRequests s))
  | (InternalServerError, s') =>
      s' = s /\ aiTracking.track_valid body = true
      /\ (readFails ctx = true
          \/ exists key,
               aiTracking.TrackBody.requestId body = Some key
               /\ Collection.findOne (aiTracking.by_requestId key)
                    (aiRequests s) = None)
  | _ => False
  end.
Proof.
  unfold aiTracking.post_track, aiTracking.post_track_interleaved.
  destruct (aiTracking.track_valid body) eqn:Hvalid; simpl; [|done].
  destruct (aiTracking.TrackBody.requestId body) as [key|] eqn:Hkey;
    [|by (unfold aiTracking.track_valid in Hvalid; rewrite Hkey in Hvalid)].
  destruct (aiTracking.TrackBody.model body) as [model|] eqn:Hmodel;
    [|by (unfold aiTracking.track_valid in Hvalid; rewrite Hmodel in Hvalid;
          rewrite andb_false_r in Hvalid)].
  destruct (aiTracking.TrackBody.prompt body) as [prompt|] eqn:Hprompt;
    [|by (unfold aiTracking.track_valid in Hvalid; rewrite Hprompt in Hvalid;
          rewrite !andb_false_r in Hvalid)].
  destruct (readFails ctx) eqn:Hread; [by auto|].
  destruct (Collection.findOne _ (aiRequests s)) as [[i d]|] eqn:Hfind.
  { repeat split; try done. exists key. rewrite Hfind. eauto. }
  unfold AIRequest.save_new.
  destruct (writeFails ctx) eqn:Hwrite; [by eauto 6|].
  destruct (negb (AIRequest.schema_valid _)); [by eauto 6|].
  destruct (existsb _ (aiRequests s)); [by eauto 6|].
  repeat split; try done. eexists. repeat split.
Qed.

(** A counter read after an increment. *)
Lemma read_inc_one (l : Prometheus.labels) (c : Prometheus.counter) :
  Prometheus.read l (Prometheus.inc_one l c) = (Prometheus.read l c + 1)%Q.
Proof.
  unfold Prometheus.read, Prometheus.inc_one. by rewrite lookup_insert_eq.
Qed.

Lemma read_inc_one_other (l l' : Prometheus.labels) (c : Prometheus.counter) :
  l <> l' -> Prometheus.read l' (Prometheus.inc_one l c) = Prometheus.read l' c.
Proof.
  intros Hne. unfold Prometheus.read, Prometheus.inc_one.
  by rewrite lookup_insert_ne.
Qed.

(** An increment by a value returns exactly when the value is not
    negative, and then the counter of the label set stands that much
    higher and the others as they were. *)
Lemma inc_returns (l : Prometheus.labels) (v : Q) (c c' : Prometheus.counter) :
  Prometheus.inc l v c = Some c' ->
  (0 <= v)%Q
  /\ Prometheus.read l c' = (Prometheus.read l c + v)%Q
  /\ forall l', l <> l' -> Prometheus.read l' c' = Prometheus.read l' c.
Proof.
  unfold Prometheus.inc.
  destruct (Qle_bool 0 v) eqn:Hv; [|discriminate].
  intros [= <-]. split; [by apply Qle_bool_iff|].
  unfold Prometheus.read. split.
  - by rewrite lookup_insert_eq.
  - intros l' Hne. by rewrite lookup_insert_ne.
Qed.

Lemma inc_throws (l : Prometheus.labels) (v : Q) (c : Prometheus.counter) :
  Prometheus.inc l v c = None <-> (v < 0)%Q.
Proof.
  unfold Prometheus.inc.
  destruct (Qle_bool 0 v) eqn:Hv.
  - apply Qle_bool_iff in Hv. split; [discriminate|].
    intros Hlt. destruct (Qlt_not_le _ _ Hlt Hv).
  - split; [|reflexivity]. intros _.
    apply Qnot_le_lt. intros Hle. apply Qle_bool_iff in Hle. congruence.
Qed.

(** A create that runs after a create with the same requestId has replied
    fails and leaves the collection and the registry as the first create
    left them: the stored record is the first one, and the
    ai_requests_total counter of its labels stands one above its value
    before the first create. The failure is a 409 whenever the second body
    passes validation and the store answers the lookup. *)
Lemma create_after_create (ctx1 ctx2 : Ctx)
    (body1 body2 : aiTracking.TrackBody.t) (s s1 : State) (key : string) :
  aiTracking.post_track ctx1 body1 s = (Created key, s1) ->
  aiTracking.TrackBody.requestId body2 = Some key ->
  exists d,
    aiRequests s1 = aiRequests s ++ [d]
    /\ AIRequest.requestId d = key
    /\ snd (aiTracking.post_track ctx2 body2 s1) = s1
    /\ is_error (fst (aiTracking.post_track ctx2 body2 s1)) = true
    /\ (aiTracking.track_valid body2 = true -> readFails ctx2 = false ->
        fst (aiTracking.post_track ctx2 body2 s1) = Conflict)
    /\ let labels :=
         [Some (AIRequest.model d); Some "pending";
          Some (AIRequest.Metadata.feature (AIRequest.metadata d));
          Some (AIRequest.userPlan d)] in
       Prometheus.read labels
         (Prometheus.aiRequestCounter
            (registry (snd (aiTracking.post_track ctx2 body2 s1))))
       = (Prometheus.read labels (Prometheus.aiRequestCounter (registry s))
          + 1)%Q.
Proof.
  intros Hfirst Hkey2.
  pose proof (post_track_spec ctx1 body1 s) as H1. rewrite Hfirst in H1.
  destruct H1 as (_ & _ & _ & _ & _ & d & Hstore & Hid & _ & _ & _ & Hreg).
  assert (Hstored : forall key',
             Some key = Some key' ->
             Collection.findOne (aiTracking.by_requestId key') (aiRequests s1)
             = None -> False).
  { intros key' [= <-] Hnone.
    assert (Hin : d ∈ aiRequests s1) by (rewrite Hstore; set_solver).
    pose proof (proj1 (findOne_None _ _) Hnone d Hin) as Hd.
    unfold aiTracking.by_requestId in Hd.
    rewrite Hid, String.eqb_refl in Hd. discriminate. }
  assert (Hsecond :
            snd (aiTracking.post_track ctx2 body2 s1) = s1
            /\ is_error (fst (aiTracking.post_track ctx2 body2 s1)) = true
            /\ (aiTracking.track_valid body2 = true -> readFails ctx2 = false ->
                fst (aiTracking.post_track ctx2 body2 s1) = Conflict)).
  { pose proof (post_track_spec ctx2 body2 s1) as H2.
    destruct (aiTracking.post_track ctx2 body2 s1) as [r2 s2].
    destruct r2; simpl; try contradiction.
    - destruct H2 as (_ & Hk & _ & _ & Hnone & _).
      rewrite Hkey2 in Hk. destruct (Hstored _ Hk Hnone).
    - destruct H2 as [-> Hinvalid]. repeat split. congruence.
    - destruct H2 as [-> _]. repeat split.
    - destruct H2 as (-> & _ & [Hread | (key' & Hk & Hnone)]).
      + repeat split. congruence.
      + rewrite Hkey2 in Hk. destruct (Hstored _ Hk Hnone). }
  destruct Hsecond as (Hstate & Herr & Hconflict).
  exists d. repeat split; try assumption.
  simpl. rewrite Hstate, Hreg. simpl. apply read_inc_one.
Qed.

(** A create whose lookup found nothing and whose save meets a stored
    record of its requestId: the unique index refuses the insert, the
    handler's [catch] replies 500 and nothing changes. *)
Lemma create_refused_by_index (ctx : Ctx) (body : aiTracking.TrackBody.t)
    (seen : list AIRequest.doc) (s : State) (key : string) (d : AIRequest.doc) :
  aiTracking.track_valid body = true ->
  aiTracking.TrackBody.requestId body = Some key ->
  readFails ctx = false ->
  Collection.findOne (aiTracking.by_requestId key) seen = None ->
  d ∈ aiRequests s -> AIRequest.requestId d = key ->
  aiTracking.post_track_interleaved ctx body seen s = (InternalServerError, s).
Proof.
  intros Hvalid Hkey Hread Hseen Hin Hid.
  unfold aiTracking.post_track_interleaved.
  destruct (aiTracking.TrackBody.model body) as [model|] eqn:Hmodel;
    [|by (unfold aiTracking.track_valid in Hvalid; rewrite Hmodel in Hvalid;
          rewrite andb_false_r in Hvalid)].
  destruct (aiTracking.TrackBody.prompt body) as [prompt|] eqn:Hprompt;
    [|by (unfold aiTracking.track_valid in Hvalid; rewrite Hprompt in Hvalid;
          rewrite !andb_false_r in Hvalid)].
  rewrite Hvalid, Hkey, Hread. simpl.
  rewrite Hseen. unfold AIRequest.save_new.
  destruct (writeFails ctx); [reflexivity|].
  destruct (negb (AIRequest.schema_valid _)); [reflexivity|].
  destruct (existsb _ (aiRequests s)) eqn:Hexists; [reflexivity|].
  exfalso. apply (f_equal negb) in Hexists. simpl in Hexists.
  rewrite <- Is_true_true, negb_True, existb_True, Exists_exists in Hexists.
  apply Hexists. exists d. split; [assumption|].
  simpl. rewrite Hid. by rewrite String.eqb_refl.
Qed.

(** C3. Two creates with the same requestId, the first of which replies
    201. The first record is stored once and the ai_requests_total counter
    of its labels stands one above its value before, and the second create
    changes neither. It replies 409 when it runs after the first has saved.
    When its lookup ran before the first create saved (each handler awaits
    its lookup, then its save), the unique index refuses its save and the
    handler replies 500, where the specification requires that refusal to
    be reported as the same 409. *)
Theorem C3_duplicate_create_race (ctx1 ctx2 : Ctx)
    (body1 body2 : aiTracking.TrackBody.t) (s s1 : State) (key : string) :
  aiTracking.post_track ctx1 body1 s = (Created key, s1) ->
  aiTracking.TrackBody.requestId body2 = Some key ->
  aiTracking.track_valid body2 = true ->
  readFails ctx2 = false ->
  aiTracking.post_track ctx2 body2 s1 = (Conflict, s1)
  /\ aiTracking.post_track_interleaved ctx2 body2 (aiRequests s) s1
     = (InternalServerError, s1)
  /\ exists d,
       aiRequests s1 = aiRequests s ++ [d]
       /\ AIRequest.requestId d = key
       /\ let labels :=
            [Some (AIRequest.model d); Some "pending";
             Some (AIRequest.Metadata.feature (AIRequest.metadata d));
             Some (AIRequest.userPlan d)] in
          Prometheus.read labels (Prometheus.aiRequestCounter (registry s1))
          = (Prometheus.read labels (Prometheus.aiRequestCounter (registry s))
             + 1)%Q.
Proof.
  intros Hfirst Hkey2 Hvalid2 Hread2.
  pose proof (post_track_spec ctx1 body1 s) as H1. rewrite Hfirst in H1.
  destruct H1 as (_ & _ & _ & _ & Hnone & d & Hstore & Hid & _ & _ & _ & Hreg).
  destruct (create_after_create ctx1 ctx2 body1 body2 s s1 key Hfirst Hkey2)
    as (d' & _ & _ & Hstate & _ & Hconflict & _).
  split; [|split].
  - rewrite <- Hstate at 2. rewrite <- (Hconflict Hvalid2 Hread2).
    apply surjective_pairing.
  - apply (create_refused_by_index ctx2 body2 (aiRequests s) s1 key d);
      try assumption.
    rewrite Hstore. set_solver.
  - exists d. split; [assumption|]. split; [assumption|].
    simpl. rewrite Hreg. simpl. apply read_inc_one.
Qed.

(** The theorem for the request [r1] that alice and bob both track, bob's
    lookup having run before alice's save. *)
Lemma C3_duplicate_create_race_witness :
  aiTracking.post_track (Sample.call Sample.bob 2000) (Sample.track "r1")
    (Sample.tracked Sample.alice "r1" 1000 Sample.fresh)
  = (Conflict, Sample.tracked Sample.alice "r1" 1000 Sample.fresh)
  /\ aiTracking.post_track_interleaved (Sample.call Sample.bob 2000)
       (Sample.track "r1") (aiRequests Sample.fresh)
       (Sample.tracked Sample.alice "r1" 1000 Sample.fresh)
     = (InternalServerError, Sample.tracked Sample.alice "r1" 1000 Sample.fresh)
  /\ exists d,
       aiRequests (Sample.tracked Sample.alice "r1" 1000 Sample.fresh)
       = aiRequests Sample.fresh ++ [d]
       /\ AIRequest.requestId d = "r1"
       /\ let labels :=
            [Some (AIRequest.model d); Some "pending";
             Some (AIRequest.Metadata.feature (AIRequest.metadata d));
             Some (AIRequest.userPlan d)] in
          Prometheus.read labels
            (Prometheus.aiRequestCounter
               (registry (Sample.tracked Sample.alice "r1" 1000 Sample.fresh)))
          = (Prometheus.read labels
               (Prometheus.aiRequestCounter (registry Sample.fresh)) + 1)%Q.
Proof.
  apply (C3_duplicate_create_race
           (Sample.call Sample.alice 1000) (Sample.call Sample.bob 2000)
           (Sample.track "r1") (Sample.track "r1")
           Sample.fresh (Sample.tracked Sample.alice "r1" 1000 Sample.fresh)
           "r1").
  - vm_compute. reflexivity.
  - reflexivity.
  - reflexivity.
  - reflexivity.
Defined.

(** The registry calls of an update always count the request, and they
    leave the sales counters alone; those of an update to another status
    than completed do nothing else, and none of them throws. *)
Lemma update_metrics_counts_request (status : string) (d : AIRequest.doc)
    (r : Prometheus.registry) :
  let left := Prometheus.left_by (aiTracking.update_metrics status d r) in
  Prometheus.aiRequestCounter left
  = Prometheus.inc_one
      [Some (AIRequest.model d); Some status;
       Some (AIRequest.Metadata.feature (AIRequest.metadata d));
       Some (AIRequest.userPlan d)] (Prometheus.aiRequestCounter r)
  /\ Prometheus.salesTransactionCounter left
     = Prometheus.salesTransactionCounter r
  /\ Prometheus.salesRevenue left = Prometheus.salesRevenue r
  /\ (status <> "completed" ->
      aiTracking.update_metrics status d r
      = Prometheus.Returned
          (Prometheus.updateAIMetrics.incrementRequest (AIRequest.model d)
             status (AIRequest.Metadata.feature (AIRequest.metadata d))
             (AIRequest.userPlan d) r)).
Proof.
  unfold aiTracking.update_metrics, Prometheus.seq, Prometheus.returns,
    Prometheus.skip, Prometheus.updateAIMetrics.incrementTokens,
    Prometheus.updateAIMetrics.incrementCost.
  destruct (String.eqb_spec status "completed") as [->|Hne].
  - repeat case_match; simplify_option_eq; repeat split; try congruence.
  - repeat split.
Qed.

(** The registry calls of an update throw only when the stored record is
    completed with a negative token count or a negative cost. *)
Lemma update_metrics_throws (status : string) (d : AIRequest.doc)
    (r r' : Prometheus.registry) :
  aiTracking.update_metrics status d r = Prometheus.Threw r' ->
  status = "completed"
  /\ ((exists n, AIRequest.Tokens.input (AIRequest.tokens d) = Some n /\ n < 0)
      \/ (exists n, AIRequest.Tokens.output (AIRequest.tokens d) = Some n
                    /\ n < 0)
      \/ (AIRequest.cost d < 0)%Q).
Proof.
  unfold aiTracking.update_metrics, Prometheus.seq, Prometheus.returns,
    Prometheus.skip, Prometheus.updateAIMetrics.incrementTokens,
    Prometheus.updateAIMetrics.incrementCost.
  destruct (String.eqb_spec status "completed") as [->|Hne]; [|discriminate].
  intros H. split; [reflexivity|].
  repeat case_match; simplify_option_eq;
    repeat match goal with
    | H : Prometheus.inc _ _ _ = None |- _ => apply inc_throws in H
    | H : (inject_Z _ < 0)%Q |- _ =>
        change 0%Q with (inject_Z 0) in H; rewrite <- Zlt_Qlt in H
    end;
    eauto.
Qed.

(** The registry calls of a sale always count the transaction, and they
    leave the AI metrics alone; they throw only on a completed sale of a
    negative amount, and then the revenue counter is as it was. *)
Lemma sales_metrics_counts_transaction (type status plan : string)
    (paymentMethod : option string) (currency : string) (amount : Q)
    (r : Prometheus.registry) :
  let o := analytics.sales_metrics type status plan paymentMethod currency
             amount r in
  Prometheus.salesTransactionCounter (Prometheus.left_by o)
  = Prometheus.inc_one [Some type; Some status; Some plan; paymentMethod]
      (Prometheus.salesTransactionCounter r)
  /\ Prometheus.aiRequestCounter (Prometheus.left_by o)
     = Prometheus.aiRequestCounter r
  /\ Prometheus.aiRequestDuration (Prometheus.left_by o)
     = Prometheus.aiRequestDuration r
  /\ Prometheus.aiRequestTokens (Prometheus.left_by o)
     = Prometheus.aiRequestTokens r
  /\ Prometheus.aiRequestCost (Prometheus.left_by o) = Prometheus.aiRequestCost r
  /\ (status <> "completed" ->
      o = Prometheus.Returned
            (Prometheus.updateSalesMetrics.incrementTransaction type status
               plan paymentMethod r))
  /\ (forall r', o = Prometheus.Threw r' ->
        status = "completed" /\ (amount < 0)%Q
        /\ Prometheus.salesRevenue r' = Prometheus.salesRevenue r)
  /\ (forall r', o = Prometheus.Returned r' -> status = "completed" ->
        (0 <= amount)%Q
        /\ Prometheus.read [Some type; Some plan; Some currency]
             (Prometheus.salesRevenue r')
           = (Prometheus.read [Some type; Some plan; Some currency]
                (Prometheus.salesRevenue r) + amount)%Q).
Proof.
  unfold analytics.sales_metrics, Prometheus.seq, Prometheus.returns,
    Prometheus.updateSalesMetrics.incrementRevenue.
  destruct (String.eqb_spec status "completed") as [->|Hne].
  - simpl. destruct (Prometheus.inc _ amount _) as [c'|] eqn:Hinc; simpl.
    + apply inc_returns in Hinc. destruct Hinc as (Hpos & Hread & _).
      do 5 (split; [reflexivity|]). split; [done|]. split.
      * intros r' [=].
      * intros r' [= <-] _. simpl. done.
    + apply inc_throws in Hinc.
      do 5 (split; [reflexivity|]). split; [done|]. split.
      * intros r' [= <-]. done.
      * intros r' [=].
  - do 5 (split; [reflexivity|]). split; [done|]. split.
    + intros r' [=].
    + intros r' _ Hc. done.
Qed.

(** What PUT /update/:requestId did, read off its reply. A 500 reply comes
    with the state unchanged, or after the save, from a registry call that
    threw. *)
Lemma put_update_spec (ctx : Ctx) (requestId : string)
    (body : aiTracking.UpdateBody.t) (s : State) :
  match aiTracking.put_update ctx requestId body s with
  | (Ok (rid, st), s') =>
      exists status i found,
        aiTracking.UpdateBody.status body = Some status
        /\ aiTracking.update_valid body = true
        /\ readFails ctx = false /\ writeFails ctx = false
        /\ Collection.findOne (aiTracking.own_request ctx requestId)
             (aiRequests s) = Some (i, found)
        /\ rid = AIRequest.requestId found /\ st = status
        /\ aiRequests s' =
           <[ i := AIRequest.pre_save (now ctx)
                     (aiTracking.apply_update (now ctx) status body found) ]>
             (aiRequests s)
        /\ salesAnalytics s' = salesAnalytics s
        /\ aiTracking.update_metrics status
             (AIRequest.pre_save (now ctx)
                (aiTracking.apply_update (now ctx) status body found))
             (registry s)
           = Prometheus.Returned (registry s')
  | (ValidationError, s') => s' = s /\ aiTracking.update_valid body = false
  | (NotFound, s') =>
      s' = s /\ aiTracking.update_valid body = true /\ readFails ctx = false
      /\ Collection.findOne (aiTracking.own_request ctx requestId)
           (aiRequests s) = None
  | (InternalServerError, s') =>
      aiTracking.update_valid body = true
      /\ (s' = s
          \/ exists status i found,
               aiTracking.UpdateBody.status body = Some status
               /\ readFails ctx = false /\ writeFails ctx = false
               /\ Collection.findOne (aiTracking.own_request ctx requestId)
                    (aiRequests s) = Some (i, found)
               /\ aiRequests s' =
                  <[ i := AIRequest.pre_save (now ctx)
                            (aiTracking.apply_update (now ctx) status body
                               found) ]>
                    (aiRequests s)
               /\ salesAnalytics s' = salesAnalytics s
               /\ aiTracking.update_metrics status
                    (AIRequest.pre_save (now ctx)
                       (aiTracking.apply_update (now ctx) status body found))
                    (registry s)
                  = Prometheus.Threw (registry s'))
  | _ => False
  end.
Proof.
  unfold aiTracking.put_update.
  destruct (aiTracking.update_valid body) eqn:Hvalid; simpl; [|done].
  destruct (aiTracking.UpdateBody.status body) as [status|] eqn:Hstatus;
    [|by (unfold aiTracking.update_valid in Hvalid; rewrite Hstatus in Hvalid)].
  destruct (readFails ctx) eqn:Hread; [by auto|].
  destruct (Collection.findOne _ (aiRequests s)) as [[i found]|] eqn:Hfind;
    [|done].
  unfold AIRequest.save_at.
  destruct (writeFails ctx) eqn:Hwrite; [by auto|].
  destruct (negb (AIRequest.schema_valid _)); [by auto|].
  destruct (aiTracking.update_metrics _ _ _) as [r|r] eqn:Hcalls.
  - exists status, i, found. repeat split. exact Hcalls.
  - split; [reflexivity|]. right. exists status, i, found. repeat split.
    exact Hcalls.
Qed.

(** What POST /sales/track did, read off its reply. *)
Lemma post_sales_track_spec (ctx : Ctx) (body : analytics.SalesBody.t)
    (s : State) :
  match analytics.post_sales_track ctx body s with
  | (Created key, s') =>
      analytics.sales_track_valid body = true
      /\ analytics.SalesBody.transactionId body = Some key
      /\ readFails ctx = false /\ writeFails ctx = false
      /\ Collection.findOne (analytics.by_transactionId key) (salesAnalytics s)
         = None
      /\ exists d,
           salesAnalytics s' = salesAnalytics s ++ [d]
           /\ SalesAnalytics.transactionId d = key
           /\ SalesAnalytics.userId d = User.id (user ctx)
           /\ aiRequests s' = aiRequests s
           /\ analytics.sales_metrics (SalesAnalytics.type d)
                (SalesAnalytics.status d) (SalesAnalytics.plan d)
                (SalesAnalytics.paymentMethod d) (SalesAnalytics.currency d)
                (SalesAnalytics.amount d) (registry s)
              = Prometheus.Returned (registry s')
  | (ValidationError, s') => s' = s /\ analytics.sales_track_valid body = false
  | (Conflict, s') =>
      s' = s /\ analytics.sales_track_valid body = true
      /\ readFails ctx = false
      /\ exists key,
           analytics.SalesBody.transactionId body = Some key
           /\ is_Some (Collection.findOne (analytics.by_transactionId key)
                         (salesAnalytics s))
  | (InternalServerError, s') =>
      analytics.sales_track_valid body = true
      /\ (s' = s
          \/ exists key d,
               analytics.SalesBody.transactionId body = Some key
               /\ readFails ctx = false /\ writeFails ctx = false
               /\ Collection.findOne (analytics.by_transactionId key)
                    (salesAnalytics s) = None
               /\ salesAnalytics s' = salesAnalytics s ++ [d]
               /\ SalesAnalytics.transactionId d = key
               /\ SalesAnalytics.userId d = User.id (user ctx)
               /\ aiRequests s' = aiRequests s
               /\ analytics.sales_metrics (SalesAnalytics.type d)
                    (SalesAnalytics.status d) (SalesAnalytics.plan d)
                    (SalesAnalytics.paymentMethod d)
                    (SalesAnalytics.currency d) (SalesAnalytics.amount d)
                    (registry s)
                  = Prometheus.Threw (registry s'))
  | _ => False
  end.
Proof.
  unfold analytics.post_sales_track.
  destruct (analytics.sales_track_valid body) eqn:Hvalid; simpl; [|done].
  unfold analytics.sales_track_valid in Hvalid.
  destruct (analytics.SalesBody.transactionId body) as [key|] eqn:Hkey;
    [|done].
  destruct (analytics.SalesBody.type body) as [type|] eqn:Htype;
    [|by rewrite andb_false_r in Hvalid].
  destruct (analytics.SalesBody.amount body) as [amount|] eqn:Hamount;
    [|by rewrite andb_false_r in Hvalid].
  destruct (analytics.SalesBody.status body) as [status|] eqn:Hstatus;
    [|by rewrite !andb_false_r in Hvalid].
  destruct (readFails ctx) eqn:Hread; [by auto|].
  destruct (Collection.findOne _ (salesAnalytics s)) as [[i d]|] eqn:Hfind.
  { repeat split; try done. exists key. rewrite Hfind. eauto. }
  unfold SalesAnalytics.save_new.
  destruct (writeFails ctx) eqn:Hwrite; [by auto|].
  destruct (negb (SalesAnalytics.schema_valid _)); [by auto|].
  destruct (existsb _ (salesAnalytics s)); [by auto|].
  destruct (analytics.sales_metrics _ _ _ _ _ _ _) as [r|r] eqn:Hcalls.
  - repeat split; try done. eexists. repeat split. exact Hcalls.
  - split; [reflexivity|]. right. exists key. eexists.
    repeat split; [exact Hfind | exact Hcalls].
Qed.

(** The document an update wrote is the one its query finds afterwards. *)
Lemma updated_document_found (ctx : Ctx) (requestId : string)
    (c : list AIRequest.doc) (i : nat) (found saved : AIRequest.doc) :
  Collection.findOne (aiTracking.own_request ctx requestId) c = Some (i, found) ->
  AIRequest.requestId saved = AIRequest.requestId found ->
  AIRequest.userId saved = AIRequest.userId found ->
  <[ i := saved ]> c !! i = Some saved
  /\ Collection.findOne (aiTracking.own_request ctx requestId) (<[ i := saved ]> c)
     = Some (i, saved).
Proof.
  intros Hfind Hrid Huid.
  destruct (findOne_Some _ _ _ _ Hfind) as (Hi & Hown & Hmin).
  assert (Hlt : (i < length c)%nat) by (eapply lookup_lt_Some; eassumption).
  assert (Hsaved : <[ i := saved ]> c !! i = Some saved)
    by (by apply list_lookup_insert_eq).
  split; [assumption|].
  apply findOne_intro; [assumption| |].
  - unfold aiTracking.own_request in *. by rewrite Hrid, Huid.
  - intros k' d' Hk' Hd'. apply (Hmin k'); [assumption|].
    rewrite list_lookup_insert_ne in Hd' by lia. assumption.
Qed.

(** What holds of C9 for POST /track, whose one registry call cannot
    throw: an error reply leaves the collections and the registry as they
    were, and a 201 reply has the record appended and ai_requests_total
    of its labels one higher, with every other figure as it was. *)
Lemma track_registry_follows_write (ctx : Ctx) (body : aiTracking.TrackBody.t)
    (s : State) :
  let r := aiTracking.post_track ctx body s in
  (is_error (fst r) = true -> snd r = s)
  /\ (writeFails ctx = true -> snd r = s)
  /\ (is_error (fst r) = false ->
      writeFails ctx = false
      /\ exists d,
           aiRequests (snd r) = aiRequests s ++ [d]
           /\ let labels :=
                [Some (AIRequest.model d); Some "pending";
                 Some (AIRequest.Metadata.feature (AIRequest.metadata d));
                 Some (AIRequest.userPlan d)] in
              Prometheus.read labels
                (Prometheus.aiRequestCounter (registry (snd r)))
              = (Prometheus.read labels
                   (Prometheus.aiRequestCounter (registry s)) + 1)%Q
              /\ (forall l, labels <> l ->
                    Prometheus.read l
                      (Prometheus.aiRequestCounter (registry (snd r)))
                    = Prometheus.read l
                        (Prometheus.aiRequestCounter (registry s)))
              /\ Prometheus.aiRequestDuration (registry (snd r))
                 = Prometheus.aiRequestDuration (registry s)
              /\ Prometheus.aiRequestTokens (registry (snd r))
                 = Prometheus.aiRequestTokens (registry s)
              /\ Prometheus.aiRequestCost (registry (snd r))
                 = Prometheus.aiRequestCost (registry s)
              /\ Prometheus.salesTransactionCounter (registry (snd r))
                 = Prometheus.salesTransactionCounter (registry s)
              /\ Prometheus.salesRevenue (registry (snd r))
                 = Prometheus.salesRevenue (registry s)).
Proof.
  intros r. subst r.
  pose proof (post_track_spec ctx body s) as H.
  destruct (aiTracking.post_track ctx body s) as [[] s']; simpl;
    try contradiction.
  - destruct H as (_ & _ & _ & Hwrite & _ & d & Hstore & _ & _ & _ & _ & Hreg).
    split; [intros [=]|]. split; [congruence|].
    intros _. split; [assumption|]. exists d. split; [assumption|].
    rewrite Hreg. simpl. split; [apply read_inc_one|].
    split; [intros l Hl; by apply read_inc_one_other|]. by repeat split.
  - destruct H as [-> _]. split; [reflexivity|]. split; [reflexivity|].
    intros [=].
  - destruct H as [-> _]. split; [reflexivity|]. split; [reflexivity|].
    intros [=].
  - destruct H as [-> _]. split; [reflexivity|]. split; [reflexivity|].
    intros [=].
Qed.

(** What holds of C9 for PUT /update/:requestId: a refused write leaves
    everything as it was, so does every reply other than 200 and 500, and
    a 200 reply has the record written and the registry calls run to their
    end. A 500 reply may come after the save: the record is written then,
    as completed and with a negative token count or cost, and the registry
    is left as the calls before the throwing one made it, with the request
    counted. *)
Lemma update_registry_follows_write (ctx : Ctx) (requestId : string)
    (body : aiTracking.UpdateBody.t) (s : State) :
  let r := aiTracking.put_update ctx requestId body s in
  (writeFails ctx = true -> snd r = s)
  /\ (is_error (fst r) = true -> fst r <> InternalServerError -> snd r = s)
  /\ (fst r = InternalServerError ->
      snd r = s
      \/ exists i d,
           aiRequests (snd r) = <[ i := d ]> (aiRequests s)
           /\ aiRequests (snd r) !! i = Some d
           /\ AIRequest.status d = "completed"
           /\ ((exists n, AIRequest.Tokens.input (AIRequest.tokens d) = Some n
                          /\ n < 0)
               \/ (exists n, AIRequest.Tokens.output (AIRequest.tokens d)
                             = Some n /\ n < 0)
               \/ (AIRequest.cost d < 0)%Q)
           /\ aiTracking.update_metrics (AIRequest.status d) d (registry s)
              = Prometheus.Threw (registry (snd r)))
  /\ (is_error (fst r) = false ->
      writeFails ctx = false
      /\ exists i d,
           aiRequests (snd r) = <[ i := d ]> (aiRequests s)
           /\ aiRequests (snd r) !! i = Some d
           /\ aiTracking.update_metrics (AIRequest.status d) d (registry s)
              = Prometheus.Returned (registry (snd r))).
Proof.
  intros r. subst r.
  pose proof (put_update_spec ctx requestId body s) as H.
  destruct (aiTracking.put_update ctx requestId body s)
    as [[[rid st]| | | | | |] s']; simpl; try contradiction.
  - destruct H as (status & i & found & _ & _ & _ & Hwrite & Hfind & _ & _
                   & Hstore & _ & Hreg).
    split; [congruence|]. split; [intros [=]|]. split; [intros [=]|].
    intros _. split; [assumption|].
    exists i, (AIRequest.pre_save (now ctx)
                 (aiTracking.apply_update (now ctx) status body found)).
    split; [assumption|]. split; [|assumption].
    rewrite Hstore.
    apply (updated_document_found ctx requestId _ _ found); auto.
  - destruct H as [-> _]. split; [reflexivity|]. split; [reflexivity|].
    split; intros [=].
  - destruct H as [-> _]. split; [reflexivity|]. split; [reflexivity|].
    split; intros [=].
  - destruct H as (_ & [-> | (status & i & found & _ & _ & Hwrite & Hfind
                                & Hstore & _ & Hreg)]).
    { split; [reflexivity|]. split; [reflexivity|].
      split; [by left|intros [=]]. }
    split; [congruence|]. split; [congruence|]. split; [|intros [=]].
    intros _. right.
    destruct (update_metrics_throws _ _ _ _ Hreg) as [-> Hneg].
    exists i, (AIRequest.pre_save (now ctx)
                 (aiTracking.apply_update (now ctx) "completed" body found)).
    split; [assumption|]. split; [|split; [reflexivity|split; assumption]].
    rewrite Hstore.
    apply (updated_document_found ctx requestId _ _ found); auto.
Qed.

(** What holds of C9 for POST /sales/track: a refused write leaves
    everything as it was, so does every reply other than 201 and 500, and
    a 201 reply has the transaction appended and the registry calls run to
    their end. A 500 reply may come after the save: the transaction is
    appended then, completed and of a negative amount, and the registry
    has it counted in sales_transactions_total. *)
Lemma sale_registry_follows_write (ctx : Ctx) (body : analytics.SalesBody.t)
    (s : State) :
  let r := analytics.post_sales_track ctx body s in
  (writeFails ctx = true -> snd r = s)
  /\ (is_error (fst r) = true -> fst r <> InternalServerError -> snd r = s)
  /\ (fst r = InternalServerError ->
      snd r = s
      \/ exists d,
           salesAnalytics (snd r) = salesAnalytics s ++ [d]
           /\ SalesAnalytics.status d = "completed"
           /\ (SalesAnalytics.amount d < 0)%Q
           /\ Prometheus.salesRevenue (registry (snd r))
              = Prometheus.salesRevenue (registry s)
           /\ Prometheus.salesTransactionCounter (registry (snd r))
              = Prometheus.inc_one
                  [Some (SalesAnalytics.type d); Some "completed";
                   Some (SalesAnalytics.plan d); SalesAnalytics.paymentMethod d]
                  (Prometheus.salesTransactionCounter (registry s)))
  /\ (is_error (fst r) = false ->
      writeFails ctx = false
      /\ exists d,
           salesAnalytics (snd r) = salesAnalytics s ++ [d]
           /\ analytics.sales_metrics (SalesAnalytics.type d)
                (SalesAnalytics.status d) (SalesAnalytics.plan d)
                (SalesAnalytics.paymentMethod d) (SalesAnalytics.currency d)
                (SalesAnalytics.amount d) (registry s)
              = Prometheus.Returned (registry (snd r))).
Proof.
  intros r. subst r.
  pose proof (post_sales_track_spec ctx body s) as H.
  destruct (analytics.post_sales_track ctx body s) as [[] s']; simpl;
    try contradiction.
  - destruct H as (_ & _ & _ & Hwrite & _ & d & Hstore & _ & _ & _ & Hreg).
    split; [congruence|]. split; [intros [=]|]. split; [intros [=]|].
    intros _. split; [assumption|]. exists d. auto.
  - destruct H as [-> _]. split; [reflexivity|]. split; [reflexivity|].
    split; intros [=].
  - destruct H as [-> _]. split; [reflexivity|]. split; [reflexivity|].
    split; intros [=].
  - destruct H as (_ & [-> | (key & d & _ & _ & Hwrite & _ & Hstore & _ & _
                                & _ & Hreg)]).
    { split; [reflexivity|]. split; [reflexivity|].
      split; [by left|intros [=]]. }
    split; [congruence|]. split; [congruence|]. split; [|intros [=]].
    intros _. right. exists d. split; [assumption|].
    pose proof (sales_metrics_counts_transaction (SalesAnalytics.type d)
                  (SalesAnalytics.status d) (SalesAnalytics.plan d)
                  (SalesAnalytics.paymentMethod d) (SalesAnalytics.currency d)
                  (SalesAnalytics.amount d) (registry s)) as Hcalls.
    cbv zeta in Hcalls. rewrite Hreg in Hcalls. simpl in Hcalls.
    destruct Hcalls as (Hcount & _ & _ & _ & _ & _ & Hthrew & _).
    destruct (Hthrew _ eq_refl) as (Hstatus & Hneg & Hrevenue).
    rewrite Hstatus in Hcount. auto.
Qed.

(** C9. The registry calls come after the save, inside the handler's
    [try], and a counter throws on a negative increment; no validator and
    no schema keeps a cost or an amount from being negative. Alice's
    request [r1], tracked at 1000 and completed at 3000 with cost -1: the
    reply is 500, the record is stored as completed with cost -1,
    ai_requests_total of the completed request went from 0 to 1 and the
    duration was observed, while the cost counter is as it was. Bob's
    completed sale [t1] of -50: the reply is 500, the transaction is
    stored, sales_transactions_total went from 0 to 1 and
    sales_revenue_total is as it was. *)
Theorem C9_registry_changed_on_error :
  let s := Sample.tracked Sample.alice "r1" 1000 Sample.fresh in
  let update :=
    aiTracking.put_update (Sample.call Sample.alice 3000) "r1"
      (Sample.complete_at_cost (-1)) s in
  let sale :=
    analytics.post_sales_track (Sample.call Sample.bob 3000)
      (Sample.sale "t1" "completed" (-50)) Sample.fresh in
  (fst update = InternalServerError
   /\ (fun d => (AIRequest.requestId d, AIRequest.status d, AIRequest.cost d))
      <$> aiRequests (snd update)
      = [("r1", "completed", (-1)%Q)]
   /\ Prometheus.read
        [Some "gpt-4"; Some "completed"; Some "other"; Some "free"]
        (Prometheus.aiRequestCounter (registry s)) = 0%Q
   /\ Prometheus.read
        [Some "gpt-4"; Some "completed"; Some "other"; Some "free"]
        (Prometheus.aiRequestCounter (registry (snd update))) = 1%Q
   /\ Prometheus.observed [Some "gpt-4"; Some "other"; Some "free"]
        (Prometheus.aiRequestDuration (registry s)) = []
   /\ length
        (Prometheus.observed [Some "gpt-4"; Some "other"; Some "free"]
           (Prometheus.aiRequestDuration (registry (snd update)))) = 1%nat
   /\ Prometheus.aiRequestCost (registry (snd update))
      = Prometheus.aiRequestCost (registry s))
  /\ (fst sale = InternalServerError
      /\ (fun d => (SalesAnalytics.transactionId d, SalesAnalytics.status d,
                    SalesAnalytics.amount d))
         <$> salesAnalytics (snd sale)
         = [("t1", "completed", (-50)%Q)]
      /\ Prometheus.read
           [Some "subscription"; Some "completed"; Some "basic";
            Some "stripe"]
           (Prometheus.salesTransactionCounter (registry Sample.fresh)) = 0%Q
      /\ Prometheus.read
           [Some "subscription"; Some "completed"; Some "basic";
            Some "stripe"]
           (Prometheus.salesTransactionCounter (registry (snd sale))) = 1%Q
      /\ Prometheus.salesRevenue (registry (snd sale))
         = Prometheus.salesRevenue (registry Sample.fresh)).
Proof. vm_compute. repeat split. Qed.

(** The same two calls with the cost and the amount positive reply 200 and
    201, and the cost and the revenue reach their counters. *)
Example registry_of_accepted_figures :
  let s := Sample.tracked Sample.alice "r1" 1000 Sample.fresh in
  let update :=
    aiTracking.put_update (Sample.call Sample.alice 3000) "r1"
      (Sample.complete_at_cost 2) s in
  let sale :=
    analytics.post_sales_track (Sample.call Sample.bob 3000)
      (Sample.sale "t1" "completed" 50) Sample.fresh in
  fst update = Ok ("r1", "completed")
  /\ Prometheus.read [Some "gpt-4"; Some "free"]
       (Prometheus.aiRequestCost (registry (snd update))) = 2%Q
  /\ fst sale = Created "t1"
  /\ Prometheus.read [Some "subscription"; Some "basic"; Some "USD"]
       (Prometheus.salesRevenue (registry (snd sale))) = 50%Q.
Proof. vm_compute. repeat split. Qed.

(** The pre-save hook recomputes the total from the two counts, whatever
    total the document carried. *)
Lemma pre_save_total (now : Z) (d : AIRequest.doc) :
  AIRequest.Tokens.total (AIRequest.tokens (AIRequest.pre_save now d))
  = Some (JS.or_zero (AIRequest.Tokens.input
                        (AIRequest.tokens (AIRequest.pre_save now d)))
          + JS.or_zero (AIRequest.Tokens.output
                          (AIRequest.tokens (AIRequest.pre_save now d)))).
Proof. reflexivity. Qed.

(** C6. After an update that replies 200 with status completed, the
    record the update's query finds has tokens.total equal to tokens.input
    plus tokens.output (a count that is absent reading as 0, as in the
    hook) and performance.duration equal to performance.endTime minus
    performance.startTime, as integers. *)
Theorem C6_completed_update_exact (ctx : Ctx) (requestId rid : string)
    (body : aiTracking.UpdateBody.t) (s s' : State) :
  aiTracking.put_update ctx requestId body s = (Ok (rid, "completed"), s') ->
  exists i d,
    Collection.findOne (aiTracking.own_request ctx requestId) (aiRequests s')
    = Some (i, d)
    /\ AIRequest.status d = "completed"
    /\ AIRequest.Tokens.total (AIRequest.tokens d)
       = Some (JS.or_zero (AIRequest.Tokens.input (AIRequest.tokens d))
               + JS.or_zero (AIRequest.Tokens.output (AIRequest.tokens d)))
    /\ (forall a b,
          AIRequest.Tokens.input (AIRequest.tokens d) = Some a ->
          AIRequest.Tokens.output (AIRequest.tokens d) = Some b ->
          AIRequest.Tokens.total (AIRequest.tokens d) = Some (a + b))
    /\ exists e,
         AIRequest.Performance.endTime (AIRequest.performance d) = Some e
         /\ AIRequest.Performance.duration (AIRequest.performance d)
            = Some (e - AIRequest.Performance.startTime (AIRequest.performance d)).
Proof.
  intros Hupdate.
  pose proof (put_update_spec ctx requestId body s) as H.
  rewrite Hupdate in H.
  destruct H as (status & i & found & _ & _ & _ & _ & Hfind & _ & <- & Hstore
                 & _ & _).
  set (saved := AIRequest.pre_save (now ctx)
                  (aiTracking.apply_update (now ctx) "completed" body found))
    in *.
  exists i, saved. rewrite Hstore.
  split.
  { apply (updated_document_found ctx requestId _ _ found); auto. }
  split; [reflexivity|].
  split; [apply pre_save_total|].
  split.
  { intros a b Ha Hb. subst saved. rewrite pre_save_total, Ha, Hb.
    reflexivity. }
  exists (now ctx). split; reflexivity.
Qed.

(** The theorem for alice's request [r1], completed two seconds after it
    was tracked, with a body that claims a total of 7 tokens. *)
Lemma C6_completed_update_exact_witness :
  exists i d,
    Collection.findOne
      (aiTracking.own_request (Sample.call Sample.alice 3000) "r1")
      (aiRequests
         (snd (aiTracking.put_update (Sample.call Sample.alice 3000) "r1"
                 Sample.complete
                 (Sample.tracked Sample.alice "r1" 1000 Sample.fresh))))
    = Some (i, d)
    /\ AIRequest.status d = "completed"
    /\ AIRequest.Tokens.total (AIRequest.tokens d)
       = Some (JS.or_zero (AIRequest.Tokens.input (AIRequest.tokens d))
               + JS.or_zero (AIRequest.Tokens.output (AIRequest.tokens d)))
    /\ (forall a b,
          AIRequest.Tokens.input (AIRequest.tokens d) = Some a ->
          AIRequest.Tokens.output (AIRequest.tokens d) = Some b ->
          AIRequest.Tokens.total (AIRequest.tokens d) = Some (a + b))
    /\ exists e,
         AIRequest.Performance.endTime (AIRequest.performance d) = Some e
         /\ AIRequest.Performance.duration (AIRequest.performance d)
            = Some (e - AIRequest.Performance.startTime (AIRequest.performance d)).
Proof.
  apply (C6_completed_update_exact (Sample.call Sample.alice 3000) "r1" "r1"
           Sample.complete
           (Sample.tracked Sample.alice "r1" 1000 Sample.fresh)).
  vm_compute. reflexivity.
Defined.

(** The stored figures of that update: 120 + 80 tokens and 2000 ms. *)
Example completed_update_figures :
  (fun d => (AIRequest.Tokens.total (AIRequest.tokens d),
             AIRequest.Performance.duration (AIRequest.performance d)))
  <$> aiRequests
        (snd (aiTracking.put_update (Sample.call Sample.alice 3000) "r1"
                Sample.complete
                (Sample.tracked Sample.alice "r1" 1000 Sample.fresh)))
  = [(Some 200, Some 2000)].
Proof. vm_compute. reflexivity. Qed.

(** C4, as the handler has it. An update that replies 200 with status
    completed or failed sets performance.endTime to the current time and
    performance.duration to that time minus performance.startTime, whether
    or not endTime was set before. *)
Theorem C4_update_end_time (ctx : Ctx) (requestId rid status : string)
    (body : aiTracking.UpdateBody.t) (s s' : State) (i : nat)
    (found : AIRequest.doc) :
  Collection.findOne (aiTracking.own_request ctx requestId) (aiRequests s)
  = Some (i, found) ->
  aiTracking.put_update ctx requestId body s = (Ok (rid, status), s') ->
  status = "completed" \/ status = "failed" ->
  exists d,
    aiRequests s' !! i = Some d
    /\ AIRequest.Performance.endTime (AIRequest.performance d) = Some (now ctx)
    /\ AIRequest.Performance.duration (AIRequest.performance d)
       = Some (now ctx
               - AIRequest.Performance.startTime (AIRequest.performance found))
    /\ AIRequest.Performance.startTime (AIRequest.performance d)
       = AIRequest.Performance.startTime (AIRequest.performance found).
Proof.
  intros Hfind Hupdate Hstatus.
  pose proof (put_update_spec ctx requestId body s) as H.
  rewrite Hupdate in H.
  destruct H as (status' & i' & found' & _ & _ & _ & _ & Hfind' & _ & <- & Hstore
                 & _ & _).
  rewrite Hfind in Hfind'. injection Hfind' as <- <-.
  eexists. rewrite Hstore. split.
  { apply (updated_document_found ctx requestId _ _ found); auto. }
  destruct Hstatus as [-> | ->]; repeat split.
Qed.

(** The theorem for alice's request [r1], completed at time 3000. *)
Lemma C4_update_end_time_witness :
  exists d,
    aiRequests (Sample.updated Sample.alice "r1" "completed" 3000
                  (Sample.tracked Sample.alice "r1" 1000 Sample.fresh))
    !! 0%nat = Some d
    /\ AIRequest.Performance.endTime (AIRequest.performance d) = Some 3000
    /\ AIRequest.Performance.duration (AIRequest.performance d)
       = Some (3000
               - AIRequest.Performance.startTime
                   (AIRequest.performance
                      (Sample.request Sample.alice "r1" 1000)))
    /\ AIRequest.Performance.startTime (AIRequest.performance d)
       = AIRequest.Performance.startTime
           (AIRequest.performance (Sample.request Sample.alice "r1" 1000)).
Proof.
  apply (C4_update_end_time (Sample.call Sample.alice 3000) "r1" "r1"
           "completed" (Sample.update "completed")
           (Sample.tracked Sample.alice "r1" 1000 Sample.fresh)
           (Sample.updated Sample.alice "r1" "completed" 3000
              (Sample.tracked Sample.alice "r1" 1000 Sample.fresh))
           0%nat (Sample.request Sample.alice "r1" 1000)).
  - vm_compute. reflexivity.
  - vm_compute. reflexivity.
  - left. reflexivity.
Defined.

(** An update that replies 200 with another status leaves the performance
    figures of the record as they were. *)
Lemma update_keeps_performance (ctx : Ctx) (requestId rid status : string)
    (body : aiTracking.UpdateBody.t) (s s' : State) (i : nat)
    (found : AIRequest.doc) :
  Collection.findOne (aiTracking.own_request ctx requestId) (aiRequests s)
  = Some (i, found) ->
  aiTracking.put_update ctx requestId body s = (Ok (rid, status), s') ->
  status <> "completed" -> status <> "failed" ->
  exists d,
    aiRequests s' !! i = Some d
    /\ AIRequest.performance d = AIRequest.performance found.
Proof.
  intros Hfind Hupdate Hc Hf.
  pose proof (put_update_spec ctx requestId body s) as H.
  rewrite Hupdate in H.
  destruct H as (status' & i' & found' & _ & _ & _ & _ & Hfind' & _ & <- & Hstore
                 & _ & _).
  rewrite Hfind in Hfind'. injection Hfind' as <- <-.
  eexists. rewrite Hstore. split.
  { apply (updated_document_found ctx requestId _ _ found); auto. }
  simpl.
  destruct (String.eqb_spec status "completed"); [contradiction|].
  destruct (String.eqb_spec status "failed"); [contradiction|].
  reflexivity.
Qed.

(** Two updates at which the handler departs from C4 as the
    specification states it. A request tracked at 1000 and cancelled at
    3000, a terminal status reached with endTime unset, is stored with
    endTime still unset. A request completed at 3000 and then marked failed
    at 5000, a terminal status reached with endTime set, has its endTime
    overwritten with 5000 and its duration with 4000. *)
Example update_end_time_departures :
  (AIRequest.Performance.endTime
     (AIRequest.performance (Sample.request Sample.alice "r1" 1000)) = None
   /\ fst (aiTracking.put_update (Sample.call Sample.alice 3000) "r1"
             (Sample.update "cancelled")
             (Sample.tracked Sample.alice "r1" 1000 Sample.fresh))
      = Ok ("r1", "cancelled")
   /\ (AIRequest.Performance.endTime ∘ AIRequest.performance)
      <$> aiRequests (Sample.updated Sample.alice "r1" "cancelled" 3000
                        (Sample.tracked Sample.alice "r1" 1000 Sample.fresh))
      = [None])
  /\ ((AIRequest.Performance.endTime ∘ AIRequest.performance)
      <$> aiRequests (Sample.updated Sample.alice "r1" "completed" 3000
                        (Sample.tracked Sample.alice "r1" 1000 Sample.fresh))
      = [Some 3000]
      /\ fst (aiTracking.put_update (Sample.call Sample.alice 5000) "r1"
                (Sample.update "failed")
                (Sample.updated Sample.alice "r1" "completed" 3000
                   (Sample.tracked Sample.alice "r1" 1000 Sample.fresh)))
         = Ok ("r1", "failed")
      /\ (fun d =>
            (AIRequest.Performance.endTime (AIRequest.performance d),
             AIRequest.Performance.duration (AIRequest.performance d)))
         <$> aiRequests (Sample.updated Sample.alice "r1" "failed" 5000
                           (Sample.updated Sample.alice "r1" "completed" 3000
                              (Sample.tracked Sample.alice "r1" 1000
                                 Sample.fresh)))
         = [(Some 5000, Some 4000)]).
Proof. vm_compute. repeat split. Qed.

(** C4 as the specification states it does not hold, in either half.
    That a terminal status reached with endTime unset sets endTime is
    refuted by alice's request [r1], tracked at 1000 and cancelled at 3000:
    its endTime stays unset. That an endTime already set is left unchanged
    is refuted by the same request completed at 3000 and marked failed at
    5000: its endTime becomes 5000. *)
Lemma C4_counterexample :
  ~ (forall (ctx : Ctx) (requestId rid status : string)
            (body : aiTracking.UpdateBody.t) (s s' : State) (i : nat)
            (found : AIRequest.doc),
       Collection.findOne (aiTracking.own_request ctx requestId) (aiRequests s)
       = Some (i, found) ->
       aiTracking.put_update ctx requestId body s = (Ok (rid, status), s') ->
       status = "completed" \/ status = "failed" \/ status = "cancelled" ->
       AIRequest.Performance.endTime (AIRequest.performance found) = None ->
       exists d,
         aiRequests s' !! i = Some d
         /\ AIRequest.Performance.endTime (AIRequest.performance d)
            = Some (now ctx)
         /\ AIRequest.Performance.duration (AIRequest.performance d)
            = Some (now ctx
                    - AIRequest.Performance.startTime (AIRequest.performance d)))
  /\ ~ (forall (ctx : Ctx) (requestId rid status : string)
               (body : aiTracking.UpdateBody.t) (s s' : State) (i : nat)
               (found : AIRequest.doc) (e : Z),
          Collection.findOne (aiTracking.own_request ctx requestId)
            (aiRequests s) = Some (i, found) ->
          aiTracking.put_update ctx requestId body s = (Ok (rid, status), s') ->
          status = "completed" \/ status = "failed" \/ status = "cancelled" ->
          AIRequest.Performance.endTime (AIRequest.performance found) = Some e ->
          exists d,
            aiRequests s' !! i = Some d
            /\ AIRequest.Performance.endTime (AIRequest.performance d)
               = Some e).
Proof.
  split.
  - intros Hclaim.
    assert (Hfind :
              Collection.findOne
                (aiTracking.own_request (Sample.call Sample.alice 3000) "r1")
                (aiRequests (Sample.tracked Sample.alice "r1" 1000 Sample.fresh))
              = Some (0%nat, Sample.request Sample.alice "r1" 1000))
      by (vm_compute; reflexivity).
    assert (Hupdate :
              aiTracking.put_update (Sample.call Sample.alice 3000) "r1"
                (Sample.update "cancelled")
                (Sample.tracked Sample.alice "r1" 1000 Sample.fresh)
              = (Ok ("r1", "cancelled"),
                 Sample.updated Sample.alice "r1" "cancelled" 3000
                   (Sample.tracked Sample.alice "r1" 1000 Sample.fresh)))
      by (vm_compute; reflexivity).
    destruct (Hclaim _ _ _ _ _ _ _ _ _ Hfind Hupdate
                (or_intror (or_intror eq_refl)) eq_refl)
      as (d & Hd & Hend & _).
    vm_compute in Hd. injection Hd as <-. discriminate Hend.
  - intros Hclaim.
    pose (completed := Sample.updated Sample.alice "r1" "completed" 3000
                         (Sample.tracked Sample.alice "r1" 1000 Sample.fresh)).
    assert (Hfind :
              exists found,
                Collection.findOne
                  (aiTracking.own_request (Sample.call Sample.alice 5000) "r1")
                  (aiRequests completed) = Some (0%nat, found)
                /\ AIRequest.Performance.endTime (AIRequest.performance found)
                   = Some 3000)
      by (vm_compute; eexists; split; reflexivity).
    destruct Hfind as (found & Hfind & Hset).
    assert (Hupdate :
              aiTracking.put_update (Sample.call Sample.alice 5000) "r1"
                (Sample.update "failed") completed
              = (Ok ("r1", "failed"),
                 Sample.updated Sample.alice "r1" "failed" 5000 completed))
      by (vm_compute; reflexivity).
    destruct (Hclaim _ _ _ _ _ _ _ _ _ _ Hfind Hupdate
                (or_intror (or_introl eq_refl)) Hset)
      as (d & Hd & Hend).
    vm_compute in Hd. injection Hd as <-. discriminate Hend.
Qed.

(** ** Pipelines on related collections *)

Section Related.
Context {A B : Type} (R : A -> A -> Prop).

Lemma find_related (p : A -> bool) (l k : list A) :
  (forall x y, R x y -> p x = p y) ->
  Forall2 R l k -> Forall2 R (Collection.find p l) (Collection.find p k).
Proof.
  intros Hp H. unfold Collection.find.
  induction H as [|x y l k Hxy _ IH]; simpl; [constructor|].
  rewrite (Hp x y Hxy). destruct (p y); [constructor|]; assumption.
Qed.

Lemma insert_sorted_related (before : A -> A -> bool) (x y : A) (l k : list A) :
  (forall a b c d, R a b -> R c d -> before a c = before b d) ->
  R x y -> Forall2 R l k ->
  Forall2 R (Collection.insert_sorted before x l)
            (Collection.insert_sorted before y k).
Proof.
  intros Hb Hxy H.
  induction H as [|a b l k Hab Hlk IH]; simpl; [by repeat constructor|].
  rewrite (Hb x y a b Hxy Hab).
  destruct (before y b); repeat constructor; assumption.
Qed.

Lemma sort_related (before : A -> A -> bool) (l k : list A) :
  (forall a b c d, R a b -> R c d -> before a c = before b d) ->
  Forall2 R l k ->
  Forall2 R (Collection.sort before l) (Collection.sort before k).
Proof.
  intros Hb H. unfold Collection.sort.
  induction H as [|x y l k Hxy _ IH]; simpl; [constructor|].
  by apply insert_sorted_related.
Qed.

Lemma map_related (f : A -> B) (l k : list A) :
  (forall x y, R x y -> f x = f y) -> Forall2 R l k -> map f l = map f k.
Proof.
  intros Hf H. induction H as [|x y l k Hxy _ IH]; simpl; [reflexivity|].
  by rewrite (Hf x y Hxy), IH.
Qed.

End Related.

(** Sorting rearranges a list. *)
Lemma insert_sorted_perm {A : Type} (before : A -> A -> bool) (x : A)
    (l : list A) :
  Collection.insert_sorted before x l ≡ₚ x :: l.
Proof.
  induction l as [|y l IH]; simpl; [reflexivity|].
  destruct (before x y); [reflexivity|].
  rewrite IH. apply Permutation_swap.
Qed.

Lemma sort_perm {A : Type} (before : A -> A -> bool) (l : list A) :
  Collection.sort before l ≡ₚ l.
Proof.
  unfold Collection.sort. induction l as [|x l IH]; simpl; [reflexivity|].
  by rewrite insert_sorted_perm, IH.
Qed.

Lemma satisfies_same_but_text (m : AIRequest.MatchStage.t)
    (d1 d2 : AIRequest.doc) :
  AIRequest.same_but_text d1 d2 -> AIRequest.satisfies m d1 = AIRequest.satisfies m d2.
Proof.
  unfold AIRequest.same_but_text. intros H. unfold AIRequest.satisfies.
  pose proof (f_equal AIRequest.l_userId H) as H1.
  pose proof (f_equal AIRequest.l_status H) as H2.
  pose proof (f_equal AIRequest.l_model H) as H3.
  pose proof (f_equal AIRequest.l_userPlan H) as H4.
  pose proof (f_equal AIRequest.l_metadata H) as H5.
  pose proof (f_equal AIRequest.l_createdAt H) as H6.
  simpl in *. by rewrite H1, H2, H3, H4, H5, H6.
Qed.

Lemma by_createdAt_desc_same_but_text (a b c d : AIRequest.doc) :
  AIRequest.same_but_text a b -> AIRequest.same_but_text c d ->
  aiTracking.by_createdAt_desc a c = aiTracking.by_createdAt_desc b d.
Proof.
  unfold AIRequest.same_but_text. intros Hab Hcd.
  unfold aiTracking.by_createdAt_desc.
  pose proof (f_equal AIRequest.l_createdAt Hab) as H1.
  pose proof (f_equal AIRequest.l_createdAt Hcd) as H2.
  simpl in *. by rewrite H1, H2.
Qed.

(** C10. The reply of GET /history is a function of the stored records
    with prompt and response removed: two states whose AI request records
    agree on every other field, position by position, get the same reply
    for every caller and query. The records of the reply are of a type
    that has neither field. *)
Theorem C10_history_hides_prompt_response (ctx : Ctx)
    (query : aiTracking.HistoryQuery.t) (s1 s2 : State) :
  Forall2 AIRequest.same_but_text (aiRequests s1) (aiRequests s2) ->
  aiTracking.get_history ctx query s1 = aiTracking.get_history ctx query s2.
Proof.
  intros Hsame. unfold aiTracking.get_history.
  destruct (negb (aiTracking.history_valid query)); [reflexivity|].
  destruct (readFails ctx); [reflexivity|].
  set (q := aiTracking.history_query ctx query).
  assert (Hfound :
            Forall2 AIRequest.same_but_text
              (Collection.find (AIRequest.satisfies q) (aiRequests s1))
              (Collection.find (AIRequest.satisfies q) (aiRequests s2))).
  { apply find_related; [|assumption].
    intros x y. apply satisfies_same_but_text. }
  assert (Htotal :
            Collection.countDocuments (AIRequest.satisfies q) (aiRequests s1)
            = Collection.countDocuments (AIRequest.satisfies q) (aiRequests s2)).
  { unfold Collection.countDocuments.
    by rewrite (Forall2_length _ _ _ Hfound). }
  rewrite Htotal. do 2 f_equal.
  apply (map_related AIRequest.same_but_text); [auto|].
  unfold Collection.limit, Collection.skip.
  apply Forall2_take, Forall2_drop, sort_related; [|assumption].
  intros a b c d. apply by_createdAt_desc_same_but_text.
Qed.

(** The theorem for two stores that hold alice's request [r1] with two
    different prompts. *)
Lemma C10_history_hides_prompt_response_witness :
  AIRequest.prompt
  <$> aiRequests (Sample.tracked Sample.alice "r1" 1000 Sample.fresh)
  <> AIRequest.prompt
     <$> aiRequests
           (snd (aiTracking.post_track (Sample.call Sample.alice 1000)
                   (Sample.track_prompt "r1" "appraise this sculpture")
                   Sample.fresh))
  /\ aiTracking.get_history (Sample.call Sample.alice 3000) Sample.history_query
    (Sample.tracked Sample.alice "r1" 1000 Sample.fresh)
  = aiTracking.get_history (Sample.call Sample.alice 3000) Sample.history_query
      (snd (aiTracking.post_track (Sample.call Sample.alice 1000)
              (Sample.track_prompt "r1" "appraise this sculpture")
              Sample.fresh)).
Proof.
  split.
  - intros H. vm_compute in H. discriminate H.
  - apply C10_history_hides_prompt_response.
    vm_compute. repeat constructor.
Defined.

(** ** Scope of the read routes *)

(** The user a statistics query is run for: the one the query string names,
    when it names one, and the caller otherwise. *)
Lemma stats_filters_userId (ctx : Ctx) (query : AIRequest.Filters.t) :
  AIRequest.Filters.userId (aiTracking.stats_filters ctx query)
  = match AIRequest.Filters.userId query with
    | Some u => Some u
    | None => Some (User.id (user ctx))
    end.
Proof.
  unfold aiTracking.stats_filters, AIRequest.Filters.spread, JS.later. simpl.
  destruct (AIRequest.Filters.userId query); reflexivity.
Qed.

(** A [userId] parameter with the empty value removes the user filter from
    the match stage; any other value becomes the user filter, as the
    string it is. *)
Lemma stats_matchStage_userId (ctx : Ctx) (query : AIRequest.Filters.t)
    (u : string) :
  AIRequest.Filters.userId query = Some u ->
  AIRequest.MatchStage.userId
    (AIRequest.matchStage (aiTracking.stats_filters ctx query))
  = if String.eqb u "" then None else Some (JS.IdString u).
Proof.
  intros Hu. unfold AIRequest.matchStage.
  cbn [AIRequest.MatchStage.userId].
  rewrite stats_filters_userId, Hu.
  unfold AIRequest.if_truthy, JS.truthy, JS.truthy_str.
  destruct (String.eqb u ""); reflexivity.
Qed.

(** A user id that reaches the match stage of [getStats] matches no
    record: the stage compares the stored ObjectId with a string. *)
Lemma stats_of_a_user_match_nothing (filters : AIRequest.Filters.t)
    (c : list AIRequest.doc) (u : string) :
  AIRequest.Filters.userId filters = Some u -> u <> "" ->
  Collection.find (AIRequest.satisfies (AIRequest.matchStage filters)) c = [].
Proof.
  intros Hu Hne. unfold Collection.find.
  induction c as [|d c IH]; [reflexivity|]. simpl. rewrite IH.
  unfold AIRequest.satisfies, AIRequest.matchStage.
  cbn [AIRequest.MatchStage.userId]. rewrite Hu.
  unfold AIRequest.if_truthy, JS.truthy, JS.truthy_str.
  destruct (String.eqb_spec u ""); [contradiction|]. reflexivity.
Qed.

(** So the statistics GET /stats computes for a caller who sends no
    [userId] parameter, or the id of any user, are those of the empty
    collection, whatever is stored: the only statistics of stored records
    that the route ever returns are the unscoped ones of C1. *)
Lemma stats_with_a_userId_are_zero (ctx : Ctx) (query : AIRequest.Filters.t)
    (s : State) :
  readFails ctx = false ->
  User.id (user ctx) <> "" ->
  AIRequest.Filters.userId query <> Some "" ->
  aiTracking.get_stats ctx query s = Ok AIRequest.stats_zero.
Proof.
  intros Hread Hid Hquery. unfold aiTracking.get_stats. rewrite Hread.
  f_equal. unfold AIRequest.getStats.
  destruct (AIRequest.Filters.userId query) as [u|] eqn:Hu.
  - rewrite (stats_of_a_user_match_nothing _ _ u); [reflexivity| |congruence].
    by rewrite stats_filters_userId, Hu.
  - rewrite (stats_of_a_user_match_nothing _ _ (User.id (user ctx)));
      [reflexivity| |assumption].
    by rewrite stats_filters_userId, Hu.
Qed.

(** The history of a caller holds the caller's own records only, whatever
    the query. *)
Lemma history_own_records (ctx : Ctx) (query : aiTracking.HistoryQuery.t)
    (s : State) (h : aiTracking.History) (r : AIRequest.lean) :
  aiTracking.get_history ctx query s = Ok h ->
  In r (aiTracking.requests h) ->
  AIRequest.l_userId r = User.id (user ctx).
Proof.
  unfold aiTracking.get_history.
  destruct (negb (aiTracking.history_valid query)); [discriminate|].
  destruct (readFails ctx); [discriminate|].
  intros [= <-]. simpl. rewrite in_map_iff.
  intros (d & <- & Hd). simpl.
  apply list_elem_of_In in Hd.
  apply subseteq_take, subseteq_drop in Hd.
  rewrite sort_perm in Hd. apply list_elem_of_In in Hd.
  apply filter_In in Hd. destruct Hd as [_ Hsat].
  unfold AIRequest.satisfies, aiTracking.history_query in Hsat. simpl in Hsat.
  rewrite !andb_true_iff in Hsat.
  destruct Hsat as [[[[[Huser _] _] _] _] _].
  by apply String.eqb_eq.
Qed.

(** C1 does not hold of GET /stats: a [userId] parameter of the query
    string replaces the caller's id in the filters. With the empty value
    ([GET /stats?userId=]) the filter is dropped altogether: alice, who is
    not an admin, gets statistics that count bob's request next to hers. *)
Theorem C1_stats_scope_overridden :
  User.isAdmin Sample.alice = false
  /\ AIRequest.userId <$>
       aiRequests (Sample.tracked Sample.bob "r2" 1500
                     (Sample.tracked Sample.alice "r1" 1000 Sample.fresh))
     = ["alice"; "bob"]
  /\ AIRequest.Filters.userId
       (aiTracking.stats_filters (Sample.call Sample.alice 3000)
          (Sample.stats_query "")) = Some ""
  /\ AIRequest.userId <$>
       Collection.find
         (AIRequest.satisfies
            (AIRequest.matchStage
               (aiTracking.stats_filters (Sample.call Sample.alice 3000)
                  (Sample.stats_query ""))))
         (aiRequests (Sample.tracked Sample.bob "r2" 1500
                        (Sample.tracked Sample.alice "r1" 1000 Sample.fresh)))
     = ["alice"; "bob"]
  /\ exists stats,
       aiTracking.get_stats (Sample.call Sample.alice 3000)
         (Sample.stats_query "")
         (Sample.tracked Sample.bob "r2" 1500
            (Sample.tracked Sample.alice "r1" 1000 Sample.fresh))
       = Ok stats
       /\ stats !! "totalRequests" = Some (JS.Num 2).
Proof.
  vm_compute. repeat split. eexists. split; reflexivity.
Qed.

(** With her own id, with bob's ([GET /stats?userId=bob]) or with no
    [userId] parameter, alice gets the statistics of no record. *)
Example stats_of_a_named_user :
  let s := Sample.tracked Sample.bob "r2" 1500
             (Sample.tracked Sample.alice "r1" 1000 Sample.fresh) in
  aiTracking.get_stats (Sample.call Sample.alice 3000)
    (Sample.stats_query "alice") s = Ok AIRequest.stats_zero
  /\ aiTracking.get_stats (Sample.call Sample.alice 3000)
       (Sample.stats_query "bob") s = Ok AIRequest.stats_zero
  /\ aiTracking.get_stats (Sample.call Sample.alice 3000)
       AIRequest.Filters.empty s = Ok AIRequest.stats_zero
  /\ AIRequest.stats_zero !! "totalRequests" = Some (JS.Num 0).
Proof.
  cbv zeta.
  split; [by apply stats_with_a_userId_are_zero|].
  split; [by apply stats_with_a_userId_are_zero|].
  split; [by apply stats_with_a_userId_are_zero|].
  reflexivity.
Qed.

(** The filters of GET /sales/stats are spread the same way, and its
    revenue by plan is computed without any user filter: with the empty
    [userId] the statistics count the transactions of alice and of bob,
    and with no parameter at all alice, whose statistics are those of no
    record, is shown the revenue of bob's completed transaction. *)
Example sales_stats_of_other_users :
  analytics.sales_stats_filters (Sample.call Sample.alice 3000)
    (Sample.sales_query (Some ""))
  = Sample.sales_query (Some "")
  /\ SalesAnalytics.getSalesStats (Sample.sales_query (Some ""))
       (salesAnalytics
          (Sample.sold Sample.bob "t2" "completed" 50 1500
             (Sample.sold Sample.alice "t1" "completed" 20 1000 Sample.fresh)))
     !! "totalTransactions" = Some (JS.Num 2)
  /\ analytics.sales_stats_filters (Sample.call Sample.alice 3000)
       (Sample.sales_query None)
     = Sample.sales_query (Some "alice")
  /\ SalesAnalytics.getSalesStats (Sample.sales_query (Some "alice"))
       (salesAnalytics
          (Sample.sold Sample.bob "t2" "completed" 50 1500 Sample.fresh))
     !! "totalTransactions" = Some (JS.Num 0)
  /\ SalesAnalytics.totalRevenue
     <$> SalesAnalytics.getRevenueByPlan (Sample.sales_query (Some "alice"))
           (salesAnalytics
              (Sample.sold Sample.bob "t2" "completed" 50 1500 Sample.fresh))
     = [50%Q]
  /\ forall callable,
       analytics.get_sales_stats callable (Sample.call Sample.alice 3000)
         (Sample.sales_query None)
         (Sample.sold Sample.bob "t2" "completed" 50 1500 Sample.fresh)
       = (if callable then
            Ok {| analytics.stats := SalesAnalytics.salesStats_zero;
                  analytics.revenueByPlan :=
                    SalesAnalytics.getRevenueByPlan
                      (Sample.sales_query (Some "alice"))
                      (salesAnalytics
                         (Sample.sold Sample.bob "t2" "completed" 50 1500
                            Sample.fresh));
                  analytics.customerLifetimeValue :=
                    SalesAnalytics.getCustomerLifetimeValue "alice"
                      (salesAnalytics
                         (Sample.sold Sample.bob "t2" "completed" 50 1500
                            Sample.fresh)) |}
          else InternalServerError).
Proof.
  repeat split; try (vm_compute; reflexivity).
  intros []; vm_compute; reflexivity.
Qed.

(** ** Revenue *)

(** A match stage that fixes the status to completed selects from the
    completed transactions only. *)
Lemma find_completed_only (m : SalesAnalytics.MatchStage.t)
    (c : list SalesAnalytics.doc) :
  SalesAnalytics.MatchStage.status m = Some "completed" ->
  Collection.find (SalesAnalytics.satisfies m) c
  = Collection.find (SalesAnalytics.satisfies m)
      (Collection.find
         (fun d => String.eqb (SalesAnalytics.status d) "completed") c).
Proof.
  intros Hm. unfold Collection.find.
  induction c as [|d c IH]; simpl; [reflexivity|].
  destruct (String.eqb (SalesAnalytics.status d) "completed") eqn:Hd; simpl.
  - by rewrite IH.
  - assert (Hno : SalesAnalytics.satisfies m d = false).
    { unfold SalesAnalytics.satisfies. rewrite Hm. simpl. rewrite Hd.
      by rewrite andb_false_r. }
    by rewrite Hno.
Qed.

(** Revenue by plan, the top-revenue ranking and the monthly recurring
    revenue are computed from the completed transactions only: the other
    transactions of the collection can be dropped without changing them. *)
Lemma getRevenueByPlan_completed_only (filters : SalesAnalytics.Filters.t)
    (c : list SalesAnalytics.doc) :
  SalesAnalytics.getRevenueByPlan filters c
  = SalesAnalytics.getRevenueByPlan filters
      (Collection.find
         (fun d => String.eqb (SalesAnalytics.status d) "completed") c).
Proof.
  unfold SalesAnalytics.getRevenueByPlan.
  by rewrite <- find_completed_only.
Qed.

Lemma getTopRevenue_completed_only (limit : Z) (c : list SalesAnalytics.doc) :
  metrics.getTopRevenue limit c
  = metrics.getTopRevenue limit
      (Collection.find
         (fun d => String.eqb (SalesAnalytics.status d) "completed") c).
Proof.
  unfold metrics.getTopRevenue.
  by rewrite <- find_completed_only.
Qed.

Lemma getMRR_completed_only (startOfMonth endOfMonth : Z -> Z) (date : Z)
    (c : list SalesAnalytics.doc) :
  SalesAnalytics.getMRR startOfMonth endOfMonth date c
  = SalesAnalytics.getMRR startOfMonth endOfMonth date
      (Collection.find
         (fun d => String.eqb (SalesAnalytics.status d) "completed") c).
Proof.
  unfold SalesAnalytics.getMRR.
  by rewrite <- find_completed_only.
Qed.

(** C2 does not hold of [getSalesStats]: its totalRevenue sums the amount
    of every matching transaction. On a collection that holds one failed
    transaction of 50, the statistics report a total revenue of 50 with no
    successful transaction, while revenue by plan, the top-revenue ranking
    and the monthly recurring revenue of the same collection are empty.
    The filters are the empty ones, those of GET /admin/sales/stats with
    no parameter. *)
Theorem C2_sales_stats_revenue_counts_failed :
  (fun d => (SalesAnalytics.status d, SalesAnalytics.amount d))
  <$> salesAnalytics (Sample.sold Sample.bob "t2" "failed" 50 1500 Sample.fresh)
  = [("failed", 50%Q)]
  /\ SalesAnalytics.getSalesStats SalesAnalytics.Filters.empty
       (salesAnalytics (Sample.sold Sample.bob "t2" "failed" 50 1500 Sample.fresh))
     !! "totalRevenue" = Some (JS.Num 50)
  /\ SalesAnalytics.getSalesStats SalesAnalytics.Filters.empty
       (salesAnalytics (Sample.sold Sample.bob "t2" "failed" 50 1500 Sample.fresh))
     !! "successfulTransactions" = Some (JS.Num 0)
  /\ SalesAnalytics.getRevenueByPlan SalesAnalytics.Filters.empty
       (salesAnalytics (Sample.sold Sample.bob "t2" "failed" 50 1500 Sample.fresh))
     = []
  /\ metrics.getTopRevenue 10
       (salesAnalytics (Sample.sold Sample.bob "t2" "failed" 50 1500 Sample.fresh))
     = []
  /\ SalesAnalytics.getMRR (fun _ => 0) (fun _ => 2000) 1500
       (salesAnalytics (Sample.sold Sample.bob "t2" "failed" 50 1500 Sample.fresh))
     = (0%Q, 0%Q).
Proof.
  vm_compute. repeat split.
Qed.

(** The total revenue of the sales statistics is the sum of the amounts of
    all the transactions the filters match, whatever their status. *)
Lemma getSalesStats_totalRevenue (filters : SalesAnalytics.Filters.t)
    (c : list SalesAnalytics.doc) :
  Collection.find
    (SalesAnalytics.satisfies (SalesAnalytics.salesStats_matchStage filters)) c
  <> [] ->
  SalesAnalytics.getSalesStats filters c !! "totalRevenue"
  = Some (JS.Num
            (Collection.sum (fun d => Some (SalesAnalytics.amount d))
               (Collection.find
                  (SalesAnalytics.satisfies
                     (SalesAnalytics.salesStats_matchStage filters)) c))).
Proof.
  unfold SalesAnalytics.getSalesStats.
  destruct (Collection.find _ c) as [|d ds]; [contradiction|]. intros _.
  unfold Collection.group_null, SalesAnalytics.salesStats_group.
  unfold_object.
  repeat (rewrite lookup_insert_ne by discriminate).
  apply lookup_insert_eq.
Qed.

(** ** Percentiles *)

(** The percentile fields of the performance statistics are what the
    store's [$percentile] accumulator answers for 95 and 99 over the
    response times of the matching samples; the service does not sort or
    select anything itself. *)
Lemma getPerformanceStats_percentiles (percentile : Q -> list Q -> JS.value)
    (filters : PerformanceMetrics.Filters.t) (c : list PerformanceMetrics.doc) :
  Collection.find
    (PerformanceMetrics.satisfies (PerformanceMetrics.matchStage filters)) c
  <> [] ->
  PerformanceMetrics.getPerformanceStats percentile filters c
  !! "p95ResponseTime"
  = Some (percentile 95%Q
            (map PerformanceMetrics.responseTime
               (Collection.find
                  (PerformanceMetrics.satisfies
                     (PerformanceMetrics.matchStage filters)) c)))
  /\ PerformanceMetrics.getPerformanceStats percentile filters c
     !! "p99ResponseTime"
     = Some (percentile 99%Q
               (map PerformanceMetrics.responseTime
                  (Collection.find
                     (PerformanceMetrics.satisfies
                        (PerformanceMetrics.matchStage filters)) c))).
Proof.
  unfold PerformanceMetrics.getPerformanceStats.
  destruct (Collection.find _ c) as [|d ds]; [contradiction|]. intros _.
  unfold Collection.group_null, PerformanceMetrics.stats_group.
  unfold_object.
  split; repeat (rewrite lookup_insert_ne by discriminate);
    apply lookup_insert_eq.
Qed.

(** * Further properties of the code *)

(** ** User-agent parsing *)

(** A prefix is an initial segment. *)
Lemma prefix_spec (p s : string) :
  String.prefix p s = true <-> exists rest, s = (p ++ rest)%string.
Proof.
  revert s. induction p as [|a p IH]; intros s.
  - split; [intros _; exists s; reflexivity | intros _; by destruct s].
  - destruct s as [|b s].
    + split; [discriminate | intros [rest H]; discriminate H].
    + simpl. destruct (Ascii.ascii_dec a b) as [->|Hne].
      * split.
        -- intros H. apply (proj1 (IH s)) in H. destruct H as [rest ->].
           by exists rest.
        -- intros [rest H]. apply (proj2 (IH s)). exists rest.
           simpl in H. by injection H.
      * split; [discriminate|]. intros [rest H]. simpl in H.
        injection H as Hab _. congruence.
Qed.

Lemma str_includes_cons (pattern : string) (a : Ascii.ascii) (s : string) :
  JS.str_includes pattern (String a s)
  = String.prefix pattern (String a s) || JS.str_includes pattern s.
Proof. reflexivity. Qed.

Lemma str_includes_prefix (pattern s : string) :
  String.prefix pattern s = true -> JS.str_includes pattern s = true.
Proof. intros H. destruct s; cbn [JS.str_includes]; by rewrite H. Qed.

(** A pattern that is included starts at some position. *)
Lemma str_includes_spec (pattern s : string) :
  JS.str_includes pattern s = true <->
  exists before after, s = (before ++ pattern ++ after)%string.
Proof.
  split.
  - induction s as [|a s IH]; cbn [JS.str_includes]; intros H;
      apply orb_true_iff in H; destruct H as [H | H]; try discriminate.
    + apply prefix_spec in H. destruct H as [rest ->].
      by exists ""%string, rest.
    + apply prefix_spec in H. destruct H as [rest ->].
      by exists ""%string, rest.
    + destruct (IH H) as (before & after & ->).
      by exists (String a before), after.
  - intros (before & after & ->).
    induction before as [|a before IH].
    + apply str_includes_prefix, prefix_spec. by exists after.
    + change (JS.str_includes pattern
                (String a (before ++ pattern ++ after)) = true).
      rewrite str_includes_cons, IH. apply orb_true_r.
Qed.

(** Folding the case of ASCII letters forgets a conversion to upper case. *)
Lemma lower_upper_ascii (a : Ascii.ascii) :
  JS.lower_ascii (JS.upper_ascii a) = JS.lower_ascii a.
Proof. destruct a as [[] [] [] [] [] [] [] []]; reflexivity. Qed.

Lemma lower_toUpperCase (s : string) : JS.lower (JS.toUpperCase s) = JS.lower s.
Proof.
  induction s as [|a s IH]; simpl; [reflexivity|].
  by rewrite lower_upper_ascii, IH.
Qed.

(** X1. The device type does not depend on the case of the ASCII letters of the
    header: it is [mobile] exactly when the header, letters folded,
    contains [mobile], and the upper-cased header is classified as the
    header itself. *)
Theorem deviceType_ignores_case (userAgent : string) :
  analytics.deviceType (JS.toUpperCase userAgent)
  = analytics.deviceType userAgent
  /\ (analytics.deviceType userAgent = "mobile" <->
      exists before after,
        JS.lower userAgent = (before ++ "mobile" ++ after)%string)
  /\ (analytics.deviceType userAgent = "tablet" <->
      (exists before after,
         JS.lower userAgent = (before ++ "tablet" ++ after)%string)
      /\ ~ exists before after,
             JS.lower userAgent = (before ++ "mobile" ++ after)%string).
Proof.
  unfold analytics.deviceType, JS.test_ignore_case.
  rewrite lower_toUpperCase.
  split; [reflexivity|].
  change (JS.lower "mobile") with "mobile"%string.
  change (JS.lower "tablet") with "tablet"%string.
  rewrite <- !str_includes_spec.
  destruct (JS.str_includes "mobile" (JS.lower userAgent));
    destruct (JS.str_includes "tablet" (JS.lower userAgent));
    (split; [split; (done || intros [=]) |]);
    split; try (intros [=]); try (intros [? ?]; done); try done.
Qed.

(** X2. The copies of the three parsers in routes/performance.js agree with
    those of routes/analytics.js on every header value, and answer for an
    absent header what the latter answer for the empty string. *)
Theorem userAgent_parsers_agree (userAgent : option string) :
  performance.extractBrowser userAgent
  = analytics.extractBrowser (default "" userAgent)
  /\ performance.extractOS userAgent
     = analytics.extractOS (default "" userAgent)
  /\ performance.extractDeviceType userAgent
     = analytics.deviceType (default "" userAgent).
Proof.
  unfold performance.extractBrowser, performance.extractOS,
    performance.extractDeviceType, performance.no_userAgent.
  destruct userAgent as [ua|]; [|by repeat split].
  unfold JS.truthy, JS.truthy_str. simpl (default _ _).
  destruct (String.eqb_spec ua "") as [->|Hne]; [by repeat split|].
  simpl negb. cbv iota. by repeat split.
Qed.

(** ** Redis reconnection *)

(** X3. Whenever the retry strategy schedules another attempt, the delay is 100
    ms per attempt made and at most one second: the strategy stops
    answering a delay after the tenth attempt, so its cap of 3000 ms is
    never the one that applies. *)
Theorem retry_delay_bound (options : redis.RetryOptions) (delay : Z) :
  redis.retry_strategy options = redis.After delay ->
  delay = redis.attempt options * 100
  /\ delay <= 1000
  /\ redis.attempt options <= 10
  /\ redis.total_retry_time options <= 3600000
  /\ redis.error_code options <> Some "ECONNREFUSED".
Proof.
  unfold redis.retry_strategy.
  case_bool_decide as Hcode; [discriminate|].
  destruct (1000 * 60 * 60 <? redis.total_retry_time options) eqn:Htime;
    [discriminate|].
  destruct (10 <? redis.attempt options) eqn:Hattempt; [discriminate|].
  intros [= <-]. apply Z.ltb_ge in Htime, Hattempt.
  repeat split; try lia; assumption.
Qed.

(** The theorem for the third attempt after a timeout. *)
Lemma retry_delay_bound_witness :
  300 = 3 * 100 /\ 300 <= 1000 /\ 3 <= 10 /\ 5000 <= 3600000
  /\ Some "ETIMEDOUT" <> Some "ECONNREFUSED".
Proof.
  apply (retry_delay_bound
           {| redis.error_code := Some "ETIMEDOUT";
              redis.total_retry_time := 5000;
              redis.attempt := 3 |} 300).
  reflexivity.
Defined.

(** ** Period comparison of a window with itself *)

Lemma change_self (c : Q) : (metrics.change c c == 0)%Q.
Proof.
  unfold metrics.change.
  destruct (Qeq_bool c 0) eqn:Hz.
  - apply Qeq_bool_iff in Hz.
    assert (Hle : Qle_bool c 0 = true)
      by (apply Qle_bool_iff; rewrite Hz; apply Qle_refl).
    rewrite Hle. reflexivity.
  - assert (Hc : ~ (c == 0)%Q)
      by (intros H; apply Qeq_bool_iff in H; congruence).
    field. exact Hc.
Qed.

(** X5. Comparing statistics with themselves reports a change of 0 for every
    numeric field, including those that are 0, and reports nothing for
    the other fields. *)
Theorem comparison_with_itself (o : gmap string JS.value) (key : string) :
  match o !! key with
  | Some (JS.Num c) =>
      exists v,
        metrics.calculatePercentageChange o o !! key = Some v /\ (v == 0)%Q
  | _ => metrics.calculatePercentageChange o o !! key = None
  end.
Proof.
  rewrite calculatePercentageChange_lookup.
  destruct (o !! key) as [[|c|s]|]; try reflexivity.
  eexists. split; [reflexivity | apply change_self].
Qed.

(** ** The ratios of the dashboard *)

Lemma count_nonneg {A : Type} (p : A -> bool) (l : list A) :
  (0 <= Collection.count p l)%Q.
Proof.
  unfold Collection.count. change 0%Q with (inject_Z 0).
  rewrite <- Zle_Qle. lia.
Qed.

Lemma count_le_all {A : Type} (p : A -> bool) (l : list A) :
  (Collection.count p l <= Collection.count (fun _ => true) l)%Q.
Proof.
  unfold Collection.count. rewrite <- Zle_Qle.
  apply Nat2Z.inj_le.
  induction l as [|x l IH]; simpl; [lia|].
  destruct (p x); simpl; lia.
Qed.

(** A part of a whole, as a percentage. *)
Lemma percentage_bounds (part whole : Q) :
  (0 <= part)%Q -> (part <= whole)%Q -> (0 < whole)%Q ->
  (0 <= part / whole * 100 <= 100)%Q.
Proof.
  intros Hpart Hle Hwhole. split.
  - apply Qmult_le_0_compat; [|discriminate].
    apply Qle_shift_div_l; [assumption|]. by rewrite Qmult_0_l.
  - assert (H1 : (part / whole <= 1)%Q).
    { apply Qle_shift_div_r; [assumption|]. by rewrite Qmult_1_l. }
    apply Qle_trans with (1 * 100)%Q; [|discriminate].
    apply Qmult_le_compat_r; [assumption | discriminate].
Qed.

(** The guarded ratio of two counters of one object. *)
Lemma rate_bounds (o : gmap string JS.value) (num den : string) (n d : Q) :
  o !! num = Some (JS.Num n) -> o !! den = Some (JS.Num d) ->
  (0 <= n)%Q -> (n <= d)%Q ->
  (0 <= metrics.rate o num den <= 100)%Q.
Proof.
  intros Hn Hd Hpos Hle. unfold metrics.rate, metrics.number_or_zero.
  rewrite Hn, Hd.
  destruct (Qle_bool d 0) eqn:Hz; simpl.
  - split; discriminate.
  - apply percentage_bounds; try assumption.
    apply Qnot_le_lt. intros H. apply Qle_bool_iff in H. congruence.
Qed.

(** X6. Whatever the filters and the collections, the success rate of the AI
    requests, the success rate of the sales and the error rate of the
    performance samples that the dashboard derives from the statistics lie
    between 0 and 100. *)
Theorem dashboard_rates_are_percentages
    (percentile : Q -> list Q -> JS.value)
    (fa : AIRequest.Filters.t) (ca : list AIRequest.doc)
    (fs : SalesAnalytics.Filters.t) (cs : list SalesAnalytics.doc)
    (fp : PerformanceMetrics.Filters.t) (cp : list PerformanceMetrics.doc) :
  (0 <= metrics.rate (AIRequest.getStats fa ca) "successCount" "totalRequests"
   <= 100)%Q
  /\ (0 <= metrics.rate (SalesAnalytics.getSalesStats fs cs)
            "successfulTransactions" "totalTransactions" <= 100)%Q
  /\ (0 <= metrics.rate
             (PerformanceMetrics.getPerformanceStats percentile fp cp)
             "errorCount" "totalRequests" <= 100)%Q.
Proof.
  split; [|split].
  - unfold AIRequest.getStats.
    destruct (Collection.find _ ca) as [|d ds] eqn:E.
    + simpl. split; discriminate.
    + unfold Collection.group_null.
      eapply rate_bounds;
        [reflexivity | reflexivity | apply count_nonneg | apply count_le_all].
  - unfold SalesAnalytics.getSalesStats.
    destruct (Collection.find _ cs) as [|d ds] eqn:E.
    + simpl. split; discriminate.
    + unfold Collection.group_null.
      eapply rate_bounds;
        [reflexivity | reflexivity | apply count_nonneg | apply count_le_all].
  - unfold PerformanceMetrics.getPerformanceStats.
    destruct (Collection.find _ cp) as [|d ds] eqn:E.
    + simpl. split; discriminate.
    + unfold Collection.group_null.
      eapply rate_bounds.
      * unfold PerformanceMetrics.stats_group. unfold_object.
        repeat (rewrite lookup_insert_ne by discriminate).
        apply lookup_insert_eq.
      * unfold PerformanceMetrics.stats_group. unfold_object.
        repeat (rewrite lookup_insert_ne by discriminate).
        apply lookup_insert_eq.
      * apply count_nonneg.
      * apply count_le_all.
Qed.

(** ** Updates and the records of other users *)

(** Looking a record up among the records a coarser query keeps finds the
    same record. *)
Lemma findOne_from_find {A : Type} (p q : A -> bool) (c : list A) (i j : nat) :
  (forall d, p d = true -> q d = true) ->
  snd <$> Collection.findOne_from i p (Collection.find q c)
  = snd <$> Collection.findOne_from j p c.
Proof.
  intros Hpq. revert i j. unfold Collection.find.
  induction c as [|d c IH]; intros i j; simpl; [reflexivity|].
  destruct (q d) eqn:Hq; simpl.
  - destruct (p d); [reflexivity | apply IH].
  - destruct (p d) eqn:Hp; [|apply IH].
    rewrite (Hpq d Hp) in Hq. discriminate.
Qed.

(** X7. The reply of PUT /update/:requestId is the reply the same call gets
    when the collection holds the caller's records only: whether another
    user has a record, under this requestId or any other, cannot be told
    from it. *)
Theorem update_reply_ignores_other_users (ctx : Ctx) (requestId : string)
    (body : aiTracking.UpdateBody.t) (s : State) :
  fst (aiTracking.put_update ctx requestId body s)
  = fst (aiTracking.put_update ctx requestId body
           (set_aiRequests
              (Collection.find
                 (fun d => String.eqb (AIRequest.userId d) (User.id (user ctx)))
                 (aiRequests s))
              s)).
Proof.
  unfold aiTracking.put_update.
  destruct (negb (aiTracking.update_valid body)); [reflexivity|].
  destruct (aiTracking.UpdateBody.status body) as [status|]; [|reflexivity].
  destruct (readFails ctx); [reflexivity|].
  simpl (aiRequests (set_aiRequests _ _)).
  pose proof (findOne_from_find (aiTracking.own_request ctx requestId)
                (fun d => String.eqb (AIRequest.userId d) (User.id (user ctx)))
                (aiRequests s) 0 0) as Hsame.
  unfold Collection.findOne.
  destruct (Collection.findOne_from 0 _ (Collection.find _ _))
    as [[j d']|];
    destruct (Collection.findOne_from 0 _ (aiRequests s)) as [[i d]|];
    simpl in Hsame.
  - assert (d' = d) as ->.
    { assert (H : Some d' = Some d); [|congruence].
      apply Hsame. unfold aiTracking.own_request. intros x Hx.
      apply andb_true_iff in Hx. tauto. }
    unfold AIRequest.save_at.
    destruct (writeFails ctx); [reflexivity|].
    destruct (negb (AIRequest.schema_valid _)); [reflexivity|].
    simpl (registry (set_aiRequests _ _)).
    destruct (aiTracking.update_metrics _ _ _); reflexivity.
  - exfalso. assert (H : Some d' = None); [|discriminate].
    apply Hsame. unfold aiTracking.own_request. intros x Hx.
    apply andb_true_iff in Hx. tauto.
  - exfalso. assert (H : None = Some d); [|discriminate].
    apply Hsame. unfold aiTracking.own_request. intros x Hx.
    apply andb_true_iff in Hx. tauto.
  - reflexivity.
Qed.

(** X8. An update of a requestId under which the caller has no record replies
    404 when the body is valid and the store answers, and it never changes
    the state, whoever else has a record under that requestId. *)
Theorem update_of_foreign_request (ctx : Ctx) (requestId : string)
    (body : aiTracking.UpdateBody.t) (s : State) :
  (forall d, d ∈ aiRequests s -> AIRequest.requestId d = requestId ->
             AIRequest.userId d <> User.id (user ctx)) ->
  snd (aiTracking.put_update ctx requestId body s) = s
  /\ is_error (fst (aiTracking.put_update ctx requestId body s)) = true
  /\ (aiTracking.update_valid body = true -> readFails ctx = false ->
      fst (aiTracking.put_update ctx requestId body s) = NotFound).
Proof.
  intros Hforeign.
  assert (Hnone :
            Collection.findOne (aiTracking.own_request ctx requestId)
              (aiRequests s) = None).
  { apply findOne_None. intros d Hd. unfold aiTracking.own_request.
    destruct (String.eqb_spec (AIRequest.requestId d) requestId) as [Hr|];
      [|reflexivity].
    destruct (String.eqb_spec (AIRequest.userId d) (User.id (user ctx)));
      [|reflexivity].
    destruct (Hforeign d Hd Hr). assumption. }
  unfold aiTracking.put_update.
  destruct (aiTracking.update_valid body) eqn:Hvalid; simpl.
  2:{ split; [reflexivity|]. split; [reflexivity|]. intros Hv. discriminate Hv. }
  destruct (aiTracking.UpdateBody.status body) as [status|] eqn:Hstatus.
  2:{ unfold aiTracking.update_valid in Hvalid. rewrite Hstatus in Hvalid.
      discriminate Hvalid. }
  destruct (readFails ctx).
  { split; [reflexivity|]. split; [reflexivity|]. intros _ Hr. discriminate Hr. }
  rewrite Hnone. repeat split.
Qed.

(** The theorem for bob updating the request alice tracked. *)
Lemma update_of_foreign_request_witness :
  snd (aiTracking.put_update (Sample.call Sample.bob 3000) "r1"
         (Sample.update "completed")
         (Sample.tracked Sample.alice "r1" 1000 Sample.fresh))
  = Sample.tracked Sample.alice "r1" 1000 Sample.fresh
  /\ is_error
       (fst (aiTracking.put_update (Sample.call Sample.bob 3000) "r1"
               (Sample.update "completed")
               (Sample.tracked Sample.alice "r1" 1000 Sample.fresh)))
     = true
  /\ (aiTracking.update_valid (Sample.update "completed") = true ->
      readFails (Sample.call Sample.bob 3000) = false ->
      fst (aiTracking.put_update (Sample.call Sample.bob 3000) "r1"
             (Sample.update "completed")
             (Sample.tracked Sample.alice "r1" 1000 Sample.fresh))
      = NotFound).
Proof.
  apply update_of_foreign_request.
  intros d Hd _. vm_compute in Hd.
  apply list_elem_of_singleton in Hd. subst d. discriminate.
Defined.

(** X9. A successful update rewrites the one record it found and nothing
    else: the collection keeps its length and its other records, the sales
    collection is untouched, and in the record itself the owner, the
    requestId, the model, the prompt, the metadata, the plan, the creation
    time and the start time are those it had. *)
Theorem update_changes_one_record (ctx : Ctx) (requestId rid status : string)
    (body : aiTracking.UpdateBody.t) (s s' : State) :
  aiTracking.put_update ctx requestId body s = (Ok (rid, status), s') ->
  exists i found saved,
    aiRequests s !! i = Some found
    /\ aiRequests s' !! i = Some saved
    /\ length (aiRequests s') = length (aiRequests s)
    /\ (forall j, j <> i -> aiRequests s' !! j = aiRequests s !! j)
    /\ salesAnalytics s' = salesAnalytics s
    /\ AIRequest.status saved = status
    /\ AIRequest.userId saved = AIRequest.userId found
    /\ AIRequest.requestId saved = AIRequest.requestId found
    /\ AIRequest.model saved = AIRequest.model found
    /\ AIRequest.prompt saved = AIRequest.prompt found
    /\ AIRequest.metadata saved = AIRequest.metadata found
    /\ AIRequest.userPlan saved = AIRequest.userPlan found
    /\ AIRequest.createdAt saved = AIRequest.createdAt found
    /\ AIRequest.Performance.startTime (AIRequest.performance saved)
       = AIRequest.Performance.startTime (AIRequest.performance found)
    /\ AIRequest.updatedAt saved = now ctx.
Proof.
  intros Hupdate.
  pose proof (put_update_spec ctx requestId body s) as H.
  rewrite Hupdate in H.
  destruct H as (status' & i & found & _ & _ & _ & _ & Hfind & _ & <- & Hstore
                 & Hsales & _).
  destruct (findOne_Some _ _ _ _ Hfind) as (Hi & _ & _).
  exists i, found,
    (AIRequest.pre_save (now ctx)
       (aiTracking.apply_update (now ctx) status body found)).
  rewrite Hstore.
  split; [assumption|].
  split.
  { apply list_lookup_insert_eq. eapply lookup_lt_Some. eassumption. }
  split; [apply length_insert|].
  split.
  { intros j Hj. apply list_lookup_insert_ne. congruence. }
  split; [assumption|].
  repeat split.
  simpl. by destruct (String.eqb status "completed" || String.eqb status "failed").
Qed.

(** The theorem for alice completing her request [r1]. *)
Lemma update_changes_one_record_witness :
  exists i found saved,
    aiRequests (Sample.tracked Sample.alice "r1" 1000 Sample.fresh) !! i
    = Some found
    /\ aiRequests (Sample.updated Sample.alice "r1" "completed" 3000
                     (Sample.tracked Sample.alice "r1" 1000 Sample.fresh)) !! i
       = Some saved
    /\ length (aiRequests
                 (Sample.updated Sample.alice "r1" "completed" 3000
                    (Sample.tracked Sample.alice "r1" 1000 Sample.fresh)))
       = length (aiRequests (Sample.tracked Sample.alice "r1" 1000 Sample.fresh))
    /\ (forall j, j <> i ->
          aiRequests (Sample.updated Sample.alice "r1" "completed" 3000
                        (Sample.tracked Sample.alice "r1" 1000 Sample.fresh))
          !! j
          = aiRequests (Sample.tracked Sample.alice "r1" 1000 Sample.fresh) !! j)
    /\ salesAnalytics (Sample.updated Sample.alice "r1" "completed" 3000
                         (Sample.tracked Sample.alice "r1" 1000 Sample.fresh))
       = salesAnalytics (Sample.tracked Sample.alice "r1" 1000 Sample.fresh)
    /\ AIRequest.status saved = "completed"
    /\ AIRequest.userId saved = AIRequest.userId found
    /\ AIRequest.requestId saved = AIRequest.requestId found
    /\ AIRequest.model saved = AIRequest.model found
    /\ AIRequest.prompt saved = AIRequest.prompt found
    /\ AIRequest.metadata saved = AIRequest.metadata found
    /\ AIRequest.userPlan saved = AIRequest.userPlan found
    /\ AIRequest.createdAt saved = AIRequest.createdAt found
    /\ AIRequest.Performance.startTime (AIRequest.performance saved)
       = AIRequest.Performance.startTime (AIRequest.performance found)
    /\ AIRequest.updatedAt saved = now (Sample.call Sample.alice 3000).
Proof.
  apply (update_changes_one_record (Sample.call Sample.alice 3000) "r1" "r1"
           "completed" (Sample.update "completed")).
  vm_compute. reflexivity.
Defined.

(** ** Natural keys stay unique *)

Lemma findOne_None_not_elem {A : Type} (key : A -> string) (k : string)
    (c : list A) :
  Collection.findOne (fun d => String.eqb (key d) k) c = None ->
  k ∉ key <$> c.
Proof.
  intros Hnone Hin. apply list_elem_of_fmap in Hin.
  destruct Hin as (d & -> & Hd).
  pose proof (proj1 (findOne_None _ _) Hnone d Hd) as H. simpl in H.
  rewrite String.eqb_refl in H. discriminate.
Qed.

(** X10. No call of POST /track or PUT /update/:requestId makes two records
    share a requestId: if the requestIds of the collection are pairwise
    distinct before the call, they are after it. *)
Theorem requestIds_stay_unique (ctx : Ctx) (s : State) :
  NoDup (AIRequest.requestId <$> aiRequests s) ->
  (forall body,
     NoDup (AIRequest.requestId
            <$> aiRequests (snd (aiTracking.post_track ctx body s))))
  /\ (forall requestId body,
        AIRequest.requestId
        <$> aiRequests (snd (aiTracking.put_update ctx requestId body s))
        = AIRequest.requestId <$> aiRequests s).
Proof.
  intros Hunique. split.
  - intros body.
    pose proof (post_track_spec ctx body s) as H.
    destruct (aiTracking.post_track ctx body s) as [[] s']; simpl;
      try contradiction.
    + destruct H as (_ & _ & _ & _ & Hnone & d & -> & Hkey & _).
      rewrite fmap_app. simpl. apply NoDup_app. split; [assumption|].
      split; [|apply NoDup_singleton].
      intros k Hk Hk'. apply list_elem_of_singleton in Hk'. subst k.
      rewrite Hkey in Hk.
      exact (findOne_None_not_elem AIRequest.requestId _ _ Hnone Hk).
    + by destruct H as [-> _].
    + by destruct H as [-> _].
    + by destruct H as [-> _].
  - intros requestId body.
    pose proof (put_update_spec ctx requestId body s) as H.
    destruct (aiTracking.put_update ctx requestId body s)
      as [[[rid st]| | | | | |] s']; simpl; try contradiction.
    + destruct H as (status & i & found & _ & _ & _ & _ & Hfind & _ & _ & ->
                     & _).
      destruct (findOne_Some _ _ _ _ Hfind) as (Hi & _ & _).
      rewrite list_fmap_insert. apply list_insert_id.
      rewrite list_lookup_fmap, Hi. reflexivity.
    + by destruct H as [-> _].
    + by destruct H as [-> _].
    + destruct H as (_ & [-> | (status & i & found & _ & _ & _ & Hfind & ->
                                 & _)]); [reflexivity|].
      destruct (findOne_Some _ _ _ _ Hfind) as (Hi & _ & _).
      rewrite list_fmap_insert. apply list_insert_id.
      rewrite list_lookup_fmap, Hi. reflexivity.
Qed.

(** The theorem for a second request tracked after alice's [r1]. *)
Lemma requestIds_stay_unique_witness :
  NoDup (AIRequest.requestId
         <$> aiRequests
               (snd (aiTracking.post_track (Sample.call Sample.bob 2000)
                       (Sample.track "r2")
                       (Sample.tracked Sample.alice "r1" 1000 Sample.fresh)))).
Proof.
  apply (requestIds_stay_unique (Sample.call Sample.bob 2000)
           (Sample.tracked Sample.alice "r1" 1000 Sample.fresh)).
  vm_compute. apply NoDup_singleton.
Defined.

(** X11. No call of POST /sales/track makes two transactions share a
    transactionId. *)
Theorem transactionIds_stay_unique (ctx : Ctx) (body : analytics.SalesBody.t)
    (s : State) :
  NoDup (SalesAnalytics.transactionId <$> salesAnalytics s) ->
  NoDup (SalesAnalytics.transactionId
         <$> salesAnalytics (snd (analytics.post_sales_track ctx body s))).
Proof.
  intros Hunique.
  pose proof (post_sales_track_spec ctx body s) as H.
  destruct (analytics.post_sales_track ctx body s) as [[] s']; simpl;
    try contradiction.
  - destruct H as (_ & _ & _ & _ & Hnone & d & -> & Hkey & _).
    rewrite fmap_app. simpl. apply NoDup_app. split; [assumption|].
    split; [|apply NoDup_singleton].
    intros k Hk Hk'. apply list_elem_of_singleton in Hk'. subst k.
    rewrite Hkey in Hk.
    exact (findOne_None_not_elem SalesAnalytics.transactionId _ _ Hnone Hk).
  - by destruct H as [-> _].
  - by destruct H as [-> _].
  - destruct H as (_ & [-> | (key & d & _ & _ & _ & Hnone & -> & Hkey & _)]);
      [assumption|].
    rewrite fmap_app. simpl. apply NoDup_app. split; [assumption|].
    split; [|apply NoDup_singleton].
    intros k Hk Hk'. apply list_elem_of_singleton in Hk'. subst k.
    rewrite Hkey in Hk.
    exact (findOne_None_not_elem SalesAnalytics.transactionId _ _ Hnone Hk).
Qed.

(** The theorem for a transaction tracked after bob's [t2]. *)
Lemma transactionIds_stay_unique_witness :
  NoDup (SalesAnalytics.transactionId
         <$> salesAnalytics
               (snd (analytics.post_sales_track (Sample.call Sample.alice 2000)
                       (Sample.sale "t2" "completed" 20)
                       (Sample.sold Sample.bob "t2" "failed" 50 1500
                          Sample.fresh)))).
Proof.
  apply transactionIds_stay_unique.
  vm_compute. apply NoDup_singleton.
Defined.

(** ** What the routes record in the registry *)

(** The registry calls of an update leave the sales counters alone, and
    those of an update to another status than completed the duration
    histogram and the token and cost counters as well. *)
Lemma update_metrics_frame (status : string) (d : AIRequest.doc)
    (r : Prometheus.registry) (o : Prometheus.outcome) :
  aiTracking.update_metrics status d r = o ->
  Prometheus.salesTransactionCounter (Prometheus.left_by o)
  = Prometheus.salesTransactionCounter r
  /\ Prometheus.salesRevenue (Prometheus.left_by o) = Prometheus.salesRevenue r
  /\ (status <> "completed" ->
      Prometheus.aiRequestDuration (Prometheus.left_by o)
      = Prometheus.aiRequestDuration r
      /\ Prometheus.aiRequestTokens (Prometheus.left_by o)
         = Prometheus.aiRequestTokens r
      /\ Prometheus.aiRequestCost (Prometheus.left_by o)
         = Prometheus.aiRequestCost r).
Proof.
  intros <-.
  destruct (update_metrics_counts_request status d r)
    as (_ & Hcount & Hrevenue & Hne).
  split; [exact Hcount|]. split; [exact Hrevenue|].
  intros Hstatus. rewrite (Hne Hstatus). by repeat split.
Qed.

(** X12. Token, cost and duration figures enter the registry on completed
    updates only: POST /track and every update to another status leave the
    duration histogram and the token and cost counters as they were, and
    no AI route touches the sales counters. *)
Theorem usage_recorded_on_completion_only (ctx : Ctx) (s : State) :
  (forall body,
     let r := registry (snd (aiTracking.post_track ctx body s)) in
     Prometheus.aiRequestDuration r = Prometheus.aiRequestDuration (registry s)
     /\ Prometheus.aiRequestTokens r = Prometheus.aiRequestTokens (registry s)
     /\ Prometheus.aiRequestCost r = Prometheus.aiRequestCost (registry s)
     /\ Prometheus.salesTransactionCounter r
        = Prometheus.salesTransactionCounter (registry s)
     /\ Prometheus.salesRevenue r = Prometheus.salesRevenue (registry s))
  /\ (forall requestId body,
        let r := registry (snd (aiTracking.put_update ctx requestId body s)) in
        Prometheus.salesTransactionCounter r
        = Prometheus.salesTransactionCounter (registry s)
        /\ Prometheus.salesRevenue r = Prometheus.salesRevenue (registry s)
        /\ (aiTracking.UpdateBody.status body <> Some "completed" ->
            Prometheus.aiRequestDuration r
            = Prometheus.aiRequestDuration (registry s)
            /\ Prometheus.aiRequestTokens r
               = Prometheus.aiRequestTokens (registry s)
            /\ Prometheus.aiRequestCost r
               = Prometheus.aiRequestCost (registry s))).
Proof.
  split.
  - intros body r. subst r.
    pose proof (post_track_spec ctx body s) as H.
    destruct (aiTracking.post_track ctx body s) as [[] s']; simpl;
      try contradiction.
    + destruct H as (_ & _ & _ & _ & _ & d & _ & _ & _ & _ & _ & ->).
      by repeat split.
    + by destruct H as [-> _].
    + by destruct H as [-> _].
    + by destruct H as [-> _].
  - intros requestId body r. subst r.
    pose proof (put_update_spec ctx requestId body s) as H.
    destruct (aiTracking.put_update ctx requestId body s)
      as [[[rid st]| | | | | |] s']; simpl; try contradiction.
    + destruct H as (status & i & found & Hstatus & _ & _ & _ & _ & _ & _ & _
                     & _ & Hreg).
      destruct (update_metrics_frame _ _ _ _ Hreg) as (Hcount & Hrevenue & Hne).
      split; [exact Hcount|]. split; [exact Hrevenue|].
      intros Hbody. apply Hne. congruence.
    + by destruct H as [-> _].
    + by destruct H as [-> _].
    + destruct H as (_ & [-> | (status & i & found & Hstatus & _ & _ & _ & _
                                & _ & Hreg)]); [by repeat split|].
      destruct (update_metrics_frame _ _ _ _ Hreg) as (Hcount & Hrevenue & Hne).
      split; [exact Hcount|]. split; [exact Hrevenue|].
      intros Hbody. apply Hne. congruence.
Qed.

(** X13. The revenue counter moves with completed sales only: a call of
    POST /sales/track with another status leaves sales_revenue_total as it
    was, and a completed one that is accepted adds its amount to the
    counter of its type, plan and currency. *)
Theorem revenue_counter_counts_completed_sales (ctx : Ctx)
    (body : analytics.SalesBody.t) (s : State) :
  (analytics.SalesBody.status body <> Some "completed" ->
   Prometheus.salesRevenue
     (registry (snd (analytics.post_sales_track ctx body s)))
   = Prometheus.salesRevenue (registry s))
  /\ (forall key type amount,
        fst (analytics.post_sales_track ctx body s) = Created key ->
        analytics.SalesBody.status body = Some "completed" ->
        analytics.SalesBody.type body = Some type ->
        analytics.SalesBody.amount body = Some amount ->
        let labels :=
          [Some type; Some (default "free" (analytics.SalesBody.plan body));
           Some (default "USD" (analytics.SalesBody.currency body))] in
        Prometheus.read labels
          (Prometheus.salesRevenue
             (registry (snd (analytics.post_sales_track ctx body s))))
        = (Prometheus.read labels (Prometheus.salesRevenue (registry s))
           + amount)%Q).
Proof.
  unfold analytics.post_sales_track.
  destruct (negb (analytics.sales_track_valid body)); [by split|].
  destruct (analytics.SalesBody.transactionId body) as [tid|]; [|by split].
  destruct (analytics.SalesBody.type body) as [type|]; [|by split].
  destruct (analytics.SalesBody.amount body) as [amount|]; [|by split].
  destruct (analytics.SalesBody.status body) as [status|]; [|by split].
  destruct (readFails ctx); [by split|].
  destruct (Collection.findOne _ _); [by split|].
  destruct (SalesAnalytics.save_new _ _ _ _); [|by split].
  pose proof (sales_metrics_counts_transaction type status
                (default "free" (analytics.SalesBody.plan body))
                (analytics.SalesBody.paymentMethod body)
                (default "USD" (analytics.SalesBody.currency body)) amount
                (registry s)) as Hcalls.
  cbv zeta in Hcalls.
  destruct (analytics.sales_metrics _ _ _ _ _ _ _) as [r|r]; simpl in *.
  - destruct Hcalls as (_ & _ & _ & _ & _ & Hne & _ & Hreturned). split.
    + intros Hstatus.
      assert (Hother : status <> "completed") by congruence.
      specialize (Hne Hother). injection Hne as ->. reflexivity.
    + intros key type' amount' _ [= ->] [= <-] [= <-].
      apply (Hreturned r eq_refl eq_refl).
  - destruct Hcalls as (_ & _ & _ & _ & _ & _ & Hthrew & _).
    destruct (Hthrew r eq_refl) as (-> & _ & Hrevenue). split.
    + intros _. exact Hrevenue.
    + intros key type' amount' Hcreated. discriminate Hcreated.
Qed.

(** ** Sorting stages *)

From stdpp Require Import sorting.
Local Open Scope Z_scope.

Section Sorting.
Context {A : Type} (before : A -> A -> bool) (P : A -> Prop).
Hypothesis before_total :
  forall x y, P x -> P y -> before x y = false -> before y x = true.
Hypothesis before_trans :
  forall x y z, P x -> P y -> P z ->
    before x y = true -> before y z = true -> before x z = true.

Lemma insert_sorted_sorted (x : A) (l : list A) :
  P x -> Forall P l ->
  StronglySorted (fun a b => before a b = true) l ->
  StronglySorted (fun a b => before a b = true)
    (Collection.insert_sorted before x l).
Proof.
  intros Hx HP. induction 1 as [|y l Hl IH Hy]; simpl.
  - repeat constructor.
  - apply Forall_cons in HP as [HPy HPl].
    destruct (before x y) eqn:Hxy.
    + constructor; [by constructor|].
      constructor; [assumption|].
      rewrite Forall_forall in Hy, HPl. apply Forall_forall. intros z Hz.
      apply (before_trans x y z); auto.
    + constructor; [by apply IH|].
      rewrite insert_sorted_perm. constructor; [|assumption].
      by apply before_total.
Qed.

Lemma sort_sorted_on (l : list A) :
  Forall P l ->
  StronglySorted (fun a b => before a b = true) (Collection.sort before l).
Proof.
  unfold Collection.sort. induction 1 as [|x l Hx Hl IH]; simpl; [constructor|].
  apply insert_sorted_sorted; [assumption| |assumption].
  change (foldr (Collection.insert_sorted before) [] l)
    with (Collection.sort before l).
  by rewrite sort_perm.
Qed.

End Sorting.

Lemma sort_sorted {A : Type} (before : A -> A -> bool) :
  (forall x y, before x y = false -> before y x = true) ->
  (forall x y z, before x y = true -> before y z = true -> before x z = true) ->
  forall l,
    StronglySorted (fun a b => before a b = true) (Collection.sort before l).
Proof.
  intros Htotal Htrans l.
  apply (sort_sorted_on before (fun _ => True)); [auto|eauto|].
  by apply Forall_forall.
Qed.

Lemma StronglySorted_lookup {A : Type} (R : A -> A -> Prop) (l : list A)
    (i j : nat) (x y : A) :
  StronglySorted R l -> (i < j)%nat -> l !! i = Some x -> l !! j = Some y ->
  R x y.
Proof.
  intros Hl. revert i j.
  induction Hl as [|z l Hl IH Hz]; intros i j Hij Hi Hj; [done|].
  destruct j as [|j]; [lia|]. simpl in Hj.
  destruct i as [|i]; simpl in Hi.
  - injection Hi as ->. rewrite Forall_forall in Hz.
    apply Hz. by eapply list_elem_of_lookup_2.
  - apply (IH i j); [lia|assumption..].
Qed.

Lemma StronglySorted_take {A : Type} (R : A -> A -> Prop) (n : nat)
    (l : list A) :
  StronglySorted R l -> StronglySorted R (take n l).
Proof.
  intros H. rewrite <- (take_drop n l) in H.
  by apply StronglySorted_app_1_l in H.
Qed.

Lemma StronglySorted_drop {A : Type} (R : A -> A -> Prop) (n : nat)
    (l : list A) :
  StronglySorted R l -> StronglySorted R (drop n l).
Proof.
  intros H. rewrite <- (take_drop n l) in H.
  by apply StronglySorted_app_1_r in H.
Qed.

Lemma by_createdAt_desc_total (x y : AIRequest.doc) :
  aiTracking.by_createdAt_desc x y = false ->
  aiTracking.by_createdAt_desc y x = true.
Proof. unfold aiTracking.by_createdAt_desc. lia. Qed.

Lemma by_createdAt_desc_trans (x y z : AIRequest.doc) :
  aiTracking.by_createdAt_desc x y = true ->
  aiTracking.by_createdAt_desc y z = true ->
  aiTracking.by_createdAt_desc x z = true.
Proof. unfold aiTracking.by_createdAt_desc. lia. Qed.

Lemma eq_str_truthy (o : option string) (v w : string) :
  Collection.eq_str (AIRequest.if_truthy o) v = true ->
  o = Some w -> w <> "" -> v = w.
Proof.
  intros H -> Hw. unfold AIRequest.if_truthy, JS.truthy, JS.truthy_str in H.
  destruct (String.eqb_spec w "") as [|_]; [done|]. simpl in H.
  by apply String.eqb_eq.
Qed.

(** ** The pages of GET /history *)

(** X14. A page of GET /history holds at most [limit] records, [limit] being
    between 1 and 100; the records are the caller's own, match the status,
    model and feature asked for, and come newest first; [pages] is the
    number of pages of [limit] records that [total] records fill; and
    records with distinct requestIds in the collection have distinct
    requestIds on the page. *)
Theorem history_page_contents (ctx : Ctx) (query : aiTracking.HistoryQuery.t)
    (s : State) (h : aiTracking.History) :
  aiTracking.get_history ctx query s = Ok h ->
  1 <= aiTracking.page h
  /\ 1 <= aiTracking.limit h <= 100
  /\ Z.of_nat (length (aiTracking.requests h)) <= aiTracking.limit h
  /\ Z.of_nat (length (aiTracking.requests h)) <= aiTracking.total h
  /\ aiTracking.total h <= aiTracking.pages h * aiTracking.limit h
     < aiTracking.total h + aiTracking.limit h
  /\ (forall r, r ∈ aiTracking.requests h ->
        exists d, d ∈ aiRequests s
          /\ r = AIRequest.select_without_prompt_response d
          /\ AIRequest.userId d = User.id (user ctx)
          /\ (forall v, aiTracking.HistoryQuery.status query = Some v ->
                v <> "" -> AIRequest.status d = v)
          /\ (forall v, aiTracking.HistoryQuery.model query = Some v ->
                v <> "" -> AIRequest.model d = v)
          /\ (forall v, aiTracking.HistoryQuery.feature query = Some v ->
                v <> "" ->
                AIRequest.Metadata.feature (AIRequest.metadata d) = v))
  /\ (forall i j r r', (i < j)%nat ->
        aiTracking.requests h !! i = Some r ->
        aiTracking.requests h !! j = Some r' ->
        AIRequest.l_createdAt r' <= AIRequest.l_createdAt r)
  /\ (NoDup (AIRequest.requestId <$> aiRequests s) ->
      NoDup (AIRequest.l_requestId <$> aiTracking.requests h)).
Proof.
  unfold aiTracking.get_history.
  destruct (negb (aiTracking.history_valid query)) eqn:Hvalid; [discriminate|].
  destruct (readFails ctx); [discriminate|].
  intros [= <-]. simpl.
  apply negb_false_iff in Hvalid. unfold aiTracking.history_valid in Hvalid.
  apply andb_true_iff in Hvalid as [Hpage Hlimit].
  set (q := aiTracking.history_query ctx query).
  set (page := aiTracking.parseInt_or (aiTracking.HistoryQuery.page query) 1).
  set (limit := aiTracking.parseInt_or (aiTracking.HistoryQuery.limit query) 20).
  set (matching := Collection.find (AIRequest.satisfies q) (aiRequests s)).
  set (sorted := Collection.sort aiTracking.by_createdAt_desc matching).
  assert (Hp : 1 <= page).
  { subst page. unfold aiTracking.parseInt_or.
    destruct (aiTracking.HistoryQuery.page query) as [p|]; [|lia].
    destruct (p =? 0) eqn:E; lia. }
  assert (Hl : 1 <= limit <= 100).
  { subst limit. unfold aiTracking.parseInt_or.
    destruct (aiTracking.HistoryQuery.limit query) as [l|]; [|lia].
    destruct (l =? 0) eqn:E; lia. }
  assert (Hlen : length sorted = length matching).
  { subst sorted. by rewrite sort_perm. }
  unfold Collection.countDocuments. fold matching.
  split; [exact Hp|]. split; [exact Hl|].
  unfold Collection.limit, Collection.skip.
  split; [rewrite length_map, length_take; lia|].
  split; [rewrite length_map, length_take, length_drop; lia|].
  split.
  { pose proof (Z.div_mod (Z.of_nat (length matching) + limit - 1) limit
                  ltac:(lia)) as Hdiv.
    pose proof (Z.mod_pos_bound (Z.of_nat (length matching) + limit - 1) limit
                  ltac:(lia)) as Hmod.
    nia. }
  split.
  { intros r Hr. apply list_elem_of_fmap in Hr as (d & -> & Hd).
    apply subseteq_take, subseteq_drop in Hd.
    subst sorted. rewrite sort_perm in Hd. subst matching.
    unfold Collection.find in Hd. apply list_elem_of_In, filter_In in Hd.
    destruct Hd as [Hd Hsat]. apply list_elem_of_In in Hd.
    exists d. split; [assumption|]. split; [reflexivity|].
    unfold AIRequest.satisfies in Hsat.
    repeat (apply andb_true_iff in Hsat as [Hsat ?]).
    subst q. simpl in *.
    split; [by apply String.eqb_eq|].
    split; [|split]; intros v Hv Hne; by eapply eq_str_truthy. }
  split.
  { intros i j r r' Hij Hi Hj.
    change (map AIRequest.select_without_prompt_response)
      with (fmap (M:=list) AIRequest.select_without_prompt_response) in Hi, Hj.
    rewrite list_lookup_fmap in Hi, Hj.
    destruct (take _ _ !! i) as [d|] eqn:Hdi; [|discriminate].
    destruct (take _ _ !! j) as [d'|] eqn:Hdj; [|discriminate].
    injection Hi as <-. injection Hj as <-. simpl.
    assert (Hs : StronglySorted
                   (fun a b => aiTracking.by_createdAt_desc a b = true)
                   (take (Z.to_nat limit)
                      (drop (Z.to_nat ((page - 1) * limit)) sorted))).
    { apply StronglySorted_take, StronglySorted_drop, sort_sorted.
      - exact by_createdAt_desc_total.
      - exact by_createdAt_desc_trans. }
    pose proof (StronglySorted_lookup _ _ _ _ _ _ Hs Hij Hdi Hdj) as H.
    unfold aiTracking.by_createdAt_desc in H. lia. }
  intros Hunique.
  change (map AIRequest.select_without_prompt_response)
    with (fmap (M:=list) AIRequest.select_without_prompt_response).
  rewrite <- list_fmap_compose.
  change (AIRequest.l_requestId ∘ AIRequest.select_without_prompt_response)
    with AIRequest.requestId.
  eapply sublist_NoDup; [|apply fmap_sublist, sublist_take].
  eapply sublist_NoDup; [|apply fmap_sublist, sublist_drop].
  subst sorted. rewrite sort_perm. subst matching.
  eapply sublist_NoDup; [exact Hunique|apply fmap_sublist].
  unfold Collection.find. clear.
  induction (aiRequests s) as [|d c IH]; simpl; [constructor|].
  destruct (AIRequest.satisfies q d); by constructor.
Qed.

(** The theorem for the history of alice after she tracked [r1]. *)
Lemma history_page_contents_witness :
  exists h,
    aiTracking.get_history (Sample.call Sample.alice 2000) Sample.history_query
      (Sample.tracked Sample.alice "r1" 1000 Sample.fresh) = Ok h
    /\ Z.of_nat (length (aiTracking.requests h)) <= aiTracking.limit h.
Proof.
  eexists. split; [vm_compute; reflexivity|].
  eapply (history_page_contents (Sample.call Sample.alice 2000)
            Sample.history_query
            (Sample.tracked Sample.alice "r1" 1000 Sample.fresh)).
  vm_compute. reflexivity.
Defined.

(** X15. Every record of the caller that matches the filters of GET /history is
    on one of the pages 1 to [pages] of the reply, asked for with the same
    limit and filters. *)
Theorem history_pages_cover (ctx : Ctx) (query : aiTracking.HistoryQuery.t)
    (s : State) (h : aiTracking.History) (d : AIRequest.doc) :
  aiTracking.get_history ctx query s = Ok h ->
  d ∈ aiRequests s ->
  AIRequest.satisfies (aiTracking.history_query ctx query) d = true ->
  exists p h',
    1 <= p <= aiTracking.pages h
    /\ aiTracking.get_history ctx
         {| aiTracking.HistoryQuery.page := Some p;
            aiTracking.HistoryQuery.limit := aiTracking.HistoryQuery.limit query;
            aiTracking.HistoryQuery.status :=
              aiTracking.HistoryQuery.status query;
            aiTracking.HistoryQuery.model := aiTracking.HistoryQuery.model query;
            aiTracking.HistoryQuery.feature :=
              aiTracking.HistoryQuery.feature query |} s = Ok h'
    /\ aiTracking.pages h' = aiTracking.pages h
    /\ AIRequest.select_without_prompt_response d ∈ aiTracking.requests h'.
Proof.
  unfold aiTracking.get_history.
  destruct (negb (aiTracking.history_valid query)) eqn:Hvalid; [discriminate|].
  destruct (readFails ctx); [discriminate|].
  intros [= <-] Hd Hsat. simpl.
  apply negb_false_iff in Hvalid. unfold aiTracking.history_valid in Hvalid.
  apply andb_true_iff in Hvalid as [Hpage Hlimit].
  change (aiTracking.history_query ctx _) with (aiTracking.history_query ctx query).
  set (q := aiTracking.history_query ctx query) in *.
  set (limit := aiTracking.parseInt_or (aiTracking.HistoryQuery.limit query) 20).
  set (matching := Collection.find (AIRequest.satisfies q) (aiRequests s)).
  set (sorted := Collection.sort aiTracking.by_createdAt_desc matching).
  assert (Hl : 1 <= limit <= 100).
  { subst limit. unfold aiTracking.parseInt_or.
    destruct (aiTracking.HistoryQuery.limit query) as [l|]; [|lia].
    destruct (l =? 0) eqn:E; lia. }
  assert (Hlen : length sorted = length matching).
  { subst sorted. by rewrite sort_perm. }
  assert (Hin : d ∈ sorted).
  { subst sorted. rewrite sort_perm. subst matching. unfold Collection.find.
    apply list_elem_of_In, filter_In. split; [by apply list_elem_of_In|done]. }
  apply list_elem_of_lookup in Hin as [k Hk].
  pose proof (lookup_lt_Some _ _ _ Hk) as Hklt.
  set (p := Z.of_nat k / limit + 1).
  assert (Hp : 1 <= p).
  { subst p. pose proof (Z.div_pos (Z.of_nat k) limit ltac:(lia) ltac:(lia)).
    lia. }
  assert (Hvalid : aiTracking.history_valid
                     {| aiTracking.HistoryQuery.page := Some p;
                        aiTracking.HistoryQuery.limit :=
                          aiTracking.HistoryQuery.limit query;
                        aiTracking.HistoryQuery.status :=
                          aiTracking.HistoryQuery.status query;
                        aiTracking.HistoryQuery.model :=
                          aiTracking.HistoryQuery.model query;
                        aiTracking.HistoryQuery.feature :=
                          aiTracking.HistoryQuery.feature query |} = true).
  { unfold aiTracking.history_valid. simpl. rewrite Hlimit.
    apply andb_true_iff. split; [apply Z.leb_le; exact Hp|reflexivity]. }
  exists p. rewrite Hvalid. simpl.
  replace (p =? 0) with false by (symmetry; apply Z.eqb_neq; lia).
  fold limit matching sorted.
  eexists. split; [|split; [reflexivity|]]; simpl.
  - split; [exact Hp|]. unfold Collection.countDocuments. fold matching.
    subst p.
    replace (Z.of_nat (length matching) + limit - 1)
      with ((Z.of_nat (length matching) - 1) + 1 * limit) by lia.
    rewrite Z.div_add by lia.
    apply Z.add_le_mono_r, Z.div_le_mono; lia.
  - split; [reflexivity|].
    change (map AIRequest.select_without_prompt_response)
      with (fmap (M:=list) AIRequest.select_without_prompt_response).
    apply list_elem_of_fmap. exists d. split; [reflexivity|].
    apply list_elem_of_lookup. exists (Z.to_nat (Z.of_nat k mod limit)).
    unfold Collection.limit, Collection.skip.
    pose proof (Z.mod_pos_bound (Z.of_nat k) limit ltac:(lia)) as Hmod.
    rewrite lookup_take_lt by lia.
    rewrite lookup_drop.
    replace (Z.to_nat ((p - 1) * limit) + Z.to_nat (Z.of_nat k mod limit))%nat
      with k; [exact Hk|].
    subst p.
    pose proof (Z.div_mod (Z.of_nat k) limit ltac:(lia)) as Hdiv.
    pose proof (Z.div_pos (Z.of_nat k) limit ltac:(lia) ltac:(lia)) as Hq.
    rewrite <- Z2Nat.inj_add by nia.
    replace ((Z.of_nat k / limit + 1 - 1) * limit + Z.of_nat k mod limit)
      with (Z.of_nat k) by lia.
    by rewrite Nat2Z.id.
Qed.

(** The theorem for alice's record [r1] and her history. *)
Lemma history_pages_cover_witness :
  exists h p h',
    aiTracking.get_history (Sample.call Sample.alice 2000) Sample.history_query
      (Sample.tracked Sample.alice "r1" 1000 Sample.fresh) = Ok h
    /\ 1 <= p <= aiTracking.pages h
    /\ AIRequest.select_without_prompt_response
         (Sample.request Sample.alice "r1" 1000) ∈ aiTracking.requests h'.
Proof.
  assert (Hh : { h | aiTracking.get_history (Sample.call Sample.alice 2000)
                       Sample.history_query
                       (Sample.tracked Sample.alice "r1" 1000 Sample.fresh)
                     = Ok h }).
  { eexists. vm_compute. reflexivity. }
  destruct Hh as [h Hh]. exists h.
  destruct (history_pages_cover _ _ _ h
              (Sample.request Sample.alice "r1" 1000) Hh)
    as (p & h' & Hp & _ & _ & Hin).
  - vm_compute. apply list_elem_of_here.
  - vm_compute. reflexivity.
  - exists p, h'. split; [exact Hh|]. split; assumption.
Defined.

(** ** Grouping stages *)

Lemma filter_sublist {A : Type} (p : A -> bool) (l : list A) :
  List.filter p l `sublist_of` l.
Proof.
  induction l as [|x l IH]; simpl; [constructor|].
  destruct (p x); by constructor.
Qed.

Lemma elem_of_List_filter {A : Type} (p : A -> bool) (l : list A) (x : A) :
  x ∈ List.filter p l <-> x ∈ l /\ p x = true.
Proof. rewrite !list_elem_of_In. apply filter_In. Qed.

Lemma filter_filter {A : Type} (p q : A -> bool) (l : list A) :
  List.filter p (List.filter q l) = List.filter (fun x => q x && p x) l.
Proof.
  induction l as [|x l IH]; simpl; [reflexivity|].
  destruct (q x); simpl; [destruct (p x)|]; by rewrite IH.
Qed.

Lemma filter_ext_elem {A : Type} (p q : A -> bool) (l : list A) :
  (forall x, x ∈ l -> p x = q x) -> List.filter p l = List.filter q l.
Proof.
  intros H. apply filter_ext_in. intros x Hx. by apply H, list_elem_of_In.
Qed.

Lemma filter_nonempty {A : Type} (p : A -> bool) (l : list A) (x : A) :
  x ∈ l -> p x = true -> (0 < length (List.filter p l))%nat.
Proof.
  intros Hx Hp. assert (H : x ∈ List.filter p l) by by apply elem_of_List_filter.
  destruct (List.filter p l); [by apply elem_of_nil in H|simpl; lia].
Qed.

Lemma distinct_elem (l : list string) (k : string) :
  k ∈ Collection.distinct l <-> k ∈ l.
Proof.
  induction l as [|k' l IH]; simpl; [reflexivity|].
  rewrite !elem_of_cons, elem_of_List_filter, IH.
  destruct (String.eqb_spec k k') as [->|Hne]; simpl.
  - split; [by left|intros _; by left].
  - split; [intros [?|[? _]]; [by left|by right]|].
    intros [?|?]; [by left|by right].
Qed.

Lemma distinct_NoDup (l : list string) : NoDup (Collection.distinct l).
Proof.
  induction l as [|k l IH]; simpl; [constructor|].
  constructor.
  - rewrite elem_of_List_filter, String.eqb_refl. simpl. intros [_ [=]].
  - eapply sublist_NoDup; [exact IH|apply filter_sublist].
Qed.

Section Grouping.
Context {A : Type} (key : A -> string).

Lemma group_by_keys (l : list A) :
  fst <$> Collection.group_by key l = Collection.distinct (map key l).
Proof.
  unfold Collection.group_by.
  change (map (fun k => (k, List.filter (fun d => String.eqb (key d) k) l)))
    with (fmap (M:=list)
            (fun k => (k, List.filter (fun d => String.eqb (key d) k) l))).
  rewrite <- list_fmap_compose. apply list_fmap_id.
Qed.

Lemma group_by_elem (l : list A) (g : string * list A) :
  g ∈ Collection.group_by key l <->
  (exists d, d ∈ l /\ key d = fst g)
  /\ snd g = List.filter (fun d => String.eqb (key d) (fst g)) l.
Proof.
  unfold Collection.group_by.
  change (map (fun k => (k, List.filter (fun d => String.eqb (key d) k) l)))
    with (fmap (M:=list)
            (fun k => (k, List.filter (fun d => String.eqb (key d) k) l))).
  rewrite list_elem_of_fmap. split.
  - intros (k & -> & Hk). simpl. split; [|reflexivity].
    apply (proj1 (distinct_elem _ _)) in Hk.
    change (map key l) with (key <$> l) in Hk.
    apply (proj1 (list_elem_of_fmap _ _ _)) in Hk as (d & -> & Hd).
    by exists d.
  - intros [(d & Hd & Hkey) Hg]. exists (fst g). split.
    + destruct g as [k ds]. simpl in *. by rewrite Hg.
    + apply distinct_elem. change (map key l) with (key <$> l).
      apply list_elem_of_fmap. by exists d.
Qed.

Lemma group_by_NoDup (l : list A) : NoDup (fst <$> Collection.group_by key l).
Proof. rewrite group_by_keys. apply distinct_NoDup. Qed.

End Grouping.

(** ** Sums over stages *)

Lemma sum_cons {A : Type} (f : A -> option Q) (d : A) (l : list A) :
  Collection.sum f (d :: l) = match f d with
                              | Some q => (q + Collection.sum f l)%Q
                              | None => Collection.sum f l
                              end.
Proof. reflexivity. Qed.

Lemma sum_perm {A : Type} (f : A -> option Q) (l k : list A) :
  l ≡ₚ k -> (Collection.sum f l == Collection.sum f k)%Q.
Proof.
  induction 1 as [|x l k _ IH|x y l|l k m _ IH1 _ IH2].
  - reflexivity.
  - rewrite !sum_cons. destruct (f x); [by rewrite IH|exact IH].
  - rewrite !sum_cons. destruct (f x), (f y); try reflexivity. ring.
  - by rewrite IH1.
Qed.

Lemma sum_ext {A : Type} (g h : A -> Q) (l : list A) :
  (forall x, x ∈ l -> (g x == h x)%Q) ->
  (Collection.sum (fun x => Some (g x)) l
   == Collection.sum (fun x => Some (h x)) l)%Q.
Proof.
  induction l as [|x l IH]; intros H; [reflexivity|].
  rewrite !sum_cons, (H x) by apply list_elem_of_here.
  rewrite IH; [reflexivity|]. intros y Hy. apply H. by apply list_elem_of_further.
Qed.

Lemma sum_fmap {A B : Type} (f : A -> B) (g : B -> option Q) (l : list A) :
  Collection.sum g (f <$> l) = Collection.sum (fun x => g (f x)) l.
Proof.
  induction l as [|x l IH]; [reflexivity|].
  rewrite fmap_cons, !sum_cons, IH. reflexivity.
Qed.

(** The sums of the groups of a [$group] stage add up to the sum over the
    documents that reach the stage. *)
Lemma sum_over_keys {A : Type} (key : A -> string) (f : A -> option Q)
    (ks : list string) (l : list A) :
  NoDup ks -> (forall d, d ∈ l -> key d ∈ ks) ->
  (Collection.sum
     (fun k => Some (Collection.sum f
                       (List.filter (fun d => String.eqb (key d) k) l))) ks
   == Collection.sum f l)%Q.
Proof.
  intros Hks. induction l as [|d l IH]; intros Hl.
  - simpl. clear. induction ks as [|k ks IH]; [reflexivity|].
    rewrite sum_cons, IH. reflexivity.
  - specialize (IH (fun x Hx => Hl x (list_elem_of_further _ _ _ Hx))).
    pose proof (Hl d (list_elem_of_here _ _)) as Hd.
    set (w := match f d with Some q => q | None => 0%Q end).
    assert (Hsum : (Collection.sum f (d :: l) == w + Collection.sum f l)%Q).
    { rewrite sum_cons. subst w. destruct (f d); [reflexivity|ring]. }
    rewrite Hsum, <- IH. clear IH Hsum Hl.
    induction Hks as [|k ks Hk _ IHks].
    + by apply elem_of_nil in Hd.
    + rewrite !sum_cons. simpl List.filter.
      destruct (String.eqb_spec (key d) k) as [<-|Hne].
      * rewrite sum_cons. fold w.
        assert (Hrest :
          (Collection.sum
             (fun k => Some (Collection.sum f
                  (List.filter (fun d0 => String.eqb (key d0) k) (d :: l)))) ks
           == Collection.sum
                (fun k => Some (Collection.sum f
                  (List.filter (fun d0 => String.eqb (key d0) k) l))) ks)%Q).
        { apply sum_ext. intros k' Hk'. simpl.
          destruct (String.eqb_spec (key d) k') as [<-|_]; [done|reflexivity]. }
        rewrite Hrest.
        transitivity
          (w + (Collection.sum f
                  (List.filter (fun d0 => String.eqb (key d0) (key d)) l)
                + Collection.sum
                    (fun k => Some (Collection.sum f
                       (List.filter (fun d0 => String.eqb (key d0) k) l))) ks))%Q;
          [|reflexivity].
        subst w. destruct (f d); ring.
      * apply elem_of_cons in Hd as [Hd|Hd]; [done|].
        rewrite (IHks Hd). ring.
Qed.

Lemma sum_group_by {A : Type} (key : A -> string) (f : A -> option Q)
    (l : list A) :
  (Collection.sum (fun g => Some (Collection.sum f (snd g)))
     (Collection.group_by key l)
   == Collection.sum f l)%Q.
Proof.
  unfold Collection.group_by.
  change (map (fun k => (k, List.filter (fun d => String.eqb (key d) k) l)))
    with (fmap (M:=list)
            (fun k => (k, List.filter (fun d => String.eqb (key d) k) l))).
  rewrite sum_fmap. simpl.
  apply sum_over_keys; [apply distinct_NoDup|].
  intros d Hd. apply distinct_elem. change (map key l) with (key <$> l).
  by apply list_elem_of_fmap_2.
Qed.

Lemma count_as_sum {A : Type} (p : A -> bool) (l : list A) :
  (Collection.count p l
   == Collection.sum (fun d => if p d then Some 1%Q else None) l)%Q.
Proof.
  unfold Collection.count. induction l as [|d l IH]; [reflexivity|].
  rewrite sum_cons. simpl. destruct (p d); [|exact IH].
  rewrite <- IH. simpl length. rewrite Nat2Z.inj_succ, <- Z.add_1_l, inject_Z_plus.
  reflexivity.
Qed.

Lemma count_all {A : Type} (l : list A) :
  Collection.count (fun _ => true) l = inject_Z (Z.of_nat (length l)).
Proof.
  unfold Collection.count. rewrite forallb_filter_id; [reflexivity|].
  by apply forallb_forall.
Qed.

Lemma Qle_bool_total (x y : Q) : Qle_bool y x = false -> Qle_bool x y = true.
Proof.
  intros H. apply Qle_bool_iff.
  destruct (Qlt_le_dec x y) as [Hlt|Hle]; [by apply Qlt_le_weak|].
  apply Qle_bool_iff in Hle. congruence.
Qed.

Lemma Qle_bool_trans (x y z : Q) :
  Qle_bool z y = true -> Qle_bool y x = true -> Qle_bool z x = true.
Proof. rewrite !Qle_bool_iff. apply Qle_trans. Qed.

(** ** Revenue rankings *)

Lemma satisfies_completed_in_range (range : option (option Z * option Z))
    (d : SalesAnalytics.doc) :
  SalesAnalytics.satisfies
    {| SalesAnalytics.MatchStage.userId := None;
       SalesAnalytics.MatchStage.status := Some "completed";
       SalesAnalytics.MatchStage.type := None;
       SalesAnalytics.MatchStage.plan := None;
       SalesAnalytics.MatchStage.paymentMethod := None;
       SalesAnalytics.MatchStage.currency := None;
       SalesAnalytics.MatchStage.createdAt := range |} d
  = String.eqb (SalesAnalytics.status d) "completed"
    && Collection.in_range range (SalesAnalytics.createdAt d).
Proof.
  unfold SalesAnalytics.satisfies. simpl. by rewrite !andb_true_r.
Qed.

(** X16. The rows of [getRevenueByPlan] split the completed transactions
    of the period by plan: no plan has two rows, the counts of the rows
    add up to the number of these transactions, each row stands for at
    least one transaction and carries the revenue of the completed
    transactions of its plan, summed in their stored order, and the rows
    come by decreasing revenue. *)
Theorem revenue_by_plan_partitions (filters : SalesAnalytics.Filters.t)
    (c : list SalesAnalytics.doc) :
  let rows := SalesAnalytics.getRevenueByPlan filters c in
  let completed :=
    Collection.find
      (fun d =>
         String.eqb (SalesAnalytics.status d) "completed"
         && Collection.in_range
              (SalesAnalytics.date_range
                 (SalesAnalytics.Filters.startDate filters)
                 (SalesAnalytics.Filters.endDate filters))
              (SalesAnalytics.createdAt d)) c in
  NoDup (SalesAnalytics._id <$> rows)
  /\ (Collection.sum (fun r => Some (SalesAnalytics.transactionCount r)) rows
      == inject_Z (Z.of_nat (length completed)))%Q
  /\ (forall r, r ∈ rows ->
        (1 <= SalesAnalytics.transactionCount r)%Q
        /\ SalesAnalytics.totalRevenue r
           = Collection.sum (fun d => Some (SalesAnalytics.amount d))
               (Collection.find
                  (fun d => String.eqb (SalesAnalytics.plan d)
                              (SalesAnalytics._id r)) completed))
  /\ (forall i j r r', (i < j)%nat -> rows !! i = Some r -> rows !! j = Some r' ->
        (SalesAnalytics.totalRevenue r' <= SalesAnalytics.totalRevenue r)%Q).
Proof.
  intros rows completed. subst rows. unfold SalesAnalytics.getRevenueByPlan.
  assert (Hfind :
    Collection.find
      (SalesAnalytics.satisfies (SalesAnalytics.revenueByPlan_matchStage filters))
      c = completed).
  { subst completed. unfold Collection.find. apply filter_ext.
    intros d. apply satisfies_completed_in_range. }
  rewrite Hfind. clear Hfind.
  set (row := fun g : string * list SalesAnalytics.doc =>
         {| SalesAnalytics._id := fst g;
            SalesAnalytics.totalRevenue :=
              Collection.sum (fun d => Some (SalesAnalytics.amount d)) (snd g);
            SalesAnalytics.transactionCount :=
              Collection.count (fun _ => true) (snd g);
            SalesAnalytics.avgTransactionValue :=
              Collection.avg (fun d => Some (SalesAnalytics.amount d)) (snd g) |}).
  change (map row) with (fmap (M:=list) row).
  split; [|split; [|split]].
  - rewrite sort_perm, <- list_fmap_compose.
    change (SalesAnalytics._id ∘ row) with (@fst string (list SalesAnalytics.doc)).
    apply group_by_NoDup.
  - rewrite (sum_perm _ _ _ (sort_perm _ _)), sum_fmap. simpl.
    transitivity
      (Collection.sum
         (fun g : string * list SalesAnalytics.doc =>
            Some (Collection.sum
                    (fun d : SalesAnalytics.doc =>
                       if (fun _ => true) d then Some 1%Q else None) (snd g)))
         (Collection.group_by SalesAnalytics.plan completed)).
    + apply sum_ext. intros g _. apply count_as_sum.
    + etransitivity; [apply sum_group_by|].
      etransitivity; [symmetry; apply (count_as_sum (fun _ => true))|].
      by rewrite count_all.
  - intros r Hr. rewrite sort_perm in Hr.
    apply list_elem_of_fmap in Hr as (g & -> & Hg).
    apply group_by_elem in Hg as [(d & Hd & Hkey) Hg]. simpl. rewrite Hg.
    split; [|reflexivity].
    rewrite count_all.
    change 1%Q with (inject_Z 1). rewrite <- Zle_Qle.
    pose proof (filter_nonempty
                  (fun d => String.eqb (SalesAnalytics.plan d) (fst g))
                  completed d Hd) as H.
    cbv beta in H. rewrite Hkey, String.eqb_refl in H.
    specialize (H eq_refl). lia.
  - intros i j r r' Hij Hi Hj.
    apply Qle_bool_iff.
    eapply (StronglySorted_lookup
              (fun a b => SalesAnalytics.by_totalRevenue_desc a b = true));
      [|eassumption..].
    apply sort_sorted.
    + intros x y. apply Qle_bool_total.
    + intros x y z Hxy Hyz. unfold SalesAnalytics.by_totalRevenue_desc in *.
      by eapply Qle_bool_trans.
Qed.

(** X17. [getTopRevenue] ranks the users by the revenue of their completed
    transactions: it returns at most [limit] rows, by decreasing revenue and
    no two for one user; a row carries the amount and the number of the
    user's completed transactions, of which there is at least one; and a
    user with completed transactions who is left out has no more revenue
    than any user listed. *)
Theorem top_revenue_ranking (limit : Z) (c : list SalesAnalytics.doc) :
  0 < limit ->
  let top := metrics.getTopRevenue limit c in
  let completed_of (u : string) :=
    Collection.find
      (fun d => String.eqb (SalesAnalytics.status d) "completed"
                && String.eqb (SalesAnalytics.userId d) u) c in
  Z.of_nat (length top) <= limit
  /\ NoDup (metrics._id <$> top)
  /\ (forall r, r ∈ top ->
        metrics.totalRevenue r
        = Collection.sum (fun d => Some (SalesAnalytics.amount d))
            (completed_of (metrics._id r))
        /\ metrics.transactionCount r
           = inject_Z (Z.of_nat (length (completed_of (metrics._id r))))
        /\ (0 < length (completed_of (metrics._id r)))%nat)
  /\ (forall i j r r', (i < j)%nat -> top !! i = Some r -> top !! j = Some r' ->
        (metrics.totalRevenue r' <= metrics.totalRevenue r)%Q)
  /\ (forall d r,
        d ∈ c -> SalesAnalytics.status d = "completed" ->
        SalesAnalytics.userId d ∉ metrics._id <$> top ->
        r ∈ top ->
        (Collection.sum (fun d => Some (SalesAnalytics.amount d))
           (completed_of (SalesAnalytics.userId d))
         <= metrics.totalRevenue r)%Q).
Proof.
  intros Hlimit top completed_of. subst top.
  unfold metrics.getTopRevenue.
  set (completed :=
         Collection.find (SalesAnalytics.satisfies metrics.topRevenue_matchStage) c).
  set (row := fun g : string * list SalesAnalytics.doc =>
         {| metrics._id := fst g;
            metrics.totalRevenue :=
              Collection.sum (fun d => Some (SalesAnalytics.amount d)) (snd g);
            metrics.transactionCount :=
              Collection.count (fun _ => true) (snd g) |}).
  change (map row) with (fmap (M:=list) row).
  set (ranked := Collection.sort metrics.by_totalRevenue_desc
                   (row <$> Collection.group_by SalesAnalytics.userId completed)).
  assert (Hof : forall u,
            List.filter (fun d => String.eqb (SalesAnalytics.userId d) u)
              completed = completed_of u).
  { intros u. subst completed completed_of. unfold Collection.find. simpl.
    rewrite filter_filter. apply filter_ext. intros d.
    unfold metrics.topRevenue_matchStage.
    rewrite satisfies_completed_in_range. simpl. by rewrite andb_true_r. }
  assert (Hrow : forall r, r ∈ ranked ->
            exists d, d ∈ completed
              /\ SalesAnalytics.userId d = metrics._id r
              /\ metrics.totalRevenue r
                 = Collection.sum (fun d => Some (SalesAnalytics.amount d))
                     (completed_of (metrics._id r))
              /\ metrics.transactionCount r
                 = inject_Z (Z.of_nat (length (completed_of (metrics._id r))))).
  { intros r Hr. subst ranked. rewrite sort_perm in Hr.
    apply list_elem_of_fmap in Hr as (g & -> & Hg).
    apply group_by_elem in Hg as [(d & Hd & Hkey) Hg]. simpl.
    exists d. rewrite Hg, Hof. split; [assumption|]. split; [assumption|].
    split; [reflexivity|]. apply count_all. }
  assert (Hsorted : StronglySorted
                      (fun a b => metrics.by_totalRevenue_desc a b = true)
                      ranked).
  { apply sort_sorted.
    - intros x y. apply Qle_bool_total.
    - intros x y z Hxy Hyz. unfold metrics.by_totalRevenue_desc in *.
      by eapply Qle_bool_trans. }
  assert (Hunique : NoDup (metrics._id <$> ranked)).
  { subst ranked. rewrite sort_perm, <- list_fmap_compose.
    change (metrics._id ∘ row) with (@fst string (list SalesAnalytics.doc)).
    apply group_by_NoDup. }
  unfold Collection.limit.
  split; [rewrite length_take; lia|].
  split; [eapply sublist_NoDup; [exact Hunique|apply fmap_sublist, sublist_take]|].
  split.
  { intros r Hr. apply subseteq_take in Hr.
    destruct (Hrow r Hr) as (d & Hd & Hkey & Hrev & Hcount).
    split; [assumption|]. split; [assumption|].
    rewrite <- Hof. apply (filter_nonempty _ _ d Hd).
    rewrite Hkey. apply String.eqb_refl. }
  split.
  { intros i j r r' Hij Hi Hj. apply Qle_bool_iff.
    eapply (StronglySorted_lookup
              (fun a b => metrics.by_totalRevenue_desc a b = true));
      [|eassumption..].
    by apply StronglySorted_take. }
  intros d r Hd Hstatus Hout Hr.
  assert (Hdc : d ∈ completed).
  { subst completed. unfold Collection.find. apply elem_of_List_filter.
    split; [assumption|]. unfold metrics.topRevenue_matchStage.
    rewrite satisfies_completed_in_range, Hstatus. reflexivity. }
  set (g := (SalesAnalytics.userId d,
             List.filter (fun d' => String.eqb (SalesAnalytics.userId d')
                                      (SalesAnalytics.userId d)) completed)).
  assert (Hg : row g ∈ ranked).
  { subst ranked. rewrite sort_perm. apply list_elem_of_fmap_2.
    apply group_by_elem. split; [by exists d|reflexivity]. }
  rewrite <- (take_drop (Z.to_nat limit) ranked) in Hg, Hsorted.
  apply elem_of_app in Hg as [Hg|Hg].
  { exfalso. apply Hout.
    change (SalesAnalytics.userId d) with (metrics._id (row g)).
    by apply list_elem_of_fmap_2. }
  pose proof (StronglySorted_app_1_elem_of _ _ _ _ _ Hsorted Hr Hg) as Hle.
  apply Qle_bool_iff in Hle. simpl in Hle. by rewrite Hof in Hle.
Qed.

(** The theorem for the three best customers of a collection with a
    completed sale of bob. *)
Lemma top_revenue_ranking_witness :
  Z.of_nat
    (length (metrics.getTopRevenue 3
               (salesAnalytics
                  (Sample.sold Sample.bob "t1" "completed" 50 1500
                     Sample.fresh)))) <= 3.
Proof.
  apply (top_revenue_ranking 3
           (salesAnalytics
              (Sample.sold Sample.bob "t1" "completed" 50 1500 Sample.fresh))).
  lia.
Defined.

(** ** Customer lifetime value *)

Lemma min_max_createdAt (ds : list SalesAnalytics.doc) :
  match SalesAnalytics.min_createdAt ds, SalesAnalytics.max_createdAt ds with
  | Some a, Some b =>
      (forall d, d ∈ ds -> a <= SalesAnalytics.createdAt d <= b)
      /\ (exists d, d ∈ ds /\ SalesAnalytics.createdAt d = a)
      /\ (exists d, d ∈ ds /\ SalesAnalytics.createdAt d = b)
  | None, None => ds = []
  | _, _ => False
  end.
Proof.
  induction ds as [|d ds IH]; simpl; [reflexivity|].
  destruct (SalesAnalytics.min_createdAt ds) as [a|],
           (SalesAnalytics.max_createdAt ds) as [b|]; try contradiction.
  - destruct IH as (Hall & (da & Hda & Ha) & (db & Hdb & Hb)).
    split; [|split].
    + intros d' [->|Hd']%elem_of_cons; [lia|].
      specialize (Hall d' Hd'). lia.
    + destruct (Z.min_spec (SalesAnalytics.createdAt d) a) as [[_ ->]|[_ ->]].
      * exists d. split; [apply list_elem_of_here|reflexivity].
      * exists da. split; [by apply list_elem_of_further|assumption].
    + destruct (Z.max_spec (SalesAnalytics.createdAt d) b) as [[_ ->]|[_ ->]].
      * exists db. split; [by apply list_elem_of_further|assumption].
      * exists d. split; [apply list_elem_of_here|reflexivity].
  - subst ds. split; [|split].
    + intros d' ->%list_elem_of_singleton. lia.
    + exists d. split; [apply list_elem_of_here|reflexivity].
    + exists d. split; [apply list_elem_of_here|reflexivity].
Qed.

(** X18. [getCustomerLifetimeValue] reads the completed transactions of the one
    user: with none it returns zeros and no purchase dates; otherwise
    [firstPurchase] and [lastPurchase] are the dates of the earliest and the
    latest of them, every one of them lies between the two, and
    [totalSpent] is the sum of their amounts. *)
Theorem lifetime_value_of_completed_purchases (userId : string)
    (c : list SalesAnalytics.doc) :
  let clv := SalesAnalytics.getCustomerLifetimeValue userId c in
  let purchases :=
    Collection.find
      (fun d => String.eqb (SalesAnalytics.userId d) userId
                && String.eqb (SalesAnalytics.status d) "completed") c in
  SalesAnalytics.totalSpent clv
  = Collection.sum (fun d => Some (SalesAnalytics.amount d)) purchases
  /\ SalesAnalytics.clv_transactionCount clv
     = inject_Z (Z.of_nat (length purchases))
  /\ match SalesAnalytics.firstPurchase clv, SalesAnalytics.lastPurchase clv with
     | Some first, Some last =>
         (forall d, d ∈ purchases ->
            first <= SalesAnalytics.createdAt d <= last)
         /\ (exists d, d ∈ purchases /\ SalesAnalytics.createdAt d = first)
         /\ (exists d, d ∈ purchases /\ SalesAnalytics.createdAt d = last)
     | None, None =>
         purchases = [] /\ SalesAnalytics.avgOrderValue clv = JS.Num 0
     | _, _ => False
     end.
Proof.
  intros clv purchases. subst clv.
  unfold SalesAnalytics.getCustomerLifetimeValue.
  assert (Hfind :
    Collection.find (SalesAnalytics.satisfies (SalesAnalytics.CLV_matchStage userId))
      c = purchases).
  { subst purchases. unfold Collection.find. apply filter_ext. intros d.
    unfold SalesAnalytics.satisfies. simpl. by rewrite !andb_true_r. }
  rewrite Hfind. clear Hfind.
  pose proof (min_max_createdAt purchases) as H.
  clearbody purchases. destruct purchases as [|d ds]; [done|].
  unfold Collection.group_null.
  cbn [SalesAnalytics.totalSpent SalesAnalytics.clv_transactionCount
       SalesAnalytics.firstPurchase SalesAnalytics.lastPurchase].
  split; [reflexivity|]. split; [apply count_all|].
  destruct (SalesAnalytics.min_createdAt (d :: ds)),
           (SalesAnalytics.max_createdAt (d :: ds)); try done.
Qed.

(** ** Grouping by a composite id *)

Lemma filter_fmap {A B : Type} (f : A -> B) (p : B -> bool) (l : list A) :
  List.filter p (f <$> l) = f <$> List.filter (fun x => p (f x)) l.
Proof.
  induction l as [|x l IH]; [reflexivity|].
  rewrite fmap_cons. simpl. destruct (p (f x)); by rewrite IH.
Qed.

Section KeyGrouping.
Context {A K : Type} `{EqDecision K}.

Lemma distinct_keys_elem (l : list K) (k : K) :
  k ∈ Collection.distinct_keys l <-> k ∈ l.
Proof.
  induction l as [|k' l IH]; simpl; [reflexivity|].
  rewrite !elem_of_cons, elem_of_List_filter, IH.
  destruct (bool_decide_reflect (k = k')) as [->|Hne]; simpl.
  - split; [by left|intros _; by left].
  - split; [intros [?|[? _]]; [by left|by right]|].
    intros [?|?]; [by left|by right].
Qed.

Lemma distinct_keys_NoDup (l : list K) : NoDup (Collection.distinct_keys l).
Proof.
  induction l as [|k l IH]; simpl; [constructor|].
  constructor.
  - rewrite elem_of_List_filter, bool_decide_eq_true_2 by reflexivity.
    simpl. intros [_ [=]].
  - eapply sublist_NoDup; [exact IH|apply filter_sublist].
Qed.

Lemma group_by_key_fmap (key : A -> K) (l : list A) :
  Collection.group_by_key key l
  = (fun k => (k, List.filter (fun d => bool_decide (key d = k)) l))
    <$> Collection.distinct_keys (key <$> l).
Proof. reflexivity. Qed.

Lemma group_by_key_keys (key : A -> K) (l : list A) :
  fst <$> Collection.group_by_key key l = Collection.distinct_keys (key <$> l).
Proof.
  rewrite group_by_key_fmap, <- list_fmap_compose. apply list_fmap_id.
Qed.

Lemma group_by_key_NoDup (key : A -> K) (l : list A) :
  NoDup (fst <$> Collection.group_by_key key l).
Proof. rewrite group_by_key_keys. apply distinct_keys_NoDup. Qed.

Lemma group_by_key_elem (key : A -> K) (l : list A) (g : K * list A) :
  g ∈ Collection.group_by_key key l <->
  (exists d, d ∈ l /\ key d = fst g)
  /\ snd g = List.filter (fun d => bool_decide (key d = fst g)) l.
Proof.
  rewrite group_by_key_fmap, list_elem_of_fmap. split.
  - intros (k & -> & Hk). simpl. split; [|reflexivity].
    apply (proj1 (distinct_keys_elem _ _)) in Hk.
    apply (proj1 (list_elem_of_fmap _ _ _)) in Hk as (d & -> & Hd).
    by exists d.
  - intros [(d & Hd & Hkey) Hg]. exists (fst g). split.
    + destruct g as [k ds]. simpl in *. by rewrite Hg.
    + apply distinct_keys_elem, list_elem_of_fmap. by exists d.
Qed.

Lemma group_by_key_nonempty (key : A -> K) (l : list A) (g : K * list A) :
  g ∈ Collection.group_by_key key l -> (0 < length (snd g))%nat.
Proof.
  intros [(d & Hd & Hkey) ->]%group_by_key_elem.
  apply (filter_nonempty _ _ d Hd). by apply bool_decide_eq_true_2.
Qed.

Lemma group_by_key_covers (key : A -> K) (l : list A) (d : A) :
  d ∈ l ->
  (key d, List.filter (fun d' => bool_decide (key d' = key d)) l)
  ∈ Collection.group_by_key key l.
Proof.
  intros Hd. apply group_by_key_elem. split; [by exists d|reflexivity].
Qed.

Lemma sum_over_key_list (key : A -> K) (f : A -> option Q) (ks : list K)
    (l : list A) :
  NoDup ks -> (forall d, d ∈ l -> key d ∈ ks) ->
  (Collection.sum
     (fun k => Some (Collection.sum f
                       (List.filter (fun d => bool_decide (key d = k)) l))) ks
   == Collection.sum f l)%Q.
Proof.
  intros Hks. induction l as [|d l IH]; intros Hl.
  - simpl. clear. induction ks as [|k ks IH]; [reflexivity|].
    rewrite sum_cons, IH. reflexivity.
  - specialize (IH (fun x Hx => Hl x (list_elem_of_further _ _ _ Hx))).
    pose proof (Hl d (list_elem_of_here _ _)) as Hd.
    set (w := match f d with Some q => q | None => 0%Q end).
    assert (Hsum : (Collection.sum f (d :: l) == w + Collection.sum f l)%Q).
    { rewrite sum_cons. subst w. destruct (f d); [reflexivity|ring]. }
    rewrite Hsum, <- IH. clear IH Hsum Hl.
    induction Hks as [|k ks Hk _ IHks].
    + by apply elem_of_nil in Hd.
    + rewrite !sum_cons. simpl List.filter.
      destruct (bool_decide_reflect (key d = k)) as [<-|Hne].
      * rewrite sum_cons. fold w.
        assert (Hrest :
          (Collection.sum
             (fun k => Some (Collection.sum f
                  (List.filter (fun d0 => bool_decide (key d0 = k)) (d :: l))))
             ks
           == Collection.sum
                (fun k => Some (Collection.sum f
                  (List.filter (fun d0 => bool_decide (key d0 = k)) l))) ks)%Q).
        { apply sum_ext. intros k' Hk'. simpl.
          destruct (bool_decide_reflect (key d = k')) as [<-|_];
            [done|reflexivity]. }
        rewrite Hrest.
        transitivity
          (w + (Collection.sum f
                  (List.filter (fun d0 => bool_decide (key d0 = key d)) l)
                + Collection.sum
                    (fun k => Some (Collection.sum f
                       (List.filter (fun d0 => bool_decide (key d0 = k)) l)))
                    ks))%Q;
          [|reflexivity].
        subst w. destruct (f d); ring.
      * apply elem_of_cons in Hd as [Hd|Hd]; [done|].
        rewrite (IHks Hd). ring.
Qed.

(** The groups whose id is selected by [q] add up to the documents whose
    id is selected by [q]. *)
Lemma sum_over_selected_keys (key : A -> K) (q : K -> bool)
    (f : A -> option Q) (l : list A) :
  (Collection.sum
     (fun k => Some (Collection.sum f
                       (List.filter (fun d => bool_decide (key d = k)) l)))
     (List.filter q (Collection.distinct_keys (key <$> l)))
   == Collection.sum f (List.filter (fun d => q (key d)) l))%Q.
Proof.
  transitivity
    (Collection.sum
       (fun k => Some (Collection.sum f
                         (List.filter (fun d => bool_decide (key d = k))
                            (List.filter (fun d => q (key d)) l))))
       (List.filter q (Collection.distinct_keys (key <$> l)))).
  - apply sum_ext. intros k [_ Hq]%elem_of_List_filter.
    assert (E : List.filter (fun d => bool_decide (key d = k))
                  (List.filter (fun d => q (key d)) l)
                = List.filter (fun d => bool_decide (key d = k)) l).
    { rewrite filter_filter. apply filter_ext. intros d.
      destruct (bool_decide_reflect (key d = k)) as [->|_];
        [by rewrite Hq|apply andb_false_r]. }
    by rewrite E.
  - apply sum_over_key_list.
    + eapply sublist_NoDup; [apply distinct_keys_NoDup|apply filter_sublist].
    + intros d [Hd Hq]%elem_of_List_filter. apply elem_of_List_filter.
      split; [|assumption].
      apply distinct_keys_elem. by apply list_elem_of_fmap_2.
Qed.

End KeyGrouping.

Lemma sum_ones {A : Type} (l : list A) :
  (Collection.sum (fun _ => Some 1%Q) l == inject_Z (Z.of_nat (length l)))%Q.
Proof.
  rewrite <- count_all.
  symmetry. apply (count_as_sum (fun _ => true)).
Qed.

Lemma avg_of_required {A : Type} (f : A -> Q) (l : list A) :
  l <> [] ->
  Collection.avg (fun d => Some (f d)) l
  = JS.Num (Collection.sum (fun d => Some (f d)) l
            / inject_Z (Z.of_nat (length l))).
Proof.
  intros Hl. unfold Collection.avg.
  rewrite forallb_filter_id.
  - by destruct l.
  - apply forallb_forall. intros d _. by apply bool_decide_eq_true_2.
Qed.

Lemma nonempty_length {A : Type} (l : list A) : (0 < length l)%nat -> l <> [].
Proof. destruct l; simpl; [lia|done]. Qed.

Lemma error_share_bounds {A : Type} (p : A -> bool) (l : list A) :
  (0 < length l)%nat ->
  (0 <= Collection.count p l / Collection.count (fun _ => true) l * 100
   <= 100)%Q.
Proof.
  intros Hl. apply percentage_bounds.
  - apply count_nonneg.
  - apply count_le_all.
  - rewrite count_all. change 0%Q with (inject_Z 0). rewrite <- Zlt_Qlt. lia.
Qed.

(** ** The statistics of the endpoints *)

(** The counts of the first stage of [getErrorRates] over the ids selected
    by [q] add up to the number of requests whose id is selected by [q]. *)
Lemma status_counts_sum (m : list PerformanceMetrics.doc)
    (q : PerformanceMetrics.StatusId.t -> bool) :
  (Collection.sum (fun s => Some (PerformanceMetrics.StatusCount.count s))
     (List.filter (fun s => q (PerformanceMetrics.StatusCount._id s))
        (PerformanceMetrics.statusCount
         <$> Collection.group_by_key PerformanceMetrics.status_of m))
   == inject_Z
        (Z.of_nat
           (length
              (List.filter (fun d => q (PerformanceMetrics.status_of d)) m))))%Q.
Proof.
  rewrite group_by_key_fmap, <- list_fmap_compose, filter_fmap, sum_fmap.
  simpl.
  rewrite <- sum_ones.
  rewrite <- (sum_over_selected_keys PerformanceMetrics.status_of q
                (fun _ => Some 1%Q) m).
  apply sum_ext. intros k _. rewrite count_all. symmetry. apply sum_ones.
Qed.

(** What a row of [getErrorRates] says of the requests to its endpoint. *)
Lemma errorRate_row (m : list PerformanceMetrics.doc)
    (g : PerformanceMetrics.EndpointId.t * list PerformanceMetrics.StatusCount.t) :
  g ∈ Collection.group_by_key PerformanceMetrics.endpoint_of_count
        (PerformanceMetrics.statusCount
         <$> Collection.group_by_key PerformanceMetrics.status_of m) ->
  let ds :=
    List.filter
      (fun d => bool_decide (PerformanceMetrics.endpoint_of d = fst g)) m in
  (0 < length ds)%nat
  /\ (PerformanceMetrics.ErrorRate.totalRequests (PerformanceMetrics.errorRate g)
      == Collection.count (fun _ => true) ds)%Q
  /\ (PerformanceMetrics.ErrorRate.errorRate (PerformanceMetrics.errorRate g)
      == Collection.count (fun d => 400 <=? PerformanceMetrics.statusCode d) ds
         / Collection.count (fun _ => true) ds * 100)%Q.
Proof.
  intros [(s & Hs & Hkey) Hg]%group_by_key_elem ds.
  pose (q := fun k : PerformanceMetrics.StatusId.t =>
               bool_decide
                 ({| PerformanceMetrics.EndpointId.service :=
                       PerformanceMetrics.StatusId.service k;
                     PerformanceMetrics.EndpointId.endpoint :=
                       PerformanceMetrics.StatusId.endpoint k;
                     PerformanceMetrics.EndpointId.method :=
                       PerformanceMetrics.StatusId.method k |} = fst g)).
  assert (Htotal :
    (PerformanceMetrics.ErrorRate.totalRequests (PerformanceMetrics.errorRate g)
     == Collection.count (fun _ => true) ds)%Q).
  { unfold PerformanceMetrics.errorRate. simpl. rewrite Hg, count_all.
    exact (status_counts_sum m q). }
  split; [|split; [exact Htotal|]].
  - apply list_elem_of_fmap in Hs as (g1 & -> & Hg1).
    apply group_by_key_elem in Hg1 as [(d & Hd & Hd1) _].
    apply (filter_nonempty _ _ d Hd). apply bool_decide_eq_true_2.
    rewrite <- Hkey. unfold PerformanceMetrics.endpoint_of_count. simpl.
    rewrite <- Hd1. reflexivity.
  - assert (Herrors :
      (Collection.sum (fun e => Some (PerformanceMetrics.ErrorCount.count e))
         (List.filter
            (fun e => 400 <=? PerformanceMetrics.ErrorCount.statusCode e)
            (PerformanceMetrics.ErrorRate.errors (PerformanceMetrics.errorRate g)))
       == Collection.count
            (fun d => 400 <=? PerformanceMetrics.statusCode d) ds)%Q).
    { unfold PerformanceMetrics.errorRate. simpl.
      change (map ?f (snd g)) with (f <$> snd g).
      rewrite filter_fmap, sum_fmap. simpl. rewrite Hg, filter_filter.
      unfold Collection.count. subst ds. rewrite filter_filter.
      exact (status_counts_sum m
               (fun k => q k && (400 <=? PerformanceMetrics.StatusId.statusCode k))). }
    change (PerformanceMetrics.ErrorRate.errorRate (PerformanceMetrics.errorRate g))
      with (Collection.sum
              (fun e => Some (PerformanceMetrics.ErrorCount.count e))
              (List.filter
                 (fun e => 400 <=? PerformanceMetrics.ErrorCount.statusCode e)
                 (PerformanceMetrics.ErrorRate.errors
                    (PerformanceMetrics.errorRate g)))
            / PerformanceMetrics.ErrorRate.totalRequests
                (PerformanceMetrics.errorRate g) * 100)%Q.
    by rewrite Herrors, Htotal.
Qed.

Lemma status_of_split (d : PerformanceMetrics.doc)
    (k : PerformanceMetrics.StatusId.t) :
  PerformanceMetrics.status_of d = k <->
  PerformanceMetrics.endpoint_of d
  = {| PerformanceMetrics.EndpointId.service :=
         PerformanceMetrics.StatusId.service k;
       PerformanceMetrics.EndpointId.endpoint :=
         PerformanceMetrics.StatusId.endpoint k;
       PerformanceMetrics.EndpointId.method :=
         PerformanceMetrics.StatusId.method k |}
  /\ PerformanceMetrics.statusCode d = PerformanceMetrics.StatusId.statusCode k.
Proof.
  unfold PerformanceMetrics.status_of, PerformanceMetrics.endpoint_of.
  destruct k as [s e m code]. simpl. split.
  - intros [= -> -> -> ->]. done.
  - intros [[= -> -> ->] ->]. done.
Qed.

(** What the [errors] of a row of [getErrorRates] say of the requests to
    its endpoint. *)
Lemma errorRate_errors (m : list PerformanceMetrics.doc)
    (g : PerformanceMetrics.EndpointId.t * list PerformanceMetrics.StatusCount.t) :
  g ∈ Collection.group_by_key PerformanceMetrics.endpoint_of_count
        (PerformanceMetrics.statusCount
         <$> Collection.group_by_key PerformanceMetrics.status_of m) ->
  let ds :=
    List.filter
      (fun d => bool_decide (PerformanceMetrics.endpoint_of d = fst g)) m in
  NoDup (PerformanceMetrics.ErrorCount.statusCode
         <$> PerformanceMetrics.ErrorRate.errors (PerformanceMetrics.errorRate g))
  /\ forall e,
       e ∈ PerformanceMetrics.ErrorRate.errors (PerformanceMetrics.errorRate g) ->
       let same_status :=
         List.filter
           (fun d => bool_decide (PerformanceMetrics.statusCode d
                                  = PerformanceMetrics.ErrorCount.statusCode e))
           ds in
       (0 < length same_status)%nat
       /\ PerformanceMetrics.ErrorCount.count e
          = inject_Z (Z.of_nat (length same_status)).
Proof.
  intros [_ Hg]%group_by_key_elem ds.
  pose (q := fun k : PerformanceMetrics.StatusId.t =>
               bool_decide
                 ({| PerformanceMetrics.EndpointId.service :=
                       PerformanceMetrics.StatusId.service k;
                     PerformanceMetrics.EndpointId.endpoint :=
                       PerformanceMetrics.StatusId.endpoint k;
                     PerformanceMetrics.EndpointId.method :=
                       PerformanceMetrics.StatusId.method k |} = fst g)).
  pose (ks := List.filter q
                (Collection.distinct_keys (PerformanceMetrics.status_of <$> m))).
  pose (h := fun k : PerformanceMetrics.StatusId.t =>
               {| PerformanceMetrics.ErrorCount.statusCode :=
                    PerformanceMetrics.StatusId.statusCode k;
                  PerformanceMetrics.ErrorCount.count :=
                    Collection.count (fun _ => true)
                      (List.filter
                         (fun d => bool_decide (PerformanceMetrics.status_of d = k))
                         m) |}).
  assert (Herrors :
    PerformanceMetrics.ErrorRate.errors (PerformanceMetrics.errorRate g)
    = h <$> ks).
  { unfold PerformanceMetrics.errorRate. simpl.
    change (map ?f (snd g)) with (f <$> snd g).
    rewrite Hg, (group_by_key_fmap PerformanceMetrics.status_of m),
      <- !list_fmap_compose, filter_fmap, <- list_fmap_compose.
    reflexivity. }
  rewrite Herrors. clear Herrors.
  assert (Hks : forall k, k ∈ ks ->
            k ∈ PerformanceMetrics.status_of <$> m
            /\ {| PerformanceMetrics.EndpointId.service :=
                    PerformanceMetrics.StatusId.service k;
                  PerformanceMetrics.EndpointId.endpoint :=
                    PerformanceMetrics.StatusId.endpoint k;
                  PerformanceMetrics.EndpointId.method :=
                    PerformanceMetrics.StatusId.method k |} = fst g).
  { intros k [Hk Hq]%elem_of_List_filter. split.
    - by apply distinct_keys_elem.
    - apply bool_decide_eq_true_1 in Hq. exact Hq. }
  split.
  - rewrite <- list_fmap_compose.
    apply NoDup_fmap_2_strong.
    + intros k1 k2 Hk1 Hk2 Hcode. simpl in Hcode.
      destruct (Hks k1 Hk1) as [_ H1]. destruct (Hks k2 Hk2) as [_ H2].
      rewrite <- H2 in H1. destruct k1, k2. simpl in *.
      injection H1 as -> -> ->. by subst.
    + eapply sublist_NoDup; [apply distinct_keys_NoDup|apply filter_sublist].
  - intros e (k & -> & Hk)%list_elem_of_fmap. simpl.
    destruct (Hks k Hk) as [Hin Hproj].
    assert (E : List.filter
                  (fun d => bool_decide (PerformanceMetrics.statusCode d
                                         = PerformanceMetrics.StatusId.statusCode k))
                  ds
                = List.filter
                    (fun d => bool_decide (PerformanceMetrics.status_of d = k))
                    m).
    { subst ds. rewrite filter_filter. apply filter_ext. intros d.
      rewrite <- Hproj.
      destruct (bool_decide_reflect (PerformanceMetrics.status_of d = k))
        as [Hd|Hd].
      - apply status_of_split in Hd as [Hd1 Hd2].
        by rewrite !bool_decide_eq_true_2.
      - destruct (bool_decide_reflect
                    (PerformanceMetrics.endpoint_of d
                     = {| PerformanceMetrics.EndpointId.service :=
                            PerformanceMetrics.StatusId.service k;
                          PerformanceMetrics.EndpointId.endpoint :=
                            PerformanceMetrics.StatusId.endpoint k;
                          PerformanceMetrics.EndpointId.method :=
                            PerformanceMetrics.StatusId.method k |}))
          as [H1|_]; [|reflexivity].
        destruct (bool_decide_reflect
                    (PerformanceMetrics.statusCode d
                     = PerformanceMetrics.StatusId.statusCode k))
          as [H2|_]; [|reflexivity].
        exfalso. apply Hd. by apply status_of_split. }
    rewrite E. split; [|apply count_all].
    apply list_elem_of_fmap in Hin as (d & -> & Hd).
    apply (filter_nonempty _ _ d Hd). by apply bool_decide_eq_true_2.
Qed.

(** X19. [getErrorRates] counts the requests of each endpoint through two
    grouping stages: it has one row for every endpoint that a matching
    request went to and none else; the row's totalRequests is the number of
    matching requests to the endpoint, its errors list each status code
    once with the number of these requests answered with it, and its
    errorRate is the percentage of them answered with a status of 400 or
    more, a number from 0 to 100; the rows come by decreasing errorRate. *)
Theorem error_rates_count_requests (filters : PerformanceMetrics.Filters.t)
    (c : list PerformanceMetrics.doc) :
  let rows := PerformanceMetrics.getErrorRates filters c in
  let matching :=
    Collection.find
      (PerformanceMetrics.satisfies
         (PerformanceMetrics.service_matchStage filters)) c in
  let requests_to e :=
    Collection.find
      (fun d => bool_decide (PerformanceMetrics.endpoint_of d = e)) matching in
  NoDup (PerformanceMetrics.ErrorRate._id <$> rows)
  /\ (forall e, e ∈ PerformanceMetrics.ErrorRate._id <$> rows <->
                exists d, d ∈ matching /\ PerformanceMetrics.endpoint_of d = e)
  /\ (forall r, r ∈ rows ->
        let ds := requests_to (PerformanceMetrics.ErrorRate._id r) in
        (PerformanceMetrics.ErrorRate.totalRequests r
         == inject_Z (Z.of_nat (length ds)))%Q
        /\ (PerformanceMetrics.ErrorRate.errorRate r
            == Collection.count
                 (fun d => 400 <=? PerformanceMetrics.statusCode d) ds
               / inject_Z (Z.of_nat (length ds)) * 100)%Q
        /\ (0 <= PerformanceMetrics.ErrorRate.errorRate r <= 100)%Q
        /\ NoDup (PerformanceMetrics.ErrorCount.statusCode
                  <$> PerformanceMetrics.ErrorRate.errors r)
        /\ (forall e, e ∈ PerformanceMetrics.ErrorRate.errors r ->
              let same_status :=
                Collection.find
                  (fun d => bool_decide
                              (PerformanceMetrics.statusCode d
                               = PerformanceMetrics.ErrorCount.statusCode e))
                  ds in
              (0 < length same_status)%nat
              /\ PerformanceMetrics.ErrorCount.count e
                 = inject_Z (Z.of_nat (length same_status))))
  /\ (forall i j r r', (i < j)%nat -> rows !! i = Some r -> rows !! j = Some r' ->
        (PerformanceMetrics.ErrorRate.errorRate r'
         <= PerformanceMetrics.ErrorRate.errorRate r)%Q).
Proof.
  intros rows matching requests_to. subst rows requests_to.
  unfold PerformanceMetrics.getErrorRates. fold matching.
  change (map PerformanceMetrics.errorRate)
    with (fmap (M:=list) PerformanceMetrics.errorRate).
  change (map PerformanceMetrics.statusCount)
    with (fmap (M:=list) PerformanceMetrics.statusCount).
  set (groups := Collection.group_by_key PerformanceMetrics.endpoint_of_count _).
  assert (Hids : PerformanceMetrics.ErrorRate._id
                 <$> Collection.sort PerformanceMetrics.by_errorRate_desc
                       (PerformanceMetrics.errorRate <$> groups)
                 ≡ₚ fst <$> groups).
  { rewrite sort_perm, <- list_fmap_compose. reflexivity. }
  split; [|split; [|split]].
  - rewrite Hids. apply group_by_key_NoDup.
  - intros e. rewrite Hids. split.
    + intros (g & -> & Hg)%list_elem_of_fmap.
      apply group_by_key_elem in Hg as [(s & Hs & Hkey) _].
      apply list_elem_of_fmap in Hs as (g1 & -> & Hg1).
      apply group_by_key_elem in Hg1 as [(d & Hd & Hd1) _].
      exists d. split; [assumption|]. rewrite <- Hkey.
      unfold PerformanceMetrics.endpoint_of_count. simpl. by rewrite <- Hd1.
    + intros (d & Hd & <-).
      pose proof (group_by_key_covers PerformanceMetrics.status_of matching d Hd)
        as Hg1.
      apply (list_elem_of_fmap_2 PerformanceMetrics.statusCount) in Hg1.
      pose proof (group_by_key_covers PerformanceMetrics.endpoint_of_count
                    _ _ Hg1) as Hg.
      apply (list_elem_of_fmap_2 fst) in Hg. exact Hg.
  - intros r Hr. rewrite sort_perm in Hr.
    apply list_elem_of_fmap in Hr as (g & -> & Hg).
    change (PerformanceMetrics.ErrorRate._id (PerformanceMetrics.errorRate g))
      with (fst g).
    unfold Collection.find.
    destruct (errorRate_row matching g Hg) as (Hlen & Htotal & Hrate).
    destruct (errorRate_errors matching g Hg) as (Hcodes & Herrors).
    rewrite count_all in Htotal, Hrate.
    split; [exact Htotal|]. split; [exact Hrate|].
    split; [|split; [exact Hcodes|exact Herrors]].
    rewrite Hrate, <- count_all. by apply error_share_bounds.
  - intros i j r r' Hij Hi Hj. apply Qle_bool_iff.
    eapply (StronglySorted_lookup
              (fun a b => PerformanceMetrics.by_errorRate_desc a b = true));
      [|eassumption..].
    apply sort_sorted.
    + intros x y. apply Qle_bool_total.
    + intros x y z Hxy Hyz. unfold PerformanceMetrics.by_errorRate_desc in *.
      by eapply Qle_bool_trans.
Qed.

(** What a row of [getSlowestEndpoints] says of the requests to its
    endpoint. *)
Lemma slowEndpoint_row (m : list PerformanceMetrics.doc)
    (g : PerformanceMetrics.EndpointId.t * list PerformanceMetrics.doc) :
  g ∈ Collection.group_by_key PerformanceMetrics.endpoint_of m ->
  let ds :=
    List.filter
      (fun d => bool_decide (PerformanceMetrics.endpoint_of d = fst g)) m in
  (0 < length ds)%nat
  /\ PerformanceMetrics.SlowEndpoint.avgResponseTime
       (PerformanceMetrics.slowEndpoint g)
     = JS.Num (Collection.sum
                 (fun d => Some (PerformanceMetrics.responseTime d)) ds
               / inject_Z (Z.of_nat (length ds)))
  /\ PerformanceMetrics.SlowEndpoint.requestCount
       (PerformanceMetrics.slowEndpoint g)
     = inject_Z (Z.of_nat (length ds))
  /\ PerformanceMetrics.SlowEndpoint.errorCount
       (PerformanceMetrics.slowEndpoint g)
     = Collection.count (fun d => 400 <=? PerformanceMetrics.statusCode d) ds
  /\ PerformanceMetrics.SlowEndpoint.errorRate
       (PerformanceMetrics.slowEndpoint g)
     = (Collection.count (fun d => 400 <=? PerformanceMetrics.statusCode d) ds
        / Collection.count (fun _ => true) ds * 100)%Q.
Proof.
  intros Hg ds. pose proof (group_by_key_nonempty _ _ _ Hg) as Hlen.
  apply group_by_key_elem in Hg as [_ Hg]. fold ds in Hg.
  unfold PerformanceMetrics.slowEndpoint. simpl. rewrite Hg in *.
  split; [exact Hlen|]. split; [|split; [apply count_all|by split]].
  apply avg_of_required. by apply nonempty_length.
Qed.

Lemma sort_le_total (a b : Q) :
  JS.sort_le (JS.Num b) (JS.Num a) = false ->
  JS.sort_le (JS.Num a) (JS.Num b) = true.
Proof. apply Qle_bool_total. Qed.

(** X20. [getSlowestEndpoints] ranks the endpoints by the mean response time of
    the matching requests to them: it returns at most [limit] rows, no two
    for one endpoint and the slower first; a row carries the number of
    matching requests to its endpoint, of which there is at least one, their
    mean response time, the number of them answered with a status of 400 or
    more and its share in percent, from 0 to 100; and an endpoint that is
    left out is no slower than any endpoint listed. *)
Theorem slowest_endpoints_ranking (filters : PerformanceMetrics.Filters.t)
    (limit : Z) (c : list PerformanceMetrics.doc) :
  0 < limit ->
  let rows := PerformanceMetrics.getSlowestEndpoints filters limit c in
  let matching :=
    Collection.find
      (PerformanceMetrics.satisfies
         (PerformanceMetrics.service_matchStage filters)) c in
  let requests_to e :=
    Collection.find
      (fun d => bool_decide (PerformanceMetrics.endpoint_of d = e)) matching in
  let mean (ds : list PerformanceMetrics.doc) :=
    (Collection.sum (fun d => Some (PerformanceMetrics.responseTime d)) ds
     / inject_Z (Z.of_nat (length ds)))%Q in
  Z.of_nat (length rows) <= limit
  /\ NoDup (PerformanceMetrics.SlowEndpoint._id <$> rows)
  /\ (forall r, r ∈ rows ->
        let ds := requests_to (PerformanceMetrics.SlowEndpoint._id r) in
        (0 < length ds)%nat
        /\ PerformanceMetrics.SlowEndpoint.avgResponseTime r = JS.Num (mean ds)
        /\ PerformanceMetrics.SlowEndpoint.requestCount r
           = inject_Z (Z.of_nat (length ds))
        /\ PerformanceMetrics.SlowEndpoint.errorCount r
           = Collection.count
               (fun d => 400 <=? PerformanceMetrics.statusCode d) ds
        /\ (0 <= PerformanceMetrics.SlowEndpoint.errorRate r <= 100)%Q)
  /\ (forall i j r r', (i < j)%nat -> rows !! i = Some r -> rows !! j = Some r' ->
        (mean (requests_to (PerformanceMetrics.SlowEndpoint._id r'))
         <= mean (requests_to (PerformanceMetrics.SlowEndpoint._id r)))%Q)
  /\ (forall d r,
        d ∈ matching ->
        PerformanceMetrics.endpoint_of d
        ∉ PerformanceMetrics.SlowEndpoint._id <$> rows ->
        r ∈ rows ->
        (mean (requests_to (PerformanceMetrics.endpoint_of d))
         <= mean (requests_to (PerformanceMetrics.SlowEndpoint._id r)))%Q).
Proof.
  intros Hlimit rows matching requests_to mean. subst rows requests_to.
  unfold PerformanceMetrics.getSlowestEndpoints. fold matching.
  change (map PerformanceMetrics.slowEndpoint)
    with (fmap (M:=list) PerformanceMetrics.slowEndpoint).
  set (groups := Collection.group_by_key PerformanceMetrics.endpoint_of matching).
  set (ranked := Collection.sort PerformanceMetrics.by_avgResponseTime_desc
                   (PerformanceMetrics.slowEndpoint <$> groups)).
  unfold Collection.find.
  assert (Hrow : forall r, r ∈ ranked ->
            exists g, g ∈ groups /\ r = PerformanceMetrics.slowEndpoint g).
  { intros r Hr. subst ranked. rewrite sort_perm in Hr.
    apply list_elem_of_fmap in Hr as (g & -> & Hg). by exists g. }
  assert (Havg : forall r, r ∈ ranked ->
            PerformanceMetrics.SlowEndpoint.avgResponseTime r
            = JS.Num (mean (List.filter
                              (fun d => bool_decide
                                 (PerformanceMetrics.endpoint_of d
                                  = PerformanceMetrics.SlowEndpoint._id r))
                              matching))).
  { intros r (g & Hg & ->)%Hrow.
    by destruct (slowEndpoint_row matching g Hg) as (_ & -> & _). }
  assert (Hsorted : StronglySorted
                      (fun a b =>
                         PerformanceMetrics.by_avgResponseTime_desc a b = true)
                      ranked).
  { apply (sort_sorted_on _
             (fun r => exists q,
                PerformanceMetrics.SlowEndpoint.avgResponseTime r = JS.Num q)).
    - intros x y [a Ha] [b Hb].
      unfold PerformanceMetrics.by_avgResponseTime_desc. rewrite Ha, Hb.
      apply Qle_bool_total.
    - intros x y z [a Ha] [b Hb] [d Hd].
      unfold PerformanceMetrics.by_avgResponseTime_desc. rewrite Ha, Hb, Hd.
      simpl. intros Hxy Hyz. by eapply Qle_bool_trans.
    - apply Forall_forall. intros r (g & -> & Hg)%list_elem_of_fmap.
      destruct (slowEndpoint_row matching g Hg) as (_ & -> & _). by eexists. }
  assert (Hle : forall r r',
            r ∈ ranked -> r' ∈ ranked ->
            PerformanceMetrics.by_avgResponseTime_desc r r' = true ->
            (mean (List.filter
                     (fun d => bool_decide
                        (PerformanceMetrics.endpoint_of d
                         = PerformanceMetrics.SlowEndpoint._id r')) matching)
             <= mean (List.filter
                        (fun d => bool_decide
                           (PerformanceMetrics.endpoint_of d
                            = PerformanceMetrics.SlowEndpoint._id r)) matching))%Q).
  { intros r r' Hr Hr' H. unfold PerformanceMetrics.by_avgResponseTime_desc in H.
    rewrite (Havg r Hr), (Havg r' Hr') in H. by apply Qle_bool_iff. }
  unfold Collection.limit.
  split; [rewrite length_take; lia|].
  split.
  { eapply sublist_NoDup; [|apply fmap_sublist, sublist_take].
    subst ranked. rewrite sort_perm, <- list_fmap_compose.
    apply group_by_key_NoDup. }
  split.
  { intros r Hr%subseteq_take. destruct (Hrow r Hr) as (g & Hg & ->).
    destruct (slowEndpoint_row matching g Hg)
      as (Hlen & Hmean & Hcount & Herrors & Hrate).
    change (PerformanceMetrics.SlowEndpoint._id
              (PerformanceMetrics.slowEndpoint g)) with (fst g).
    split; [exact Hlen|]. split; [exact Hmean|]. split; [exact Hcount|].
    split; [exact Herrors|]. rewrite Hrate. by apply error_share_bounds. }
  split.
  { intros i j r r' Hij Hi Hj.
    pose proof (StronglySorted_take _ (Z.to_nat limit) _ Hsorted) as Hs.
    apply Hle.
    - eapply subseteq_take, list_elem_of_lookup_2, Hi.
    - eapply subseteq_take, list_elem_of_lookup_2, Hj.
    - exact (StronglySorted_lookup _ _ _ _ _ _ Hs Hij Hi Hj). }
  intros d r Hd Hout Hr.
  pose proof (group_by_key_covers PerformanceMetrics.endpoint_of matching d Hd)
    as Hg.
  fold groups in Hg.
  set (g := (PerformanceMetrics.endpoint_of d,
             List.filter
               (fun d' => bool_decide (PerformanceMetrics.endpoint_of d'
                                       = PerformanceMetrics.endpoint_of d))
               matching)) in Hg.
  assert (Hin : PerformanceMetrics.slowEndpoint g ∈ ranked).
  { subst ranked. rewrite sort_perm. by apply list_elem_of_fmap_2. }
  pose proof Hin as Hin'.
  rewrite <- (take_drop (Z.to_nat limit) ranked) in Hin, Hsorted.
  apply elem_of_app in Hin as [Hin|Hin].
  { exfalso. apply Hout.
    change (PerformanceMetrics.endpoint_of d)
      with (PerformanceMetrics.SlowEndpoint._id
              (PerformanceMetrics.slowEndpoint g)).
    by apply list_elem_of_fmap_2. }
  pose proof (StronglySorted_app_1_elem_of _ _ _ _ _ Hsorted Hr Hin) as H.
  apply (Hle r (PerformanceMetrics.slowEndpoint g)); [|assumption..].
  by apply subseteq_take in Hr.
Qed.

(** The theorem for the ten slowest endpoints of the sample measurements. *)
Lemma slowest_endpoints_ranking_witness :
  Z.of_nat
    (length (PerformanceMetrics.getSlowestEndpoints
               PerformanceMetrics.Filters.empty 10 Sample.measurements)) <= 10.
Proof.
  apply (slowest_endpoints_ranking PerformanceMetrics.Filters.empty 10
           Sample.measurements).
  lia.
Defined.

(** X21. [getErrorRates] and [getSlowestEndpoints] agree on an endpoint: given
    the same filters, their rows for it have the same number of requests
    and the same error rate. *)
Theorem error_rates_agree (filters : PerformanceMetrics.Filters.t)
    (limit : Z) (c : list PerformanceMetrics.doc)
    (r : PerformanceMetrics.ErrorRate.t) (r' : PerformanceMetrics.SlowEndpoint.t) :
  r ∈ PerformanceMetrics.getErrorRates filters c ->
  r' ∈ PerformanceMetrics.getSlowestEndpoints filters limit c ->
  PerformanceMetrics.ErrorRate._id r = PerformanceMetrics.SlowEndpoint._id r' ->
  (PerformanceMetrics.ErrorRate.totalRequests r
   == PerformanceMetrics.SlowEndpoint.requestCount r')%Q
  /\ (PerformanceMetrics.ErrorRate.errorRate r
      == PerformanceMetrics.SlowEndpoint.errorRate r')%Q.
Proof.
  unfold PerformanceMetrics.getErrorRates, PerformanceMetrics.getSlowestEndpoints,
    Collection.limit.
  set (matching := Collection.find _ c).
  intros Hr Hr'%subseteq_take. rewrite sort_perm in Hr. rewrite sort_perm in Hr'.
  apply list_elem_of_In, in_map_iff in Hr as (g & <- & Hg%list_elem_of_In).
  apply list_elem_of_In, in_map_iff in Hr' as (g' & <- & Hg'%list_elem_of_In).
  change (PerformanceMetrics.ErrorRate._id (PerformanceMetrics.errorRate g))
    with (fst g).
  change (PerformanceMetrics.SlowEndpoint._id (PerformanceMetrics.slowEndpoint g'))
    with (fst g').
  intros Hid.
  destruct (errorRate_row matching g Hg) as (_ & Htotal & Hrate).
  destruct (slowEndpoint_row matching g' Hg') as (_ & _ & Hcount & _ & Hrate').
  rewrite Htotal, Hrate, Hcount, Hrate', Hid, count_all. split; reflexivity.
Qed.

(** The theorem for the rows of [/pay] in the sample measurements. *)
Lemma error_rates_agree_witness :
  exists r r',
    head (PerformanceMetrics.getErrorRates PerformanceMetrics.Filters.empty
            Sample.measurements) = Some r
    /\ head (PerformanceMetrics.getSlowestEndpoints
               PerformanceMetrics.Filters.empty 10 Sample.measurements)
       = Some r'
    /\ (PerformanceMetrics.ErrorRate.errorRate r
        == PerformanceMetrics.SlowEndpoint.errorRate r')%Q.
Proof.
  destruct (head (PerformanceMetrics.getErrorRates
                    PerformanceMetrics.Filters.empty Sample.measurements))
    as [r|] eqn:E; [|vm_compute in E; discriminate E].
  destruct (head (PerformanceMetrics.getSlowestEndpoints
                    PerformanceMetrics.Filters.empty 10 Sample.measurements))
    as [r'|] eqn:E'; [|vm_compute in E'; discriminate E'].
  exists r, r'. split; [reflexivity|]. split; [reflexivity|].
  vm_compute in E, E'. injection E as <-. injection E' as <-.
  apply (error_rates_agree PerformanceMetrics.Filters.empty 10
           Sample.measurements).
  - vm_compute. apply list_elem_of_here.
  - vm_compute. apply list_elem_of_here.
  - reflexivity.
Defined.

(** ** Alerts *)

Lemma by_errorRate_avgResponseTime_desc_spec (x y : performance.Alert.t)
    (a b : Q) :
  performance.Alert.avgResponseTime x = JS.Num a ->
  performance.Alert.avgResponseTime y = JS.Num b ->
  performance.by_errorRate_avgResponseTime_desc x y = true <->
  (performance.Alert.errorRate y < performance.Alert.errorRate x)%Q
  \/ ((performance.Alert.errorRate x == performance.Alert.errorRate y)%Q
      /\ (b <= a)%Q).
Proof.
  intros Ha Hb. unfold performance.by_errorRate_avgResponseTime_desc.
  rewrite Ha, Hb. simpl.
  destruct (Qeq_bool _ _) eqn:E.
  - apply Qeq_bool_iff in E. rewrite Qle_bool_iff. split.
    + intros H. by right.
    + intros [H|[_ H]]; [|exact H]. rewrite E in H.
      by apply Qlt_irrefl in H.
  - apply Qeq_bool_neq in E. rewrite Qle_bool_iff. split.
    + intros H. left. apply Qle_lteq in H as [H|H]; [exact H|].
      exfalso. apply E. by symmetry.
    + intros [H|[H _]]; [by apply Qlt_le_weak|contradiction].
Qed.

Lemma parseFloat_or_spec (o : option Q) (fallback : Q) :
  match o with
  | Some x =>
      if Qeq_bool x 0 then performance.parseFloat_or o fallback = fallback
      else performance.parseFloat_or o fallback = x
  | None => performance.parseFloat_or o fallback = fallback
  end.
Proof.
  unfold performance.parseFloat_or, JS.truthy_num.
  destruct o as [x|]; [|reflexivity]. by destruct (Qeq_bool x 0).
Qed.

(** X22. GET /admin/alerts answers an admin only, and with thresholds that are
    never 0: a threshold the query leaves out or gives as 0 is replaced by
    5 percent and 2000 milliseconds. The alerts are the endpoints whose
    share of requests answered with a status of 400 or more reaches the
    first threshold or whose mean response time reaches the second, each
    once, with the higher error rate first. *)
Theorem alerts_follow_thresholds (ctx : Ctx) (query : performance.AlertsQuery.t)
    (c : list PerformanceMetrics.doc) (reply : performance.Alerts) :
  performance.get_admin_alerts ctx query c = Ok reply ->
  let errorRateThreshold :=
    performance.Thresholds.errorRate (performance.thresholds reply) in
  let responseTimeThreshold :=
    performance.Thresholds.responseTime (performance.thresholds reply) in
  let alert_of (d : PerformanceMetrics.doc) :=
    performance.alert
      (PerformanceMetrics.endpoint_of d,
       Collection.find
         (fun d' => bool_decide (PerformanceMetrics.endpoint_of d'
                                 = PerformanceMetrics.endpoint_of d)) c) in
  User.isAdmin (user ctx) = true
  /\ (0 < errorRateThreshold <= 100)%Q
  /\ (0 < responseTimeThreshold)%Q
  /\ match performance.AlertsQuery.errorRateThreshold query with
     | Some x => if Qeq_bool x 0 then errorRateThreshold = 5%Q
                 else errorRateThreshold = x
     | None => errorRateThreshold = 5%Q
     end
  /\ match performance.AlertsQuery.responseTimeThreshold query with
     | Some x => if Qeq_bool x 0 then responseTimeThreshold = 2000%Q
                 else responseTimeThreshold = x
     | None => responseTimeThreshold = 2000%Q
     end
  /\ NoDup (performance.Alert._id <$> performance.alerts reply)
  /\ (forall a, a ∈ performance.alerts reply <->
        exists d, d ∈ c /\ a = alert_of d
          /\ ((errorRateThreshold <= performance.Alert.errorRate a)%Q
              \/ exists mean,
                   performance.Alert.avgResponseTime a = JS.Num mean
                   /\ (responseTimeThreshold <= mean)%Q))
  /\ (forall a, a ∈ performance.alerts reply ->
        (0 <= performance.Alert.errorRate a <= 100)%Q)
  /\ (forall i j a a', (i < j)%nat ->
        performance.alerts reply !! i = Some a ->
        performance.alerts reply !! j = Some a' ->
        (performance.Alert.errorRate a' <= performance.Alert.errorRate a)%Q).
Proof.
  unfold performance.get_admin_alerts, auth.adminOnly.
  destruct (User.isAdmin (user ctx)); [|discriminate]. simpl.
  destruct (negb (performance.alerts_valid query)) eqn:Hvalid; [discriminate|].
  destruct (readFails ctx); [discriminate|].
  intros [= <-]. simpl.
  apply negb_false_iff, andb_true_iff in Hvalid as [He Ht].
  pose proof (parseFloat_or_spec
                (performance.AlertsQuery.errorRateThreshold query) 5) as HeS.
  pose proof (parseFloat_or_spec
                (performance.AlertsQuery.responseTimeThreshold query) 2000) as HtS.
  set (e := performance.parseFloat_or
              (performance.AlertsQuery.errorRateThreshold query) 5) in *.
  set (t := performance.parseFloat_or
              (performance.AlertsQuery.responseTimeThreshold query) 2000) in *.
  change (map performance.alert) with (fmap (M:=list) performance.alert).
  set (groups := Collection.group_by_key PerformanceMetrics.endpoint_of c).
  assert (Hrow : forall g, g ∈ groups ->
            exists d, d ∈ c
              /\ g = (PerformanceMetrics.endpoint_of d,
                      List.filter
                        (fun d' => bool_decide
                           (PerformanceMetrics.endpoint_of d'
                            = PerformanceMetrics.endpoint_of d)) c)).
  { intros [k ds] [(d & Hd & Hkey) Hg]%group_by_key_elem. simpl in *.
    exists d. split; [assumption|]. by rewrite Hkey, Hg. }
  assert (Havg : forall g, g ∈ groups ->
            exists mean, performance.Alert.avgResponseTime (performance.alert g)
                         = JS.Num mean).
  { intros g Hg. unfold performance.alert. simpl. eexists.
    apply avg_of_required, nonempty_length.
    by eapply group_by_key_nonempty. }
  assert (Hexceeds : forall a,
            performance.exceeds e t a = true <->
            (e <= performance.Alert.errorRate a)%Q
            \/ exists mean, performance.Alert.avgResponseTime a = JS.Num mean
                            /\ (t <= mean)%Q).
  { intros a. unfold performance.exceeds. rewrite orb_true_iff, Qle_bool_iff.
    unfold JS.gte_num. split.
    - intros [H|H]; [by left|right].
      destruct (performance.Alert.avgResponseTime a) as [|mean|]; try discriminate.
      exists mean. split; [reflexivity|]. by apply Qle_bool_iff.
    - intros [H|(mean & -> & H)]; [by left|right]. by apply Qle_bool_iff. }
  split; [reflexivity|].
  split.
  { destruct (performance.AlertsQuery.errorRateThreshold query) as [x|].
    - apply andb_true_iff in He as [H0 H100].
      apply Qle_bool_iff in H0, H100.
      destruct (Qeq_bool x 0) eqn:E; rewrite HeS; [done|].
      apply Qeq_bool_neq in E. split; [|assumption].
      apply Qle_lteq in H0 as [H0|H0]; [exact H0|].
      exfalso. apply E. by symmetry.
    - rewrite HeS. done. }
  split.
  { destruct (performance.AlertsQuery.responseTimeThreshold query) as [x|].
    - apply Qle_bool_iff in Ht.
      destruct (Qeq_bool x 0) eqn:E; rewrite HtS; [done|].
      apply Qeq_bool_neq in E.
      apply Qle_lteq in Ht as [Ht|Ht]; [exact Ht|].
      exfalso. apply E. by symmetry.
    - rewrite HtS. done. }
  split; [exact HeS|]. split; [exact HtS|].
  split.
  { rewrite sort_perm. unfold Collection.find.
    eapply sublist_NoDup; [|apply fmap_sublist, filter_sublist].
    rewrite <- list_fmap_compose. apply group_by_key_NoDup. }
  split.
  { intros a. rewrite sort_perm. unfold Collection.find.
    rewrite elem_of_List_filter, list_elem_of_fmap, Hexceeds. split.
    - intros [(g & -> & Hg) H]. destruct (Hrow g Hg) as (d & Hd & ->).
      by exists d.
    - intros (d & Hd & -> & H). split; [|exact H].
      eexists. split; [reflexivity|].
      by apply group_by_key_covers. }
  split.
  { intros a Ha. rewrite sort_perm in Ha. unfold Collection.find in Ha.
    apply elem_of_List_filter in Ha as [(g & -> & Hg)%list_elem_of_fmap _].
    unfold performance.alert. simpl.
    apply error_share_bounds. by eapply group_by_key_nonempty. }
  intros i j a a' Hij Hi Hj.
  set (P := fun a : performance.Alert.t =>
              exists mean, performance.Alert.avgResponseTime a = JS.Num mean).
  assert (Hs : StronglySorted
                 (fun a b =>
                    performance.by_errorRate_avgResponseTime_desc a b = true)
                 (Collection.sort performance.by_errorRate_avgResponseTime_desc
                    (Collection.find (performance.exceeds e t)
                       (performance.alert <$> groups)))).
  { apply (sort_sorted_on _ P).
    - intros x y [ax Hx] [ay Hy] H.
      apply (by_errorRate_avgResponseTime_desc_spec y x ay ax Hy Hx).
      destruct (Qlt_le_dec (performance.Alert.errorRate x)
                  (performance.Alert.errorRate y)) as [Hlt|Hle]; [by left|].
      apply Qle_lteq in Hle as [Hlt|Heq].
      + exfalso.
        assert (performance.by_errorRate_avgResponseTime_desc x y = true)
          by (apply (by_errorRate_avgResponseTime_desc_spec x y ax ay Hx Hy);
              by left).
        congruence.
      + right. split; [exact Heq|].
        destruct (Qlt_le_dec ay ax) as [Hlt|Hle]; [|exact Hle].
        exfalso.
        assert (performance.by_errorRate_avgResponseTime_desc x y = true).
        { apply (by_errorRate_avgResponseTime_desc_spec x y ax ay Hx Hy).
          right. split; [by symmetry|by apply Qlt_le_weak]. }
        congruence.
    - intros x y z [ax Hx] [ay Hy] [az Hz] Hxy Hyz.
      apply (by_errorRate_avgResponseTime_desc_spec x y ax ay Hx Hy) in Hxy.
      apply (by_errorRate_avgResponseTime_desc_spec y z ay az Hy Hz) in Hyz.
      apply (by_errorRate_avgResponseTime_desc_spec x z ax az Hx Hz).
      destruct Hxy as [Hxy|[Hxy Hxy']], Hyz as [Hyz|[Hyz Hyz']].
      + left. by eapply Qlt_trans.
      + left. by rewrite <- Hyz.
      + left. by rewrite Hxy.
      + right. split; [by rewrite Hxy|by eapply Qle_trans].
    - apply Forall_forall. intros x Hx. unfold Collection.find in Hx.
      apply elem_of_List_filter in Hx as [(g & -> & Hg)%list_elem_of_fmap _].
      by apply Havg. }
  pose proof (StronglySorted_lookup _ _ _ _ _ _ Hs Hij Hi Hj) as H.
  assert (Ha : P a).
  { apply list_elem_of_lookup_2 in Hi. rewrite sort_perm in Hi.
    unfold Collection.find in Hi.
    apply elem_of_List_filter in Hi as [(g & -> & Hg)%list_elem_of_fmap _].
    by apply Havg. }
  assert (Ha' : P a').
  { apply list_elem_of_lookup_2 in Hj. rewrite sort_perm in Hj.
    unfold Collection.find in Hj.
    apply elem_of_List_filter in Hj as [(g & -> & Hg)%list_elem_of_fmap _].
    by apply Havg. }
  destruct Ha as [m Hm], Ha' as [m' Hm'].
  apply (by_errorRate_avgResponseTime_desc_spec a a' m m' Hm Hm') in H.
  destruct H as [H|[H _]]; [by apply Qlt_le_weak|].
  rewrite H. apply Qle_refl.
Qed.

(** The theorem for the alerts an admin asks for over the sample
    measurements, with the error rate threshold given as 0. *)
Lemma alerts_follow_thresholds_witness :
  exists reply,
    performance.get_admin_alerts (Sample.call Sample.root 2000)
      {| performance.AlertsQuery.errorRateThreshold := Some 0%Q;
         performance.AlertsQuery.responseTimeThreshold := None |}
      Sample.measurements = Ok reply
    /\ (0 < performance.Thresholds.errorRate (performance.thresholds reply))%Q.
Proof.
  eexists. split; [vm_compute; reflexivity|].
  eapply (alerts_follow_thresholds (Sample.call Sample.root 2000)
            {| performance.AlertsQuery.errorRateThreshold := Some 0%Q;
               performance.AlertsQuery.responseTimeThreshold := None |}
            Sample.measurements).
  vm_compute. reflexivity.
Defined.

(** ** Top metrics *)

Lemma find_restricted {A : Type} (p q : A -> bool) (c : list A) :
  (forall d, p d = true -> q d = true) ->
  Collection.find p (Collection.find q c) = Collection.find p c.
Proof.
  intros H. unfold Collection.find. rewrite filter_filter.
  apply filter_ext. intros d. specialize (H d).
  destruct (p d), (q d); try reflexivity. by discriminate H.
Qed.

(** The [$match] stage [{ userId }] of the top-metrics pipelines, given
    the string of the request, lets no document through. *)
Lemma find_by_string_id {A : Type} (p : A -> bool) (c : list A) :
  (forall d, p d = false) -> Collection.find p c = [].
Proof.
  intros Hp. unfold Collection.find.
  induction c as [|d c IH]; [reflexivity|]. simpl. by rewrite Hp.
Qed.

(** X23. GET /top-metrics keeps a caller who is not an admin to their own
    records: the reply is the one the route gives over the caller's
    requests, events and measurements alone, it never carries the ranking
    of users or of revenue, and a valid query for one of these two is
    answered with 403. The rankings of models, features and endpoints
    that it does carry are empty, whatever the caller has stored: the
    pipelines match the stored ObjectId against the string of the
    request. *)
Theorem top_metrics_of_a_user (ctx : Ctx) (query : metrics.TopMetricsQuery.t)
    (c : metrics.Collections) :
  User.isAdmin (user ctx) = false ->
  let own :=
    {| metrics.aiRequests :=
         Collection.find
           (fun d => String.eqb (AIRequest.userId d) (User.id (user ctx)))
           (metrics.aiRequests c);
       metrics.userEngagement :=
         Collection.find
           (fun d => String.eqb (UserEngagement.userId d) (User.id (user ctx)))
           (metrics.userEngagement c);
       metrics.performanceMetrics :=
         Collection.find
           (fun d => bool_decide (PerformanceMetrics.userId d
                                  = Some (User.id (user ctx))))
           (metrics.performanceMetrics c);
       metrics.salesAnalytics :=
         Collection.find
           (fun d => String.eqb (SalesAnalytics.userId d) (User.id (user ctx)))
           (metrics.salesAnalytics c) |} in
  metrics.get_top_metrics ctx query c = metrics.get_top_metrics ctx query own
  /\ (forall reply,
        metrics.get_top_metrics ctx query c = Ok reply ->
        match metrics.topMetrics reply with
        | metrics.TopUsers _ | metrics.TopRevenue _ => False
        | _ => True
        end)
  /\ (metrics.top_metrics_valid query = true ->
      metrics.TopMetricsQuery.metric query = Some "users"
      \/ metrics.TopMetricsQuery.metric query = Some "revenue" ->
      metrics.get_top_metrics ctx query c = AccessDenied)
  /\ (forall reply,
        metrics.get_top_metrics ctx query c = Ok reply ->
        match metrics.topMetrics reply with
        | metrics.TopAIModels rows => rows = []
        | metrics.TopFeatures rows => rows = []
        | metrics.TopEndpoints rows => rows = []
        | _ => True
        end).
Proof.
  intros Hadmin own. unfold metrics.get_top_metrics. rewrite Hadmin.
  destruct (metrics.top_metrics_valid query); simpl;
    [|split; [reflexivity|split; [discriminate|split; discriminate]]].
  split; [|split; [|split]].
  - repeat (destruct (String.eqb _ _); [try reflexivity|]);
      try reflexivity.
    + destruct (readFails ctx); [reflexivity|]. do 3 f_equal.
      unfold metrics.getTopAIModels. subst own. simpl.
      by rewrite find_restricted.
    + destruct (readFails ctx); [reflexivity|]. do 3 f_equal.
      unfold metrics.getTopFeatures. subst own. simpl.
      rewrite find_restricted; [reflexivity|].
      intros d H. discriminate H.
    + destruct (readFails ctx); [reflexivity|]. do 3 f_equal.
      unfold metrics.getTopEndpoints. subst own. simpl.
      rewrite find_restricted; [reflexivity|].
      intros d H. by destruct (PerformanceMetrics.userId d).
  - intros reply.
    repeat (destruct (String.eqb _ _);
            [first [ intros H; discriminate H
                   | destruct (readFails ctx);
                     [intros H; discriminate H|intros [= <-]; exact I] ]|]).
    destruct (readFails ctx); [intros H; discriminate H|intros [= <-]; exact I].
  - intros _ [->| ->]; reflexivity.
  - intros reply.
    repeat (destruct (String.eqb _ _);
            [first [ intros H; discriminate H
                   | destruct (readFails ctx);
                     [intros H; discriminate H|intros [= <-]; simpl] ]|]).
    all: try (destruct (readFails ctx);
              [intros H; discriminate H|intros [= <-]; exact I]).
    + unfold metrics.getTopAIModels.
      rewrite (find_by_string_id _ (metrics.aiRequests c));
        [apply take_nil|reflexivity].
    + unfold metrics.getTopFeatures.
      rewrite (find_by_string_id _ (metrics.userEngagement c));
        [apply take_nil|reflexivity].
    + unfold metrics.getTopEndpoints.
      rewrite (find_by_string_id _ (metrics.performanceMetrics c));
        [apply take_nil|].
      intros d. by destruct (PerformanceMetrics.userId d).
Qed.

(** The theorem for alice, who is not an admin. *)
Lemma top_metrics_of_a_user_witness :
  metrics.get_top_metrics (Sample.call Sample.alice 2000)
    {| metrics.TopMetricsQuery.metric := Some "revenue";
       metrics.TopMetricsQuery.limit := None |}
    {| metrics.aiRequests := [Sample.request Sample.alice "r1" 1000];
       metrics.userEngagement := [Sample.happened Sample.bob "login" 1000];
       metrics.performanceMetrics := Sample.measurements;
       metrics.salesAnalytics := [] |}
  = AccessDenied.
Proof.
  apply (top_metrics_of_a_user (Sample.call Sample.alice 2000)
           {| metrics.TopMetricsQuery.metric := Some "revenue";
              metrics.TopMetricsQuery.limit := None |}).
  - reflexivity.
  - reflexivity.
  - by right.
Defined.

(** X24. [getTopAIModels] ranks the models by the number of requests in its
    scope, all requests or those whose user the id of the [$match] stage
    equals (those of one user for an ObjectId, none for a string): it
    returns at most [limit] rows, no two for one model and the more used
    first; a row carries the number of the requests to its model, of which
    there is at least one, and the sum of their costs; and a model that is
    left out has no more requests than any model listed. *)
Theorem top_models_ranking (userId : option JS.id) (limit : Z)
    (c : list AIRequest.doc) :
  0 < limit ->
  let top := metrics.getTopAIModels userId limit c in
  let requests_to (model : string) :=
    Collection.find
      (fun d => Collection.eq_id userId (AIRequest.userId d)
                && String.eqb (AIRequest.model d) model) c in
  Z.of_nat (length top) <= limit
  /\ NoDup (metrics.ModelUsage._id <$> top)
  /\ (forall r, r ∈ top ->
        (0 < length (requests_to (metrics.ModelUsage._id r)))%nat
        /\ metrics.ModelUsage.count r
           = inject_Z (Z.of_nat (length (requests_to (metrics.ModelUsage._id r))))
        /\ metrics.ModelUsage.totalCost r
           = Collection.sum (fun d => Some (AIRequest.cost d))
               (requests_to (metrics.ModelUsage._id r)))
  /\ (forall i j r r', (i < j)%nat -> top !! i = Some r -> top !! j = Some r' ->
        (metrics.ModelUsage.count r' <= metrics.ModelUsage.count r)%Q)
  /\ (forall d r,
        d ∈ c -> Collection.eq_id userId (AIRequest.userId d) = true ->
        AIRequest.model d ∉ metrics.ModelUsage._id <$> top ->
        r ∈ top ->
        (length (requests_to (AIRequest.model d))
         <= length (requests_to (metrics.ModelUsage._id r)))%nat).
Proof.
  intros Hlimit top requests_to. subst top.
  unfold metrics.getTopAIModels.
  set (scope := Collection.find
                  (fun d => Collection.eq_id userId (AIRequest.userId d)) c).
  set (row := fun g : string * list AIRequest.doc =>
         {| metrics.ModelUsage._id := fst g;
            metrics.ModelUsage.count := Collection.count (fun _ => true) (snd g);
            metrics.ModelUsage.avgDuration :=
              Collection.avg
                (fun d => inject_Z
                          <$> AIRequest.Performance.duration
                                (AIRequest.performance d)) (snd g);
            metrics.ModelUsage.totalCost :=
              Collection.sum (fun d => Some (AIRequest.cost d)) (snd g) |}).
  change (map row) with (fmap (M:=list) row).
  set (ranked := Collection.sort metrics.by_model_count_desc
                   (row <$> Collection.group_by AIRequest.model scope)).
  assert (Hof : forall model,
            List.filter (fun d => String.eqb (AIRequest.model d) model) scope
            = requests_to model).
  { intros model. subst scope requests_to. unfold Collection.find. simpl.
    apply filter_filter. }
  assert (Hrow : forall r, r ∈ ranked ->
            (0 < length (requests_to (metrics.ModelUsage._id r)))%nat
            /\ metrics.ModelUsage.count r
               = inject_Z
                   (Z.of_nat (length (requests_to (metrics.ModelUsage._id r))))
            /\ metrics.ModelUsage.totalCost r
               = Collection.sum (fun d => Some (AIRequest.cost d))
                   (requests_to (metrics.ModelUsage._id r))).
  { intros r Hr. subst ranked. rewrite sort_perm in Hr.
    apply list_elem_of_fmap in Hr as (g & -> & Hg).
    apply group_by_elem in Hg as [(d & Hd & Hkey) Hg]. simpl.
    rewrite Hg, Hof, count_all. split; [|by split].
    rewrite <- Hof. apply (filter_nonempty _ _ d Hd).
    rewrite Hkey. apply String.eqb_refl. }
  assert (Hsorted : StronglySorted
                      (fun a b => metrics.by_model_count_desc a b = true)
                      ranked).
  { apply sort_sorted.
    - intros x y. apply Qle_bool_total.
    - intros x y z Hxy Hyz. unfold metrics.by_model_count_desc in *.
      by eapply Qle_bool_trans. }
  unfold Collection.limit.
  split; [rewrite length_take; lia|].
  split.
  { eapply sublist_NoDup; [|apply fmap_sublist, sublist_take].
    subst ranked. rewrite sort_perm, <- list_fmap_compose.
    change (metrics.ModelUsage._id ∘ row) with (@fst string (list AIRequest.doc)).
    apply group_by_NoDup. }
  split; [intros r Hr%subseteq_take; by apply Hrow|].
  split.
  { intros i j r r' Hij Hi Hj. apply Qle_bool_iff.
    eapply (StronglySorted_lookup
              (fun a b => metrics.by_model_count_desc a b = true));
      [|eassumption..].
    by apply StronglySorted_take. }
  intros d r Hd Hscope Hout Hr.
  assert (Hds : d ∈ scope).
  { subst scope. unfold Collection.find. by apply elem_of_List_filter. }
  set (g := (AIRequest.model d,
             List.filter (fun d' => String.eqb (AIRequest.model d')
                                      (AIRequest.model d)) scope)).
  assert (Hg : row g ∈ ranked).
  { subst ranked. rewrite sort_perm. apply list_elem_of_fmap_2.
    apply group_by_elem. split; [by exists d|reflexivity]. }
  pose proof Hg as Hg'.
  rewrite <- (take_drop (Z.to_nat limit) ranked) in Hg, Hsorted.
  apply elem_of_app in Hg as [Hg|Hg].
  { exfalso. apply Hout.
    change (AIRequest.model d) with (metrics.ModelUsage._id (row g)).
    by apply list_elem_of_fmap_2. }
  pose proof (StronglySorted_app_1_elem_of _ _ _ _ _ Hsorted Hr Hg) as Hle.
  apply Qle_bool_iff in Hle.
  apply subseteq_take in Hr.
  destruct (Hrow r Hr) as (_ & Hcount & _).
  destruct (Hrow (row g) Hg') as (_ & Hcount' & _).
  rewrite Hcount, Hcount' in Hle. rewrite <- Zle_Qle in Hle.
  change (metrics.ModelUsage._id (row g)) with (AIRequest.model d) in Hle.
  lia.
Qed.

(** The theorem for the three models alice used most. *)
Lemma top_models_ranking_witness :
  Z.of_nat
    (length (metrics.getTopAIModels (Some (JS.ObjectId "alice")) 3
               [Sample.request Sample.alice "r1" 1000;
                Sample.request Sample.bob "r2" 1500])) <= 3.
Proof.
  apply (top_models_ranking (Some (JS.ObjectId "alice")) 3
           [Sample.request Sample.alice "r1" 1000;
            Sample.request Sample.bob "r2" 1500]).
  lia.
Defined.

(** ** Engagement *)

Lemma distinct_length_le (l : list string) :
  (length (Collection.distinct l) <= length l)%nat.
Proof.
  induction l as [|k l IH]; simpl; [lia|].
  pose proof (filter_length_le
                (fun k' => negb (String.eqb k' k)) (Collection.distinct l)).
  lia.
Qed.

Lemma distinct_nonempty (l : list string) :
  l <> [] -> (0 < length (Collection.distinct l))%nat.
Proof. destruct l; [done|]. simpl. lia. Qed.

Lemma size_of_set_bounds (l : list string) :
  l <> [] ->
  (1 <= UserEngagement.size_of_set l <= inject_Z (Z.of_nat (length l)))%Q.
Proof.
  intros Hl. unfold UserEngagement.size_of_set.
  change 1%Q with (inject_Z 1). rewrite <- !Zle_Qle.
  pose proof (distinct_length_le l). pose proof (distinct_nonempty l Hl). lia.
Qed.

(** X25. [getEventDistribution] splits the matching events by event name: no
    name has two rows, the counts of the rows add up to the number of
    matching events, each row counts the matching events of its name, and
    its uniqueUsers is at least 1 and at most its count; the rows come by
    decreasing count. When the filters name a user there is no row at all:
    the stage matches the stored ObjectId against the string. *)
Theorem event_distribution_partitions (filters : UserEngagement.Filters.t)
    (c : list UserEngagement.doc) :
  let rows := UserEngagement.getEventDistribution filters c in
  let matching :=
    Collection.find
      (UserEngagement.satisfies (UserEngagement.distribution_matchStage filters))
      c in
  NoDup (UserEngagement.EventCount._id <$> rows)
  /\ (Collection.sum (fun r => Some (UserEngagement.EventCount.count r)) rows
      == inject_Z (Z.of_nat (length matching)))%Q
  /\ (forall r, r ∈ rows ->
        UserEngagement.EventCount.event r = UserEngagement.EventCount._id r
        /\ UserEngagement.EventCount.count r
           = inject_Z
               (Z.of_nat
                  (length
                     (Collection.find
                        (fun d => String.eqb (UserEngagement.event d)
                                    (UserEngagement.EventCount._id r))
                        matching)))
        /\ (1 <= UserEngagement.EventCount.uniqueUsers r
            <= UserEngagement.EventCount.count r)%Q)
  /\ (forall i j r r', (i < j)%nat -> rows !! i = Some r -> rows !! j = Some r' ->
        (UserEngagement.EventCount.count r'
         <= UserEngagement.EventCount.count r)%Q)
  /\ (forall u, UserEngagement.Filters.userId filters = Some u -> u <> "" ->
        rows = []).
Proof.
  intros rows matching. subst rows.
  unfold UserEngagement.getEventDistribution. fold matching.
  change (map UserEngagement.eventCount)
    with (fmap (M:=list) UserEngagement.eventCount).
  split; [|split; [|split; [|split]]].
  - rewrite sort_perm, <- list_fmap_compose. apply group_by_NoDup.
  - rewrite (sum_perm _ _ _ (sort_perm _ _)), sum_fmap. simpl.
    transitivity
      (Collection.sum
         (fun g : string * list UserEngagement.doc =>
            Some (Collection.sum (fun _ => Some 1%Q) (snd g)))
         (Collection.group_by UserEngagement.event matching)).
    + apply sum_ext. intros g _. rewrite count_all. symmetry. apply sum_ones.
    + etransitivity; [apply sum_group_by|apply sum_ones].
  - intros r Hr. rewrite sort_perm in Hr.
    apply list_elem_of_fmap in Hr as (g & -> & Hg).
    apply group_by_elem in Hg as [(d & Hd & Hkey) Hg].
    unfold UserEngagement.eventCount. simpl. rewrite Hg, count_all.
    set (ds := List.filter _ matching).
    assert (Hds : d ∈ ds).
    { subst ds. apply elem_of_List_filter. split; [assumption|].
      rewrite Hkey. apply String.eqb_refl. }
    assert (Hne : map UserEngagement.userId ds <> []).
    { destruct ds; [by apply elem_of_nil in Hds|done]. }
    pose proof (size_of_set_bounds _ Hne) as Hsize.
    rewrite length_map in Hsize.
    split; [reflexivity|]. split; [reflexivity|]. exact Hsize.
  - intros i j r r' Hij Hi Hj. apply Qle_bool_iff.
    eapply (StronglySorted_lookup
              (fun a b => UserEngagement.by_count_desc a b = true));
      [|eassumption..].
    apply sort_sorted.
    + intros x y. apply Qle_bool_total.
    + intros x y z Hxy Hyz. unfold UserEngagement.by_count_desc in *.
      by eapply Qle_bool_trans.
  - intros u Hu Hnonempty.
    assert (Hnone : matching = []).
    { subst matching. apply find_by_string_id. intros d.
      unfold UserEngagement.satisfies, UserEngagement.distribution_matchStage.
      cbn [UserEngagement.MatchStage.userId]. rewrite Hu.
      unfold UserEngagement.if_truthy, JS.truthy, JS.truthy_str.
      destruct (String.eqb_spec u ""); [contradiction|]. reflexivity. }
    rewrite Hnone. reflexivity.
Qed.

(** X26. In the result of [getEngagementStats] the numbers of unique users and
    of unique sessions never exceed the number of events, and they are at
    least 1 as soon as one event matches. *)
Theorem engagement_unique_counts (filters : UserEngagement.Filters.t)
    (c : list UserEngagement.doc) :
  exists totalEvents uniqueUsers uniqueSessions : Q,
    UserEngagement.getEngagementStats filters c !! "totalEvents"
    = Some (JS.Num totalEvents)
    /\ UserEngagement.getEngagementStats filters c !! "uniqueUsers"
       = Some (JS.Num uniqueUsers)
    /\ UserEngagement.getEngagementStats filters c !! "uniqueSessions"
       = Some (JS.Num uniqueSessions)
    /\ (totalEvents
        == inject_Z
             (Z.of_nat
                (length
                   (Collection.find
                      (UserEngagement.satisfies
                         (UserEngagement.matchStage filters)) c))))%Q
    /\ (uniqueUsers <= totalEvents)%Q
    /\ (uniqueSessions <= totalEvents)%Q
    /\ ((0 < totalEvents)%Q -> (1 <= uniqueUsers)%Q /\ (1 <= uniqueSessions)%Q).
Proof.
  unfold UserEngagement.getEngagementStats.
  destruct (Collection.find _ c) as [|d ds].
  - exists 0%Q, 0%Q, 0%Q. simpl.
    split; [reflexivity|]. split; [reflexivity|]. split; [reflexivity|].
    split; [reflexivity|]. split; [apply Qle_refl|]. split; [apply Qle_refl|].
    intros H. by apply Qlt_irrefl in H.
  - cbv beta iota delta [Collection.group_null].
    set (m := d :: ds).
    assert (Hm : m <> []) by done.
    clearbody m.
    exists (Collection.count (fun _ => true) m),
           (UserEngagement.size_of_set (map UserEngagement.userId m)),
           (UserEngagement.size_of_set (map UserEngagement.sessionId m)).
    unfold UserEngagement.stats_group. unfold_object.
    split; [by repeat (rewrite lookup_insert_ne by discriminate);
            rewrite lookup_insert_eq|].
    split; [by repeat (rewrite lookup_insert_ne by discriminate);
            rewrite lookup_insert_eq|].
    split; [by repeat (rewrite lookup_insert_ne by discriminate);
            rewrite lookup_insert_eq|].
    rewrite count_all.
    assert (Hu : map UserEngagement.userId m <> []) by by destruct m.
    assert (Hs : map UserEngagement.sessionId m <> []) by by destruct m.
    pose proof (size_of_set_bounds _ Hu) as Hub.
    pose proof (size_of_set_bounds _ Hs) as Hsb.
    rewrite length_map in Hub, Hsb.
    split; [reflexivity|]. split; [apply Hub|]. split; [apply Hsb|].
    intros _. split; [apply Hub|apply Hsb].
Qed.

(** ** Counts of the statistics *)

Lemma count_or {A : Type} (p q : A -> bool) (l : list A) :
  (forall x, p x && q x = false) ->
  (Collection.count p l + Collection.count q l
   == Collection.count (fun x => p x || q x) l)%Q.
Proof.
  intros Hpq. unfold Collection.count.
  rewrite <- inject_Z_plus, <- Nat2Z.inj_add.
  apply inject_Z_injective. f_equal.
  induction l as [|x l IH]; simpl; [reflexivity|].
  specialize (Hpq x). destruct (p x), (q x); simpl in *; try discriminate; lia.
Qed.

Lemma count_ext {A : Type} (p q : A -> bool) (l : list A) :
  (forall x, p x = q x) -> Collection.count p l = Collection.count q l.
Proof.
  intros H. unfold Collection.count. by rewrite (filter_ext p q H).
Qed.

Lemma different_status (s a b : string) :
  a <> b -> String.eqb s a && String.eqb s b = false.
Proof.
  intros Hab. destruct (String.eqb_spec s a) as [->|_]; [|reflexivity].
  simpl. by apply String.eqb_neq.
Qed.

(** X27. The counts in the statistics are counts of the same documents: of the
    performance samples every one is either a success or an error, so that
    successCount and errorCount add up to totalRequests; of the AI
    requests some are neither completed nor failed, and of the
    transactions some are neither completed, failed nor refunded, so that
    the counts by status add up to at most the total. *)
Theorem stats_counts_add_up
    (percentile : Q -> list Q -> JS.value)
    (fa : AIRequest.Filters.t) (ca : list AIRequest.doc)
    (fs : SalesAnalytics.Filters.t) (cs : list SalesAnalytics.doc)
    (fp : PerformanceMetrics.Filters.t) (cp : list PerformanceMetrics.doc) :
  let ai := AIRequest.getStats fa ca in
  let sales := SalesAnalytics.getSalesStats fs cs in
  let perf := PerformanceMetrics.getPerformanceStats percentile fp cp in
  (metrics.number_or_zero perf "successCount"
   + metrics.number_or_zero perf "errorCount"
   == metrics.number_or_zero perf "totalRequests")%Q
  /\ (metrics.number_or_zero ai "successCount"
      + metrics.number_or_zero ai "failureCount"
      <= metrics.number_or_zero ai "totalRequests")%Q
  /\ (metrics.number_or_zero sales "successfulTransactions"
      + metrics.number_or_zero sales "failedTransactions"
      + metrics.number_or_zero sales "refundedTransactions"
      <= metrics.number_or_zero sales "totalTransactions")%Q.
Proof.
  intros ai sales perf. subst ai sales perf. split; [|split].
  - unfold PerformanceMetrics.getPerformanceStats.
    destruct (Collection.find _ cp) as [|d ds]; [reflexivity|].
    cbv beta iota delta [Collection.group_null].
    unfold metrics.number_or_zero, PerformanceMetrics.stats_group.
    unfold_object.
    repeat (rewrite lookup_insert_ne by discriminate; try rewrite lookup_insert_eq).
    rewrite count_or by (intros x; destruct (Z.ltb_spec (PerformanceMetrics.statusCode x) 400),
                                     (Z.leb_spec 400 (PerformanceMetrics.statusCode x));
                         simpl; try reflexivity; lia).
    erewrite count_ext; [reflexivity|].
    intros x. simpl.
    destruct (Z.ltb_spec (PerformanceMetrics.statusCode x) 400),
             (Z.leb_spec 400 (PerformanceMetrics.statusCode x));
      simpl; try reflexivity; lia.
  - unfold AIRequest.getStats.
    destruct (Collection.find _ ca) as [|d ds]; [discriminate|].
    cbv beta iota delta [Collection.group_null].
    unfold metrics.number_or_zero, AIRequest.stats_group.
    unfold_object.
    repeat (rewrite lookup_insert_ne by discriminate; try rewrite lookup_insert_eq).
    rewrite count_or by (intros x; by apply different_status).
    apply count_le_all.
  - unfold SalesAnalytics.getSalesStats.
    destruct (Collection.find _ cs) as [|d ds]; [discriminate|].
    cbv beta iota delta [Collection.group_null].
    unfold metrics.number_or_zero, SalesAnalytics.salesStats_group.
    unfold_object.
    repeat (rewrite lookup_insert_ne by discriminate; try rewrite lookup_insert_eq).
    rewrite count_or by (intros x; by apply different_status).
    rewrite count_or.
    + apply count_le_all.
    + intros x. rewrite andb_orb_distrib_l, !different_status by done.
      reflexivity.
Qed.

(** ** Stored requests stay well formed *)

(** X28. Every record that POST /track or PUT /update/:requestId writes passes
    the validators of the schema and has tokens.total equal to the sum of
    its two counts: if this holds of the stored records before a call, it
    holds after it. *)
Theorem stored_requests_stay_well_formed (ctx : Ctx) (s : State) :
  let well_formed (d : AIRequest.doc) :=
    AIRequest.schema_valid d = true
    /\ AIRequest.Tokens.total (AIRequest.tokens d)
       = Some (JS.or_zero (AIRequest.Tokens.input (AIRequest.tokens d))
               + JS.or_zero (AIRequest.Tokens.output (AIRequest.tokens d))) in
  Forall well_formed (aiRequests s) ->
  (forall body,
     Forall well_formed (aiRequests (snd (aiTracking.post_track ctx body s))))
  /\ (forall requestId body,
        Forall well_formed
          (aiRequests (snd (aiTracking.put_update ctx requestId body s)))).
Proof.
  intros well_formed Hs.
  assert (Hsave : forall d, AIRequest.schema_valid d = true ->
                            well_formed (AIRequest.pre_save (now ctx) d)).
  { intros d Hd. split; [exact Hd|reflexivity]. }
  split.
  - intros body.
    unfold aiTracking.post_track, aiTracking.post_track_interleaved.
    destruct (negb (aiTracking.track_valid body)); [exact Hs|].
    destruct (aiTracking.TrackBody.requestId body); [|exact Hs].
    destruct (aiTracking.TrackBody.model body); [|exact Hs].
    destruct (aiTracking.TrackBody.prompt body); [|exact Hs].
    destruct (readFails ctx); [exact Hs|].
    destruct (Collection.findOne _ _); [exact Hs|].
    unfold AIRequest.save_new.
    destruct (writeFails ctx); [exact Hs|].
    destruct (negb (AIRequest.schema_valid _)) eqn:Hvalid; [exact Hs|].
    destruct (existsb _ _); [exact Hs|]. simpl.
    apply Forall_app. split; [exact Hs|].
    apply Forall_singleton, Hsave. by apply negb_false_iff.
  - intros requestId body. unfold aiTracking.put_update.
    destruct (negb (aiTracking.update_valid body)); [exact Hs|].
    destruct (aiTracking.UpdateBody.status body); [|exact Hs].
    destruct (readFails ctx); [exact Hs|].
    destruct (Collection.findOne _ _) as [[i found]|]; [|exact Hs].
    unfold AIRequest.save_at.
    destruct (writeFails ctx); [exact Hs|].
    destruct (negb (AIRequest.schema_valid _)) eqn:Hvalid; [exact Hs|].
    destruct (aiTracking.update_metrics _ _ _); simpl;
      (apply Forall_insert; [exact Hs|]);
      apply Hsave; by apply negb_false_iff.
Qed.

(** The theorem for the state after alice tracked [r1], and her update that
    completes it. *)
Lemma stored_requests_stay_well_formed_witness :
  Forall
    (fun d =>
       AIRequest.schema_valid d = true
       /\ AIRequest.Tokens.total (AIRequest.tokens d)
          = Some (JS.or_zero (AIRequest.Tokens.input (AIRequest.tokens d))
                  + JS.or_zero (AIRequest.Tokens.output (AIRequest.tokens d))))
    (aiRequests
       (snd (aiTracking.put_update (Sample.call Sample.alice 2000) "r1"
               Sample.complete
               (Sample.tracked Sample.alice "r1" 1000 Sample.fresh)))).
Proof.
  apply (stored_requests_stay_well_formed (Sample.call Sample.alice 2000)
           (Sample.tracked Sample.alice "r1" 1000 Sample.fresh)).
  apply Forall_singleton. split; vm_compute; reflexivity.
Defined.
